(** * ESP32 MicroPython starter pack: the MPU6050 driver and the
      hand-motion direction display

    A shallow embedding of [mpu6050.py] and [motion_control.py].

    Conventions of the embedding.
    - Python [int] is [Z].  In the embedding of the whole program Python
      [float] is [R]: arithmetic is exact there, and a statement about a
      float result gives the program's own expression, or a fact that the
      rounding of floats leaves as it is.  An integer that only feeds float
      arithmetic (a raw reading added to a sum that is later divided) is
      injected with [IZR] where it is read.
    - Where the result depends on the rounding, in the averaging of
      [get_values], the method is embedded once more over [number]: Python's
      exact ints and IEEE 754 floats, binary32 or binary64
      ([MPU6050_float]).
    - A [bytes] object of length two is a pair of [byte].
    - The dictionaries keyed by string whose key set changes or is tested
      ([values], [data], [prev_data]) are [gmap string R]; the dictionaries
      with the three fixed keys "x", "y", "z" are the record [axes].
    - Exceptions are values of [exn]; code that can raise lives in the
      monad [M S], which threads the mutable state [S] and keeps the state
      reached when an exception is raised.
    - The I2C bus is a script: the list of the two-byte answers the device
      will give to the successive [readfrom_mem] transactions. *)

From Stdlib Require Import ZArith Reals Lra Lia List String.
From Stdlib Require Import Strings.Byte.
From Stdlib Require Import Floats.SpecFloat.
From stdpp Require Import gmap strings list fin_maps.

Local Open Scope Z_scope.

(** ** Python runtime: exceptions and the state-and-exception monad *)

Inductive exn : Type :=
| ZeroDivisionError
| NameError (name : string)
| KeyError (key : string)
| OSError.

Inductive result (A : Type) : Type :=
| Ok (a : A)
| Raise (e : exn).
Arguments Ok {A} a.
Arguments Raise {A} e.

Definition M (S A : Type) : Type := S -> result A * S.

Definition ret {S A} (a : A) : M S A := fun s => (Ok a, s).

Definition bind {S A B} (m : M S A) (k : A -> M S B) : M S B :=
  fun s => match m s with
           | (Ok a, s') => k a s'
           | (Raise e, s') => (Raise e, s')
           end.

Definition lift {S A} (r : result A) : M S A := fun s => (r, s).

Definition get {S} : M S S := fun s => (Ok s, s).

Definition gets {S A} (f : S -> A) : M S A := fun s => (Ok (f s), s).

Definition modify {S} (f : S -> S) : M S unit := fun s => (Ok tt, f s).

Declare Scope py_scope.
Delimit Scope py_scope with py.
Notation "x <- m ;; k" := (bind m (fun x => k))
  (at level 100, m at next level, right associativity) : py_scope.
Notation "m ;;; k" := (bind m (fun _ => k))
  (at level 100, right associativity) : py_scope.

(** [for _ in range(n): body], the local variables the body assigns
    threaded through as [a]. *)
Fixpoint for_range {S A} (n : nat) (body : A -> M S A) (a : A) : M S A :=
  match n with
  | O => ret a
  | S n' => bind (body a) (for_range n' body)
  end.

(** [for x in xs: body x], with the assigned variables threaded likewise. *)
Fixpoint for_each {S A B} (xs : list B) (body : B -> A -> M S A) (a : A) : M S A :=
  match xs with
  | [] => ret a
  | x :: xs' => bind (body x a) (for_each xs' body)
  end.

(** The same two notions for code that raises but touches no state. *)
Definition rbind {A B} (r : result A) (k : A -> result B) : result B :=
  match r with
  | Ok a => k a
  | Raise e => Raise e
  end.

(** [a / n] with [n] an [int]: true division, raising on a zero divisor. *)
Definition truediv (a : R) (n : Z) : result R :=
  if n =? 0 then Raise ZeroDivisionError else Ok (a / IZR n)%R.

(** [d[key]] *)
Definition getitem (d : gmap string R) (key : string) : result R :=
  match d !! key with
  | Some v => Ok v
  | None => Raise (KeyError key)
  end.

(** [d[key] += v] *)
Definition iadd (d : gmap string R) (key : string) (v : R) : result (gmap string R) :=
  rbind (getitem d key) (fun old => Ok (<[key := (old + v)%R]> d)).

(** The keys of a dictionary, each once, as a [for] loop over it visits
    them; the loops below are proved not to depend on their order. *)
Definition keys (d : gmap string R) : list string := (map_to_list d).*1.

(** [time.sleep(delay)]: real time is not part of the model. *)
Definition sleep {S} (delay : R) : M S unit := ret tt.

(** What [print] writes: fixed text, or the formatted direction line, kept
    as its fields because the [.1f] formatting of floats is presentation. *)
Inductive line : Type :=
| Text (s : string)
| DirectionLine (direction indicator : string) (angle_x angle_y angle_z : R).

(** The dictionaries [{"x": _, "y": _, "z": _}]. *)
Record axes (A : Type) : Type := Axes { x : A; y : A; z : A }.
Arguments Axes {A} x y z.
Arguments x {A} a.
Arguments y {A} a.
Arguments z {A} a.

(** ** Python's numbers, with the rounding of floats

    An [int] is exact; a [float] is a binary floating-point number of the
    interpreter's format, and every operation that involves one rounds to
    nearest, ties to even, as IEEE 754 has it ([SpecFloat]). *)

Module number.

(** A binary format: the bits of the mantissa, the implicit one included,
    and the exponent of the infinities.  CPython's float is [binary64];
    MicroPython is built with either. *)
Record format : Type := Format { prec : Z; emax : Z }.

Definition binary32 : format := Format 24 128.
Definition binary64 : format := Format 53 1024.

Inductive t : Type :=
| Int (n : Z)
| Float (f : spec_float).

Section Arithmetic.

Variable fmt : format.

(** [float(n)]: the float nearest to [n]. *)
Definition of_int (n : Z) : spec_float :=
  binary_normalize (prec fmt) (emax fmt) n 0 false.

(** The operand of a float operation: an [int] is converted first. *)
Definition to_float (a : t) : spec_float :=
  match a with
  | Int n => of_int n
  | Float f => f
  end.

(** [a + b] and [a - b]: exact on two ints, a rounded float otherwise. *)
Definition add (a b : t) : t :=
  match a, b with
  | Int m, Int n => Int (m + n)
  | _, _ => Float (SFadd (prec fmt) (emax fmt) (to_float a) (to_float b))
  end.

Definition sub (a b : t) : t :=
  match a, b with
  | Int m, Int n => Int (m - n)
  | _, _ => Float (SFsub (prec fmt) (emax fmt) (to_float a) (to_float b))
  end.

(** [a / b] for a divisor that is not zero: always a float, the rounded
    quotient of the two operands as floats.  (On two ints this is what
    MicroPython computes; CPython rounds the exact quotient, which is the
    same float whenever both ints are exact as floats.) *)
Definition div (a b : t) : t :=
  Float (SFdiv (prec fmt) (emax fmt) (to_float a) (to_float b)).

(** The decimal literal with the value [num / den], as [36.53] is
    [3653 / 100]: the float nearest to it. *)
Definition literal (num den : Z) : t := div (Int num) (Int den).

(** [a / n] with [n] an [int], raising on a zero divisor. *)
Definition truediv (a : t) (n : Z) : result t :=
  if n =? 0 then Raise ZeroDivisionError else Ok (div a (Int n)).

End Arithmetic.

End number.

(** ** The functions of the [math] module the program calls, as the real
    functions they compute. *)

Module math.

Local Open Scope R_scope.

Definition pi : R := PI.

Definition sqrt (v : R) : R := R_sqrt.sqrt v.

(** The angle of the point [(h, v)]: [atan2 v h]. *)
Definition atan2 (v h : R) : R :=
  if Rlt_dec 0 h then atan (v / h)
  else if Rlt_dec h 0 then
    (if Rle_dec 0 v then atan (v / h) + PI else atan (v / h) - PI)
  else if Rlt_dec 0 v then PI / 2
  else if Rlt_dec v 0 then - PI / 2
  else 0.

End math.

(** ** mpu6050.py *)

Module MPU6050.

Definition PWR_MGMT_1 : Z := 0x6B.
Definition GYRO_CONFIG : Z := 0x1B.
Definition ACCEL_CONFIG : Z := 0x1C.
Definition ACCEL_XOUT_H : Z := 0x3B.
Definition GYRO_XOUT_H : Z := 0x43.
Definition TEMP_OUT_H : Z := 0x41.

Definition ACCEL_SCALE_MODIFIER_2G : R := 16384.
Definition GYRO_SCALE_MODIFIER_250DEG : R := 131.

(** The object [self] together with what it talks to: the scripted bus
    and the console. *)
Record t : Type := Make {
  i2c : list (byte * byte);
  addr : Z;
  accel_offsets : axes R;
  gyro_offsets : axes R;
  console : list line
}.

Definition set_i2c (v : list (byte * byte)) (s : t) : t :=
  Make v (addr s) (accel_offsets s) (gyro_offsets s) (console s).
Definition set_accel_offsets (v : axes R) (s : t) : t :=
  Make (i2c s) (addr s) v (gyro_offsets s) (console s).
Definition set_gyro_offsets (v : axes R) (s : t) : t :=
  Make (i2c s) (addr s) (accel_offsets s) v (console s).
Definition set_console (v : list line) (s : t) : t :=
  Make (i2c s) (addr s) (accel_offsets s) (gyro_offsets s) v.

Definition print (l : line) : M t unit :=
  modify (fun s => set_console (console s ++ [l]) s).

(** [__init__]: the three configuration writes do not change what the
    scripted bus answers to reads; the offsets start at zero. *)
Definition init (bus : list (byte * byte)) : t :=
  Make bus 0x68 (Axes 0%R 0%R 0%R) (Axes 0%R 0%R 0%R) [].

(** [self.i2c.readfrom_mem(self.addr, reg, 2)]: the next scripted answer,
    [OSError] when the device gives none. *)
Definition readfrom_mem (reg : Z) : M t (byte * byte) :=
  fun s => match i2c s with
           | [] => (Raise OSError, s)
           | data :: rest => (Ok data, set_i2c rest s)
           end.

Definition byte_to_Z (b : byte) : Z := Z.of_N (Byte.to_N b).

(** Lines 37-40 of [read_raw_data]. *)
Definition combine (data : byte * byte) : Z :=
  let value := Z.lor (Z.shiftl (byte_to_Z (fst data)) 8) (byte_to_Z (snd data)) in
  if value >? 32767 then value - 65536 else value.

Definition read_raw_data (reg : Z) : M t Z :=
  (data <- readfrom_mem reg ;;
   ret (combine data))%py.

(** One pass of the sampling loop of [calibrate]. *)
Definition calibrate_body (delay : R) (sums : axes R * axes R) : M t (axes R * axes R) :=
  (let '(accel_sum, gyro_sum) := sums in
   accel_x <- read_raw_data ACCEL_XOUT_H ;;
   accel_y <- read_raw_data (ACCEL_XOUT_H + 2) ;;
   accel_z <- read_raw_data (ACCEL_XOUT_H + 4) ;;
   gyro_x <- read_raw_data GYRO_XOUT_H ;;
   gyro_y <- read_raw_data (GYRO_XOUT_H + 2) ;;
   gyro_z <- read_raw_data (GYRO_XOUT_H + 4) ;;
   let accel_sum :=
     Axes (x accel_sum + IZR accel_x)
          (y accel_sum + IZR accel_y)
          (z accel_sum + (IZR accel_z - ACCEL_SCALE_MODIFIER_2G)) in
   let gyro_sum :=
     Axes (x gyro_sum + IZR gyro_x)
          (y gyro_sum + IZR gyro_y)
          (z gyro_sum + IZR gyro_z) in
   sleep delay ;;;
   ret (accel_sum, gyro_sum))%py%R.

(** [self.accel_offsets[k] = v] and [self.gyro_offsets[k] = v] *)
Definition set_x (v : R) (a : axes R) : axes R := Axes v (y a) (z a).
Definition set_y (v : R) (a : axes R) : axes R := Axes (x a) v (z a).
Definition set_z (v : R) (a : axes R) : axes R := Axes (x a) (y a) v.
Definition store_accel (f : R -> axes R -> axes R) (v : R) : M t unit :=
  modify (fun s => set_accel_offsets (f v (accel_offsets s)) s).
Definition store_gyro (f : R -> axes R -> axes R) (v : R) : M t unit :=
  modify (fun s => set_gyro_offsets (f v (gyro_offsets s)) s).

Definition calibrate (samples : Z) (delay : R) : M t unit :=
  (print (Text "Calibrating MPU6050, keep the sensor still...") ;;;
   let accel_sum := Axes 0 0 0 in
   let gyro_sum := Axes 0 0 0 in
   sums <- for_range (Z.to_nat samples) (calibrate_body delay) (accel_sum, gyro_sum) ;;
   let '(accel_sum, gyro_sum) := sums in
   v <- lift (truediv (x accel_sum) samples) ;; store_accel set_x v ;;;
   v <- lift (truediv (y accel_sum) samples) ;; store_accel set_y v ;;;
   v <- lift (truediv (z accel_sum) samples) ;; store_accel set_z v ;;;
   v <- lift (truediv (x gyro_sum) samples) ;; store_gyro set_x v ;;;
   v <- lift (truediv (y gyro_sum) samples) ;; store_gyro set_y v ;;;
   v <- lift (truediv (z gyro_sum) samples) ;; store_gyro set_z v ;;;
   print (Text "Calibration complete"))%py%R.

(** The dictionary [values] as [get_values] creates it. *)
Definition values0 : gmap string R :=
  <["GyX" := 0%R]> (<["GyY" := 0%R]> (<["GyZ" := 0%R]> (<["Tmp" := 0%R]>
 (<["AcX" := 0%R]> (<["AcY" := 0%R]> (<["AcZ" := 0%R]> ∅)))))).

(** [if "GyX_deg" not in values: ...] *)
Definition add_scaled_keys (values : gmap string R) : gmap string R :=
  match values !! "GyX_deg" with
  | None =>
      <["AcZ_g" := 0%R]> (<["AcY_g" := 0%R]> (<["AcX_g" := 0%R]>
     (<["GyZ_deg" := 0%R]> (<["GyY_deg" := 0%R]> (<["GyX_deg" := 0%R]> values)))))
  | Some _ => values
  end.

(** One pass of the sampling loop of [get_values]. *)
Definition get_values_body (delay : R) (values : gmap string R) : M t (gmap string R) :=
  (raw <- read_raw_data ACCEL_XOUT_H ;; off <- gets accel_offsets ;;
   let accel_x := IZR raw - x off in
   raw <- read_raw_data (ACCEL_XOUT_H + 2) ;; off <- gets accel_offsets ;;
   let accel_y := IZR raw - y off in
   raw <- read_raw_data (ACCEL_XOUT_H + 4) ;; off <- gets accel_offsets ;;
   let accel_z := IZR raw - z off in
   raw <- read_raw_data GYRO_XOUT_H ;; off <- gets gyro_offsets ;;
   let gyro_x := IZR raw - x off in
   raw <- read_raw_data (GYRO_XOUT_H + 2) ;; off <- gets gyro_offsets ;;
   let gyro_y := IZR raw - y off in
   raw <- read_raw_data (GYRO_XOUT_H + 4) ;; off <- gets gyro_offsets ;;
   let gyro_z := IZR raw - z off in
   raw <- read_raw_data TEMP_OUT_H ;;
   let temp := IZR raw / 340 + 36.53 in
   let accel_x_g := accel_x / ACCEL_SCALE_MODIFIER_2G in
   let accel_y_g := accel_y / ACCEL_SCALE_MODIFIER_2G in
   let accel_z_g := accel_z / ACCEL_SCALE_MODIFIER_2G in
   let gyro_x_deg := gyro_x / GYRO_SCALE_MODIFIER_250DEG in
   let gyro_y_deg := gyro_y / GYRO_SCALE_MODIFIER_250DEG in
   let gyro_z_deg := gyro_z / GYRO_SCALE_MODIFIER_250DEG in
   values <- lift (iadd values "GyX" gyro_x) ;;
   values <- lift (iadd values "GyY" gyro_y) ;;
   values <- lift (iadd values "GyZ" gyro_z) ;;
   values <- lift (iadd values "Tmp" temp) ;;
   values <- lift (iadd values "AcX" accel_x) ;;
   values <- lift (iadd values "AcY" accel_y) ;;
   values <- lift (iadd values "AcZ" accel_z) ;;
   let values := add_scaled_keys values in
   values <- lift (iadd values "GyX_deg" gyro_x_deg) ;;
   values <- lift (iadd values "GyY_deg" gyro_y_deg) ;;
   values <- lift (iadd values "GyZ_deg" gyro_z_deg) ;;
   values <- lift (iadd values "AcX_g" accel_x_g) ;;
   values <- lift (iadd values "AcY_g" accel_y_g) ;;
   values <- lift (iadd values "AcZ_g" accel_z_g) ;;
   sleep delay ;;;
   ret values)%py%R.

(** [values[key] /= samples] *)
Definition average_key (samples : Z) (key : string) (values : gmap string R)
  : M t (gmap string R) :=
  (old <- lift (getitem values key) ;;
   v <- lift (truediv old samples) ;;
   ret (<[key := v]> values))%py.

Definition get_values (samples : Z) (delay : R) : M t (gmap string R) :=
  (let values := values0 in
   values <- for_range (Z.to_nat samples) (get_values_body delay) values ;;
   values <- for_each (keys values) (average_key samples) values ;;
   ret values)%py.

(** The names bound in the global namespace of [mpu6050.py]: its two
    imports and the class it defines. *)
Definition module_globals : list string := ["time"; "I2C"; "MPU6050"].

(** Evaluating a global name. *)
Definition load_global (globals : list string) (name : string) : result unit :=
  if existsb (String.eqb name) globals then Ok tt else Raise (NameError name).

(** Evaluating a local variable of a function: unbound until assigned. *)
Definition load_local (name : string) (v : option R) : result R :=
  match v with
  | Some r => Ok r
  | None => Raise (NameError name)
  end.

(** [apply_complementary_filter], run in the global namespace [globals];
    the sub-expressions are evaluated left to right, as Python does. *)
Definition apply_complementary_filter (globals : list string)
    (accel_data gyro_data : gmap string R) (dt alpha : R) : result (gmap string R) :=
  let angle_x : option R := None in
  let angle_y : option R := None in
  rbind (load_global globals "math") (fun _ =>
  rbind (getitem accel_data "AcY_g") (fun AcY_g =>
  rbind (getitem accel_data "AcZ_g") (fun AcZ_g =>
  rbind (load_global globals "math") (fun _ =>
  let accel_angle_x := (math.atan2 AcY_g AcZ_g * 180 / math.pi)%R in
  rbind (load_global globals "math") (fun _ =>
  rbind (getitem accel_data "AcX_g") (fun AcX_g =>
  rbind (load_global globals "math") (fun _ =>
  rbind (getitem accel_data "AcY_g") (fun AcY_g' =>
  rbind (getitem accel_data "AcZ_g") (fun AcZ_g' =>
  rbind (load_global globals "math") (fun _ =>
  let accel_angle_y :=
    (math.atan2 (- AcX_g) (math.sqrt (AcY_g' ^ 2 + AcZ_g' ^ 2)) * 180 / math.pi)%R in
  rbind (load_local "angle_x" angle_x) (fun angle_x_read =>
  rbind (getitem gyro_data "GyX_deg") (fun GyX_deg =>
  let angle_x :=
    Some (alpha * (angle_x_read + GyX_deg * dt) + (1 - alpha) * accel_angle_x)%R in
  rbind (load_local "angle_y" angle_y) (fun angle_y_read =>
  rbind (getitem gyro_data "GyY_deg") (fun GyY_deg =>
  let angle_y :=
    Some (alpha * (angle_y_read + GyY_deg * dt) + (1 - alpha) * accel_angle_y)%R in
  rbind (load_local "angle_x" angle_x) (fun angle_x =>
  rbind (load_local "angle_y" angle_y) (fun angle_y =>
  Ok (<["angle_x" := angle_x]> (<["angle_y" := angle_y]> ∅)))))))))))))))))).

End MPU6050.

(** ** mpu6050.py: the sampling of [get_values] in Python's numbers

    The same lines 35-40 and 81-141, with every value an [int] or a rounded
    [float] as the interpreter holds it.  The state is the object without
    its console, which these methods do not write. *)

Module MPU6050_float.

Import number.

Record t : Type := Make {
  i2c : list (byte * byte);
  addr : Z;
  accel_offsets : axes number.t;
  gyro_offsets : axes number.t
}.

Definition set_i2c (v : list (byte * byte)) (s : t) : t :=
  Make v (addr s) (accel_offsets s) (gyro_offsets s).

(** [__init__]: the offsets start as the ints [0]. *)
Definition init (bus : list (byte * byte)) : t :=
  Make bus 0x68 (Axes (Int 0) (Int 0) (Int 0)) (Axes (Int 0) (Int 0) (Int 0)).

Definition readfrom_mem (reg : Z) : M t (byte * byte) :=
  fun s => match i2c s with
           | [] => (Raise OSError, s)
           | data :: rest => (Ok data, set_i2c rest s)
           end.

Definition read_raw_data (reg : Z) : M t Z :=
  (data <- readfrom_mem reg ;;
   ret (MPU6050.combine data))%py.

(** [d[key]] *)
Definition getitem (d : gmap string number.t) (key : string) : result number.t :=
  match d !! key with
  | Some v => Ok v
  | None => Raise (KeyError key)
  end.

Definition keys (d : gmap string number.t) : list string := (map_to_list d).*1.

(** The dictionary [values] as [get_values] creates it. *)
Definition values0 : gmap string number.t :=
  <["GyX" := Int 0]> (<["GyY" := Int 0]> (<["GyZ" := Int 0]> (<["Tmp" := Int 0]>
 (<["AcX" := Int 0]> (<["AcY" := Int 0]> (<["AcZ" := Int 0]> ∅)))))).

(** [if "GyX_deg" not in values: ...] *)
Definition add_scaled_keys (values : gmap string number.t) : gmap string number.t :=
  match values !! "GyX_deg" with
  | None =>
      <["AcZ_g" := Int 0]> (<["AcY_g" := Int 0]> (<["AcX_g" := Int 0]>
     (<["GyZ_deg" := Int 0]> (<["GyY_deg" := Int 0]> (<["GyX_deg" := Int 0]> values)))))
  | Some _ => values
  end.

(** [time.sleep(delay)] *)
Definition sleep (delay : number.t) : M t unit := ret tt.

Section Format.

Variable fmt : format.

Definition ACCEL_SCALE_MODIFIER_2G : number.t := literal fmt 16384 1.
Definition GYRO_SCALE_MODIFIER_250DEG : number.t := literal fmt 131 1.

(** [d[key] += v] *)
Definition iadd (d : gmap string number.t) (key : string) (v : number.t)
  : result (gmap string number.t) :=
  rbind (getitem d key) (fun old => Ok (<[key := add fmt old v]> d)).

(** One pass of the sampling loop of [get_values]. *)
Definition get_values_body (delay : number.t) (values : gmap string number.t)
  : M t (gmap string number.t) :=
  (raw <- read_raw_data MPU6050.ACCEL_XOUT_H ;; off <- gets accel_offsets ;;
   let accel_x := sub fmt (Int raw) (x off) in
   raw <- read_raw_data (MPU6050.ACCEL_XOUT_H + 2) ;; off <- gets accel_offsets ;;
   let accel_y := sub fmt (Int raw) (y off) in
   raw <- read_raw_data (MPU6050.ACCEL_XOUT_H + 4) ;; off <- gets accel_offsets ;;
   let accel_z := sub fmt (Int raw) (z off) in
   raw <- read_raw_data MPU6050.GYRO_XOUT_H ;; off <- gets gyro_offsets ;;
   let gyro_x := sub fmt (Int raw) (x off) in
   raw <- read_raw_data (MPU6050.GYRO_XOUT_H + 2) ;; off <- gets gyro_offsets ;;
   let gyro_y := sub fmt (Int raw) (y off) in
   raw <- read_raw_data (MPU6050.GYRO_XOUT_H + 4) ;; off <- gets gyro_offsets ;;
   let gyro_z := sub fmt (Int raw) (z off) in
   raw <- read_raw_data MPU6050.TEMP_OUT_H ;;
   let temp := add fmt (div fmt (Int raw) (literal fmt 340 1)) (literal fmt 3653 100) in
   let accel_x_g := div fmt accel_x ACCEL_SCALE_MODIFIER_2G in
   let accel_y_g := div fmt accel_y ACCEL_SCALE_MODIFIER_2G in
   let accel_z_g := div fmt accel_z ACCEL_SCALE_MODIFIER_2G in
   let gyro_x_deg := div fmt gyro_x GYRO_SCALE_MODIFIER_250DEG in
   let gyro_y_deg := div fmt gyro_y GYRO_SCALE_MODIFIER_250DEG in
   let gyro_z_deg := div fmt gyro_z GYRO_SCALE_MODIFIER_250DEG in
   values <- lift (iadd values "GyX" gyro_x) ;;
   values <- lift (iadd values "GyY" gyro_y) ;;
   values <- lift (iadd values "GyZ" gyro_z) ;;
   values <- lift (iadd values "Tmp" temp) ;;
   values <- lift (iadd values "AcX" accel_x) ;;
   values <- lift (iadd values "AcY" accel_y) ;;
   values <- lift (iadd values "AcZ" accel_z) ;;
   let values := add_scaled_keys values in
   values <- lift (iadd values "GyX_deg" gyro_x_deg) ;;
   values <- lift (iadd values "GyY_deg" gyro_y_deg) ;;
   values <- lift (iadd values "GyZ_deg" gyro_z_deg) ;;
   values <- lift (iadd values "AcX_g" accel_x_g) ;;
   values <- lift (iadd values "AcY_g" accel_y_g) ;;
   values <- lift (iadd values "AcZ_g" accel_z_g) ;;
   sleep delay ;;;
   ret values)%py.

(** [values[key] /= samples] *)
Definition average_key (samples : Z) (key : string) (values : gmap string number.t)
  : M t (gmap string number.t) :=
  (old <- lift (getitem values key) ;;
   v <- lift (truediv fmt old samples) ;;
   ret (<[key := v]> values))%py.

Definition get_values (samples : Z) (delay : number.t) : M t (gmap string number.t) :=
  (let values := values0 in
   values <- for_range (Z.to_nat samples) (get_values_body delay) values ;;
   values <- for_each (keys values) (average_key samples) values ;;
   ret values)%py.

End Format.

End MPU6050_float.

(** The big-endian two's-complement encoding of a 16-bit value, as the
    sensor lays a signed reading out in a register pair (the inverse the
    specification round-trips through; it is not code of the driver). *)
Definition Z_to_byte (n : Z) : byte :=
  match Byte.of_N (Z.to_N n) with
  | Some b => b
  | None => Byte.x00
  end.

Definition encode_be16 (v : Z) : byte * byte :=
  let u := v mod 65536 in (Z_to_byte (u / 256), Z_to_byte (u mod 256)).

(** Comparisons of numbers, as the booleans Python computes. *)
Definition Rgtb (a b : R) : bool := if Rgt_dec a b then true else false.
Definition Rltb (a b : R) : bool := if Rlt_dec a b then true else false.

(** ** motion_control.py *)

Module motion_control.

Local Open Scope R_scope.

Definition alpha : R := 0.8.
Definition beta : R := 0.95.

Definition LEFT_THRESHOLD : R := -15.
Definition RIGHT_THRESHOLD : R := 15.
Definition TURN_THRESHOLD : R := 20.
Definition FORWARD_THRESHOLD : R := 15.
Definition BACKWARD_THRESHOLD : R := -15.
Definition DEAD_ZONE : R := 10.

Definition low_pass_filter (new_value prev_value alpha : R) : R :=
  alpha * prev_value + (1 - alpha) * new_value.

Definition get_direction (angle_x angle_y angle_z : R) : string :=
  let direction := "STOP" in
  let direction :=
    if Rgtb angle_y DEAD_ZONE && Rgtb angle_y FORWARD_THRESHOLD then "FORWARD"
    else if Rltb angle_y (- DEAD_ZONE) && Rltb angle_y BACKWARD_THRESHOLD then "BACKWARD"
    else direction in
  let direction :=
    if Rltb angle_x (- DEAD_ZONE) && Rltb angle_x LEFT_THRESHOLD then "LEFT"
    else if Rgtb angle_x DEAD_ZONE && Rgtb angle_x RIGHT_THRESHOLD then "RIGHT"
    else direction in
  let direction :=
    if Rgtb (Rabs angle_z) DEAD_ZONE && Rgtb (Rabs angle_z) TURN_THRESHOLD then
      (if Rgtb angle_z 0 then "ROTATE_RIGHT" else "ROTATE_LEFT")
    else direction in
  direction.

(** The module globals [mpu], [prev_angles], [prev_time] and the locals of
    [start_direction_display] that live across cycles. *)
Record t : Type := Make {
  mpu : MPU6050.t;
  prev_angles : axes R;
  prev_time : Z;
  prev_data : gmap string R;
  prev_direction : string;
  direction_count : Z
}.

Definition set_mpu (v : MPU6050.t) (s : t) : t :=
  Make v (prev_angles s) (prev_time s) (prev_data s) (prev_direction s) (direction_count s).
Definition set_prev_angles (v : axes R) (s : t) : t :=
  Make (mpu s) v (prev_time s) (prev_data s) (prev_direction s) (direction_count s).
Definition set_prev_time (v : Z) (s : t) : t :=
  Make (mpu s) (prev_angles s) v (prev_data s) (prev_direction s) (direction_count s).
Definition set_prev_data (v : gmap string R) (s : t) : t :=
  Make (mpu s) (prev_angles s) (prev_time s) v (prev_direction s) (direction_count s).
Definition set_prev_direction (v : string) (s : t) : t :=
  Make (mpu s) (prev_angles s) (prev_time s) (prev_data s) v (direction_count s).
Definition set_direction_count (v : Z) (s : t) : t :=
  Make (mpu s) (prev_angles s) (prev_time s) (prev_data s) (prev_direction s) v.

(** A method call on the global [mpu]. *)
Definition on_mpu {A} (m : M MPU6050.t A) : M t A :=
  fun s => let '(r, d) := m (mpu s) in (r, set_mpu d s).

Definition print (l : line) : M t unit := on_mpu (MPU6050.print l).

(** The module as loaded: [mpu = MPU6050(i2c)], zero angles, and
    [prev_time = time.ticks_ms()] read as [now]; the locals of
    [start_direction_display] at the values it first assigns them. *)
Definition init (bus : list (byte * byte)) (now : Z) : t :=
  Make (MPU6050.init bus) (Axes 0 0 0) now ∅ "STOP" 0%Z.

(** Lines 78-81: the low-pass filter over the keys of [data]. *)
Definition smooth_key (prev_data : gmap string R) (key : string) (data : gmap string R)
  : M t (gmap string R) :=
  match prev_data !! key with
  | Some prev_value =>
      (new_value <- lift (getitem data key) ;;
       ret (<[key := low_pass_filter new_value prev_value alpha]> data))%py
  | None => ret data
  end.

Definition smooth (prev_data data : gmap string R) : M t (gmap string R) :=
  if (size prev_data =? 0)%nat then ret data
  else for_each (keys data) (smooth_key prev_data) data.

(** Lines 86-93: the tilt angles and the complementary filter. *)
Definition update_angles (prev_angles : axes R) (data : gmap string R) (dt : R)
  : result (axes R) :=
  rbind (getitem data "AcY_g") (fun AcY_g =>
  rbind (getitem data "AcZ_g") (fun AcZ_g =>
  let accel_angle_x := math.atan2 AcY_g AcZ_g * 180 / math.pi in
  rbind (getitem data "AcX_g") (fun AcX_g =>
  let accel_angle_y :=
    math.atan2 (- AcX_g) (math.sqrt (AcY_g ^ 2 + AcZ_g ^ 2)) * 180 / math.pi in
  rbind (getitem data "GyX_deg") (fun GyX_deg =>
  let angle_x := beta * (x prev_angles + GyX_deg * dt) + (1 - beta) * accel_angle_x in
  rbind (getitem data "GyY_deg") (fun GyY_deg =>
  let angle_y := beta * (y prev_angles + GyY_deg * dt) + (1 - beta) * accel_angle_y in
  rbind (getitem data "GyZ_deg") (fun GyZ_deg =>
  let angle_z := z prev_angles + GyZ_deg * dt in
  Ok (Axes angle_x angle_y angle_z))))))).

(** Lines 102-106: the consecutive-match counter. *)
Definition debounce (direction : string) (st : string * Z) : string * Z :=
  let '(prev_direction, direction_count) := st in
  if String.eqb direction prev_direction then (prev_direction, (direction_count + 1)%Z)
  else (direction, 0%Z).

(** Lines 115-127 *)
Definition indicator_of (direction : string) : string :=
  if String.eqb direction "FORWARD" then "↑"
  else if String.eqb direction "BACKWARD" then "↓"
  else if String.eqb direction "LEFT" then "←"
  else if String.eqb direction "RIGHT" then "→"
  else if String.eqb direction "ROTATE_LEFT" then "↺"
  else if String.eqb direction "ROTATE_RIGHT" then "↻"
  else "".

(** Lines 98-130: classify the angles, count the matches, print. *)
Definition display (angles : axes R) : M t unit :=
  (let direction := get_direction (x angles) (y angles) (z angles) in
   s <- get ;;
   let '(prev_direction, direction_count) :=
     debounce direction (prev_direction s, direction_count s) in
   modify (set_direction_count direction_count) ;;;
   modify (set_prev_direction prev_direction) ;;;
   if (direction_count >=? 2)%Z then
     print (DirectionLine direction (indicator_of direction)
              (x angles) (y angles) (z angles))
   else ret tt)%py.

(** One pass of the [while True] loop, [current_time] being what
    [time.ticks_ms()] answers. *)
Definition cycle (current_time : Z) : M t unit :=
  (s <- get ;;
   let dt := IZR (current_time - prev_time s) / 1000 in
   modify (set_prev_time current_time) ;;;
   data <- on_mpu (MPU6050.get_values 5 0.01) ;;
   s <- get ;;
   data <- smooth (prev_data s) data ;;
   match data !! "AcX_g" with
   | Some _ =>
       s <- get ;;
       angles <- lift (update_angles (prev_angles s) data dt) ;;
       modify (set_prev_angles angles) ;;;
       display angles ;;;
       modify (set_prev_data data)
   | None => ret tt
   end ;;;
   sleep 0.1)%py.

(** [start_direction_display], run for as many cycles as [ticks] has
    clock readings. *)
Definition start_direction_display (ticks : list Z) : M t unit :=
  (modify (set_prev_data ∅) ;;;
   modify (set_prev_direction "STOP") ;;;
   modify (set_direction_count 0%Z) ;;;
   print (Text "Calibrating sensor, please keep hand in neutral position...") ;;;
   on_mpu (MPU6050.calibrate 100 0.01) ;;;
   print (Text "Calibration complete! Start moving your hand to see directions.") ;;;
   print (Text "MODIFIED MAPPING: forward=Y+, backward=Y-, left=X-, right=X+") ;;;
   for_each ticks (fun current_time _ => cycle current_time) tt)%py.

(** What the display shows for a run of classifier labels: the debounce
    of the loop iterated from its initial locals, one entry per cycle,
    [Some direction] where the cycle prints its direction line. *)
Fixpoint shown_from (st : string * Z) (directions : list string) : list (option string) :=
  match directions with
  | [] => []
  | direction :: rest =>
      let st' := debounce direction st in
      (if (snd st' >=? 2)%Z then Some direction else None) :: shown_from st' rest
  end.

Definition shown (directions : list string) : list (option string) :=
  shown_from ("STOP", 0%Z) directions.

End motion_control.

(** ** Vocabulary of the statements: readings, bus scripts, sums, means *)

Definition Rsum (l : list R) : R := foldr Rplus 0%R l.

Definition mean (l : list R) : R := (Rsum l / INR (length l))%R.

(** The value a register pair holds, as a number. *)
Definition raw (p : byte * byte) : R := IZR (MPU6050.combine p).

(** A six-axis reading: what one pass of a sampling loop reads for the
    accelerometer and for the gyroscope. *)
Abbreviation reading := (axes (byte * byte) * axes (byte * byte))%type.

(** The transactions by which [calibrate] consumes a run of readings. *)
Definition calibrate_script (rs : list reading) : list (byte * byte) :=
  flat_map (fun r => [x (fst r); y (fst r); z (fst r); x (snd r); y (snd r); z (snd r)]) rs.

(** [get_values] reads the temperature pair after the six axes. *)
Definition get_values_script (rs : list (reading * (byte * byte))) : list (byte * byte) :=
  flat_map (fun r => [x (fst (fst r)); y (fst (fst r)); z (fst (fst r));
                      x (snd (fst r)); y (snd (fst r)); z (snd (fst r)); snd r]) rs.

(** What one pass of the sampling loop of [calibrate] adds to the sums. *)
Definition calibrate_acc (sums : axes R * axes R) (r : reading) : axes R * axes R :=
  (Axes (x (fst sums) + raw (x (fst r)))
        (y (fst sums) + raw (y (fst r)))
        (z (fst sums) + (raw (z (fst r)) - MPU6050.ACCEL_SCALE_MODIFIER_2G)),
   Axes (x (snd sums) + raw (x (snd r)))
        (y (snd sums) + raw (y (snd r)))
        (z (snd sums) + raw (z (snd r))))%R.

(** The per-axis means of a run of readings, with gravity taken off the
    accelerometer Z samples as [calibrate] does. *)
Definition accel_means (rs : list reading) : axes R :=
  Axes (mean (map (fun r => raw (x (fst r))) rs))
       (mean (map (fun r => raw (y (fst r))) rs))
       (mean (map (fun r => (raw (z (fst r)) - 16384)%R) rs)).

Definition gyro_means (rs : list reading) : axes R :=
  Axes (mean (map (fun r => raw (x (snd r))) rs))
       (mean (map (fun r => raw (y (snd r))) rs))
       (mean (map (fun r => raw (z (snd r))) rs)).

(** The thirteen accumulators of [get_values], by key. *)
Record totals : Type := Totals {
  GyX : R; GyY : R; GyZ : R; Tmp : R; AcX : R; AcY : R; AcZ : R;
  GyX_deg : R; GyY_deg : R; GyZ_deg : R; AcX_g : R; AcY_g : R; AcZ_g : R
}.

Definition dict_of_totals (t : totals) : gmap string R :=
  <["GyX" := GyX t]> (<["GyY" := GyY t]> (<["GyZ" := GyZ t]> (<["Tmp" := Tmp t]>
 (<["AcX" := AcX t]> (<["AcY" := AcY t]> (<["AcZ" := AcZ t]>
 (<["GyX_deg" := GyX_deg t]> (<["GyY_deg" := GyY_deg t]> (<["GyZ_deg" := GyZ_deg t]>
 (<["AcX_g" := AcX_g t]> (<["AcY_g" := AcY_g t]> (<["AcZ_g" := AcZ_g t]> ∅)))))))))))).

Definition no_totals : totals := Totals 0 0 0 0 0 0 0 0 0 0 0 0 0.

(** What one pass of the sampling loop of [get_values] adds to each
    accumulator, the calibration offsets being [ao] and [go]. *)
Definition get_values_acc (ao go : axes R) (t : totals) (r : reading * (byte * byte))
  : totals :=
  let accel_x := (raw (x (fst (fst r))) - x ao)%R in
  let accel_y := (raw (y (fst (fst r))) - y ao)%R in
  let accel_z := (raw (z (fst (fst r))) - z ao)%R in
  let gyro_x := (raw (x (snd (fst r))) - x go)%R in
  let gyro_y := (raw (y (snd (fst r))) - y go)%R in
  let gyro_z := (raw (z (snd (fst r))) - z go)%R in
  Totals (GyX t + gyro_x) (GyY t + gyro_y) (GyZ t + gyro_z)
         (Tmp t + (raw (snd r) / 340 + 36.53))
         (AcX t + accel_x) (AcY t + accel_y) (AcZ t + accel_z)
         (GyX_deg t + gyro_x / MPU6050.GYRO_SCALE_MODIFIER_250DEG)
         (GyY_deg t + gyro_y / MPU6050.GYRO_SCALE_MODIFIER_250DEG)
         (GyZ_deg t + gyro_z / MPU6050.GYRO_SCALE_MODIFIER_250DEG)
         (AcX_g t + accel_x / MPU6050.ACCEL_SCALE_MODIFIER_2G)
         (AcY_g t + accel_y / MPU6050.ACCEL_SCALE_MODIFIER_2G)
         (AcZ_g t + accel_z / MPU6050.ACCEL_SCALE_MODIFIER_2G)%R.

(** The accumulators of [MPU6050_float.get_values] as a dictionary, the
    value under each of the thirteen keys given by [f]. *)
Definition dict_of (f : string -> number.t) : gmap string number.t :=
  <["GyX" := f "GyX"]> (<["GyY" := f "GyY"]> (<["GyZ" := f "GyZ"]> (<["Tmp" := f "Tmp"]>
 (<["AcX" := f "AcX"]> (<["AcY" := f "AcY"]> (<["AcZ" := f "AcZ"]>
 (<["GyX_deg" := f "GyX_deg"]> (<["GyY_deg" := f "GyY_deg"]> (<["GyZ_deg" := f "GyZ_deg"]>
 (<["AcX_g" := f "AcX_g"]> (<["AcY_g" := f "AcY_g"]> (<["AcZ_g" := f "AcZ_g"]> ∅)))))))))))).

(** What one pass of the sampling loop of [MPU6050_float.get_values] adds
    under [key], the calibration offsets being [ao] and [go]. *)
Definition sample_term (fmt : number.format) (ao go : axes number.t)
    (r : reading * (byte * byte)) (key : string) : number.t :=
  let accel_x := number.sub fmt (number.Int (MPU6050.combine (x (fst (fst r))))) (x ao) in
  let accel_y := number.sub fmt (number.Int (MPU6050.combine (y (fst (fst r))))) (y ao) in
  let accel_z := number.sub fmt (number.Int (MPU6050.combine (z (fst (fst r))))) (z ao) in
  let gyro_x := number.sub fmt (number.Int (MPU6050.combine (x (snd (fst r))))) (x go) in
  let gyro_y := number.sub fmt (number.Int (MPU6050.combine (y (snd (fst r))))) (y go) in
  let gyro_z := number.sub fmt (number.Int (MPU6050.combine (z (snd (fst r))))) (z go) in
  if String.eqb key "GyX" then gyro_x
  else if String.eqb key "GyY" then gyro_y
  else if String.eqb key "GyZ" then gyro_z
  else if String.eqb key "Tmp" then
    number.add fmt
      (number.div fmt (number.Int (MPU6050.combine (snd r))) (number.literal fmt 340 1))
      (number.literal fmt 3653 100)
  else if String.eqb key "AcX" then accel_x
  else if String.eqb key "AcY" then accel_y
  else if String.eqb key "AcZ" then accel_z
  else if String.eqb key "GyX_deg" then
    number.div fmt gyro_x (MPU6050_float.GYRO_SCALE_MODIFIER_250DEG fmt)
  else if String.eqb key "GyY_deg" then
    number.div fmt gyro_y (MPU6050_float.GYRO_SCALE_MODIFIER_250DEG fmt)
  else if String.eqb key "GyZ_deg" then
    number.div fmt gyro_z (MPU6050_float.GYRO_SCALE_MODIFIER_250DEG fmt)
  else if String.eqb key "AcX_g" then
    number.div fmt accel_x (MPU6050_float.ACCEL_SCALE_MODIFIER_2G fmt)
  else if String.eqb key "AcY_g" then
    number.div fmt accel_y (MPU6050_float.ACCEL_SCALE_MODIFIER_2G fmt)
  else number.div fmt accel_z (MPU6050_float.ACCEL_SCALE_MODIFIER_2G fmt).

(** A gyroscope X reading [v] with every other register at zero. *)
Definition gyro_x_only (v : Z) : reading * (byte * byte) :=
  let zero := (Byte.x00, Byte.x00) in
  ((Axes zero zero zero, Axes (encode_be16 v) zero zero), zero).

(** The display code of the loop run over a sequence of angle triples. *)
Definition display_all (angles : list (axes R)) : M motion_control.t unit :=
  for_each angles (fun a _ => motion_control.display a) tt.

Definition classify_all (angles : list (axes R)) : list string :=
  map (fun a => motion_control.get_direction (x a) (y a) (z a)) angles.

(** The direction lines of the cycles marked [Some _]. *)
Fixpoint lines_of (angles : list (axes R)) (marks : list (option string)) : list line :=
  match angles, marks with
  | a :: angles', Some d :: marks' =>
      DirectionLine d (motion_control.indicator_of d) (x a) (y a) (z a)
        :: lines_of angles' marks'
  | _ :: angles', None :: marks' => lines_of angles' marks'
  | _, _ => []
  end.

(** What [get_values] returns for a sensor at rest and calibrated at rest:
    no acceleration but gravity on Z, no rotation, the temperature [temp]. *)
Definition resting_values (temp : R) : gmap string R :=
  dict_of_totals
    {| GyX := 0; GyY := 0; GyZ := 0; Tmp := temp;
       AcX := 0; AcY := 0; AcZ := 16384;
       GyX_deg := 0; GyY_deg := 0; GyZ_deg := 0;
       AcX_g := 0; AcY_g := 0; AcZ_g := 1 |}.

(** The offsets [calibrate] stores for a sensor that reads [r] throughout. *)
Definition calibrated_to (r : reading) (s : MPU6050.t) : Prop :=
  MPU6050.accel_offsets s =
    Axes (raw (x (fst r))) (raw (y (fst r))) (raw (z (fst r)) - 16384)%R
  /\ MPU6050.gyro_offsets s = Axes (raw (x (snd r))) (raw (y (snd r))) (raw (z (snd r))).

(** The label of the opposite motion. *)
Definition mirror (direction : string) : string :=
  if String.eqb direction "FORWARD" then "BACKWARD"
  else if String.eqb direction "BACKWARD" then "FORWARD"
  else if String.eqb direction "LEFT" then "RIGHT"
  else if String.eqb direction "RIGHT" then "LEFT"
  else if String.eqb direction "ROTATE_LEFT" then "ROTATE_RIGHT"
  else if String.eqb direction "ROTATE_RIGHT" then "ROTATE_LEFT"
  else direction.

(** The six entries the orientation update reads, in the order it first
    reads them. *)
Definition update_keys : list string :=
  ["AcY_g"; "AcZ_g"; "AcX_g"; "GyX_deg"; "GyY_deg"; "GyZ_deg"].

(** The line the loop prints for a sensor at rest. *)
Definition stop_line : line := DirectionLine "STOP" "" 0 0 0.

(** The state of the loop at rest after some cycles: calibrated to the
    reading [r], level angles, the resting reading as filter state or none
    yet, and STOP matched [c] times. *)
Definition at_rest (r : reading) (temp : R) (first : bool) (c : Z) (s : motion_control.t)
  : Prop :=
  calibrated_to r (motion_control.mpu s)
  /\ motion_control.prev_angles s = Axes 0%R 0%R 0%R
  /\ motion_control.prev_data s = (if first then ∅ else resting_values temp)
  /\ motion_control.prev_direction s = "STOP"
  /\ motion_control.direction_count s = c.

(** ** PWM.py *)

Module PWM.

(** [len(range(start, stop, step))] for a nonzero [step]. *)
Definition range_len (start stop step : Z) : nat :=
  Z.to_nat (if 0 <? step then (stop - start + step - 1) / step
            else (start - stop - step - 1) / (- step)).

(** [range(start, stop, step)] *)
Definition range (start stop step : Z) : list Z :=
  map (fun i => start + step * Z.of_nat i) (seq 0 (range_len start stop step)).

(** The PWM object [led]: the frequency set and the duties written so far,
    oldest first. *)
Record t : Type := Make { freq : Z; duties : list Z }.

(** [led.freq(f)] and [led.duty(d)] *)
Definition set_freq (f : Z) (led : t) : t := Make f (duties led).
Definition duty (led : t) (d : Z) : t := Make (freq led) (duties led ++ [d]).

(** One pass of the [while True] loop: the ramp up, then the ramp down. *)
Definition pass (led : t) : t :=
  let led := foldl duty led (range 0 1024 10) in
  foldl duty led (range 1023 (-1) (-10)).

(** The program, run for [n] passes of its loop. *)
Definition main (n : nat) : t := Nat.iter n pass (set_freq 2000 (Make 0 [])).

End PWM.

(** Whether consecutive entries of a list differ by at most 10. *)
Fixpoint steps_ok (l : list Z) : bool :=
  match l with
  | a :: (b :: _) as rest => (Z.abs (b - a) <=? 10) && steps_ok rest
  | _ => true
  end.

(** * Properties *)

(** ** The monad *)

Lemma bind_ok {S A B} (m : M S A) (k : A -> M S B) (s s' : S) (a : A) :
  m s = (Ok a, s') -> bind m k s = k a s'.
Proof. intros H. unfold bind. rewrite H. reflexivity. Qed.

Lemma bind_raise {S A B} (m : M S A) (k : A -> M S B) (s s' : S) (e : exn) :
  m s = (Raise e, s') -> bind m k s = (Raise e, s').
Proof. intros H. unfold bind. rewrite H. reflexivity. Qed.

(** ** Register decoding *)

Section Decoding.

Local Open Scope Z_scope.

Lemma byte_to_Z_range (b : byte) : 0 <= MPU6050.byte_to_Z b < 256.
Proof.
  unfold MPU6050.byte_to_Z.
  pose proof (Byte.to_N_bounded b) as Hb. lia.
Qed.

Lemma Z_to_byte_to_Z (n : Z) : 0 <= n < 256 -> MPU6050.byte_to_Z (Z_to_byte n) = n.
Proof.
  intros Hn. unfold MPU6050.byte_to_Z, Z_to_byte.
  destruct (Byte.of_N (Z.to_N n)) as [b|] eqn:E.
  - apply Byte.to_of_N in E. rewrite E. lia.
  - apply Byte.of_N_None_iff in E. lia.
Qed.

Lemma byte_to_Z_to_byte (b : byte) : Z_to_byte (MPU6050.byte_to_Z b) = b.
Proof.
  unfold MPU6050.byte_to_Z, Z_to_byte.
  rewrite N2Z.id, Byte.of_to_N. reflexivity.
Qed.

(** Shifting the high byte by eight leaves the low eight bits free, so
    the bitwise or is a sum. *)
Lemma lor_shiftl_8 (hi lo : Z) :
  0 <= hi -> 0 <= lo < 256 -> Z.lor (Z.shiftl hi 8) lo = hi * 256 + lo.
Proof.
  intros Hhi Hlo.
  assert (Hland : Z.land (Z.shiftl hi 8) lo = 0).
  { apply Z.bits_inj'. intros n Hn.
    rewrite Z.land_spec, Z.bits_0.
    destruct (Z.ltb_spec n 8).
    - rewrite Z.shiftl_spec_low by lia. reflexivity.
    - destruct (Z.eqb_spec lo 0) as [->|Hne].
      + rewrite Z.bits_0. apply andb_false_r.
      + rewrite (Z.bits_above_log2 lo n).
        * apply andb_false_r.
        * lia.
        * apply Z.log2_lt_pow2; [lia|].
          apply Z.lt_le_trans with (2 ^ 8); [simpl; lia|].
          apply Z.pow_le_mono_r; lia. }
  rewrite <- Z.lxor_lor by exact Hland.
  rewrite <- Z.add_nocarry_lxor by exact Hland.
  rewrite Z.shiftl_mul_pow2 by lia. reflexivity.
Qed.

Lemma combine_eq (b0 b1 : byte) :
  MPU6050.combine (b0, b1) =
    let value := MPU6050.byte_to_Z b0 * 256 + MPU6050.byte_to_Z b1 in
    if value >? 32767 then value - 65536 else value.
Proof.
  unfold MPU6050.combine; simpl fst; simpl snd.
  pose proof (byte_to_Z_range b0). pose proof (byte_to_Z_range b1).
  rewrite lor_shiftl_8 by lia. reflexivity.
Qed.

Lemma combine_range (data : byte * byte) : -32768 <= MPU6050.combine data <= 32767.
Proof.
  destruct data as [b0 b1]. rewrite combine_eq. cbv zeta.
  pose proof (byte_to_Z_range b0). pose proof (byte_to_Z_range b1).
  destruct (Z.gtb_spec (MPU6050.byte_to_Z b0 * 256 + MPU6050.byte_to_Z b1) 32767); lia.
Qed.

Lemma combine_encode (v : Z) :
  -32768 <= v <= 32767 -> MPU6050.combine (encode_be16 v) = v.
Proof.
  intros Hv. unfold encode_be16. cbv zeta. rewrite combine_eq. cbv zeta.
  assert (Hu : 0 <= v mod 65536 < 65536) by (apply Z.mod_pos_bound; lia).
  rewrite !Z_to_byte_to_Z.
  - assert (Hd : v mod 65536 / 256 * 256 + v mod 65536 mod 256 = v mod 65536).
    { pose proof (Z.div_mod (v mod 65536) 256). lia. }
    rewrite Hd.
    destruct (Z.gtb_spec (v mod 65536) 32767) as [Hgt|Hle].
    + assert (v < 0) by (destruct (Z.lt_ge_cases v 0); [assumption|];
                         rewrite Z.mod_small in Hgt; lia).
      rewrite <- (Z.mod_add v 1 65536) by lia.
      rewrite Z.mod_small by lia. lia.
    + assert (0 <= v).
      { destruct (Z.lt_ge_cases v 0) as [Hneg|]; [|assumption].
        rewrite <- (Z.mod_add v 1 65536) in Hle by lia.
        rewrite Z.mod_small in Hle; lia. }
      apply Z.mod_small; lia.
  - apply Z.mod_pos_bound; lia.
  - split; [apply Z.div_pos; lia|apply Z.div_lt_upper_bound; lia].
Qed.

Lemma encode_combine (data : byte * byte) : encode_be16 (MPU6050.combine data) = data.
Proof.
  destruct data as [b0 b1]. rewrite combine_eq. cbv zeta.
  pose proof (byte_to_Z_range b0) as H0. pose proof (byte_to_Z_range b1) as H1.
  set (a := MPU6050.byte_to_Z b0) in *. set (b := MPU6050.byte_to_Z b1) in *.
  assert (Hu : (if a * 256 + b >? 32767 then a * 256 + b - 65536 else a * 256 + b)
                 mod 65536 = a * 256 + b).
  { destruct (Z.gtb_spec (a * 256 + b) 32767).
    - rewrite <- (Z.mod_add (a * 256 + b - 65536) 1 65536) by lia.
      replace (a * 256 + b - 65536 + 1 * 65536) with (a * 256 + b) by lia.
      apply Z.mod_small; lia.
    - apply Z.mod_small; lia. }
  unfold encode_be16. cbv zeta. rewrite Hu.
  assert (Hq : (a * 256 + b) / 256 = a).
  { rewrite Z.add_comm, Z.div_add by lia. rewrite Z.div_small by lia. lia. }
  assert (Hr : (a * 256 + b) mod 256 = b).
  { rewrite Z.add_comm, Z.mod_add by lia. apply Z.mod_small; lia. }
  rewrite Hq, Hr. subst a b. rewrite !byte_to_Z_to_byte. reflexivity.
Qed.

(** What [read_raw_data] does to the bus and returns. *)
Lemma read_raw_data_run (reg : Z) (s : MPU6050.t) :
  MPU6050.read_raw_data reg s =
    match MPU6050.i2c s with
    | [] => (Raise OSError, s)
    | data :: rest => (Ok (MPU6050.combine data), MPU6050.set_i2c rest s)
    end.
Proof.
  unfold MPU6050.read_raw_data, bind, MPU6050.readfrom_mem, ret.
  destruct (MPU6050.i2c s); reflexivity.
Qed.

End Decoding.

(** C3: the value [read_raw_data] returns for a register pair is
    [(byte0 << 8) | byte1] when that is at most 32767 and that minus 65536
    otherwise; it lies in [-32768, 32767]; decoding the big-endian encoding
    of any value of that range gives the value back, and encoding the
    decoded value gives the pair back, so decoding is a bijection from the
    byte pairs onto the range; 0xFF,0xFF is -1, 0x7F,0xFF is 32767 and
    0x80,0x00 is -32768. *)
Theorem decode_bijection :
  (forall reg s data rest, MPU6050.i2c s = data :: rest ->
     fst (MPU6050.read_raw_data reg s) = Ok (MPU6050.combine data))
  /\ (forall b0 b1,
       MPU6050.combine (b0, b1) =
         let value := Z.lor (Z.shiftl (MPU6050.byte_to_Z b0) 8) (MPU6050.byte_to_Z b1) in
         if value <=? 32767 then value else value - 65536)
  /\ (forall data, -32768 <= MPU6050.combine data <= 32767)
  /\ (forall v, -32768 <= v <= 32767 -> MPU6050.combine (encode_be16 v) = v)
  /\ (forall data, encode_be16 (MPU6050.combine data) = data)
  /\ MPU6050.combine (Byte.xff, Byte.xff) = -1
  /\ MPU6050.combine (Byte.x7f, Byte.xff) = 32767
  /\ MPU6050.combine (Byte.x80, Byte.x00) = -32768.
Proof.
  split; [|split; [|split; [|split; [|split; [|split; [|split]]]]]].
  - intros reg s data rest H. rewrite read_raw_data_run, H. reflexivity.
  - intros b0 b1. unfold MPU6050.combine; simpl fst; simpl snd. cbv zeta.
    destruct (Z.gtb_spec (Z.lor (Z.shiftl (MPU6050.byte_to_Z b0) 8) (MPU6050.byte_to_Z b1)) 32767);
      destruct (Z.leb_spec (Z.lor (Z.shiftl (MPU6050.byte_to_Z b0) 8) (MPU6050.byte_to_Z b1)) 32767);
      lia.
  - apply combine_range.
  - apply combine_encode.
  - apply encode_combine.
  - reflexivity.
  - reflexivity.
  - reflexivity.
Qed.

Lemma decode_bijection_witness :
  -32768 <= -1 <= 32767 /\ MPU6050.combine (encode_be16 (-1)) = -1.
Proof.
  split; [lia|].
  apply (proj1 (proj2 (proj2 (proj2 decode_bijection)))). lia.
Defined.

(** ** Calibration *)

Section Calibration.

Local Open Scope R_scope.

Lemma set_i2c_same (s : MPU6050.t) : MPU6050.set_i2c (MPU6050.i2c s) s = s.
Proof. destruct s; reflexivity. Qed.

Lemma set_i2c_twice (u v : list (byte * byte)) (s : MPU6050.t) :
  MPU6050.set_i2c u (MPU6050.set_i2c v s) = MPU6050.set_i2c u s.
Proof. destruct s; reflexivity. Qed.

Lemma calibrate_body_run (delay : R) (sums : axes R * axes R) (r : reading)
    (rest : list (byte * byte)) (s : MPU6050.t) :
  MPU6050.i2c s = calibrate_script [r] ++ rest ->
  MPU6050.calibrate_body delay sums s = (Ok (calibrate_acc sums r), MPU6050.set_i2c rest s).
Proof.
  destruct s as [bus a ao go c], sums as [asum gsum], r as [ra rg].
  simpl. intros ->. reflexivity.
Qed.

Lemma calibrate_loop (delay : R) (rs : list reading) :
  forall (sums : axes R * axes R) (rest : list (byte * byte)) (s : MPU6050.t),
    MPU6050.i2c s = calibrate_script rs ++ rest ->
    for_range (length rs) (MPU6050.calibrate_body delay) sums s =
      (Ok (foldl calibrate_acc sums rs), MPU6050.set_i2c rest s).
Proof.
  induction rs as [|r rs IH]; intros sums rest s Hbus.
  - simpl in *. unfold ret. rewrite <- Hbus, set_i2c_same. reflexivity.
  - simpl length. simpl for_range.
    rewrite (bind_ok _ _ s (MPU6050.set_i2c (calibrate_script rs ++ rest) s)
               (calibrate_acc sums r)).
    + rewrite (IH _ rest) by (destruct s; reflexivity).
      rewrite set_i2c_twice. reflexivity.
    + apply calibrate_body_run. rewrite Hbus. reflexivity.
Qed.

Lemma calibrate_sums (rs : list reading) :
  forall sums : axes R * axes R,
    let sums' := foldl calibrate_acc sums rs in
    x (fst sums') = x (fst sums) + Rsum (map (fun r => raw (x (fst r))) rs)
    /\ y (fst sums') = y (fst sums) + Rsum (map (fun r => raw (y (fst r))) rs)
    /\ z (fst sums') =
         z (fst sums)
         + Rsum (map (fun r => raw (z (fst r)) - MPU6050.ACCEL_SCALE_MODIFIER_2G) rs)
    /\ x (snd sums') = x (snd sums) + Rsum (map (fun r => raw (x (snd r))) rs)
    /\ y (snd sums') = y (snd sums) + Rsum (map (fun r => raw (y (snd r))) rs)
    /\ z (snd sums') = z (snd sums) + Rsum (map (fun r => raw (z (snd r))) rs).
Proof.
  induction rs as [|r rs IH]; intros sums; simpl.
  - repeat split; lra.
  - destruct (IH (calibrate_acc sums r)) as (H1 & H2 & H3 & H4 & H5 & H6).
    rewrite H1, H2, H3, H4, H5, H6. simpl. repeat split; lra.
Qed.

Lemma mean_repeat {A} (f : A -> R) (a : A) (n : nat) :
  (1 <= n)%nat -> mean (map f (repeat a n)) = f a.
Proof.
  intros Hn. unfold mean. rewrite length_map, repeat_length.
  assert (Hs : Rsum (map f (repeat a n)) = INR n * f a).
  { clear Hn. induction n as [|n IH].
    - simpl. lra.
    - rewrite S_INR. simpl repeat. simpl map. simpl Rsum.
      fold (Rsum (map f (repeat a n))). rewrite IH. lra. }
  rewrite Hs. field. apply not_0_INR. lia.
Qed.

Lemma truediv_ok (a : R) (n : Z) : n <> 0%Z -> truediv a n = Ok (a / IZR n).
Proof. intros Hn. unfold truediv. destruct (Z.eqb_spec n 0); [contradiction|reflexivity]. Qed.

Lemma truediv_zero (a : R) : truediv a 0 = Raise ZeroDivisionError.
Proof. reflexivity. Qed.

(** The run of [calibrate] over a script of at least one reading. *)
Lemma calibrate_run (rs : list reading) (delay : R) (rest : list (byte * byte))
    (s : MPU6050.t) :
  rs <> [] ->
  MPU6050.i2c s = calibrate_script rs ++ rest ->
  MPU6050.calibrate (Z.of_nat (length rs)) delay s =
    (Ok tt,
     MPU6050.Make rest (MPU6050.addr s) (accel_means rs) (gyro_means rs)
       ((MPU6050.console s ++ [Text "Calibrating MPU6050, keep the sensor still..."])
          ++ [Text "Calibration complete"])).
Proof.
  intros Hne Hbus.
  assert (Hn : Z.of_nat (length rs) <> 0%Z) by (destruct rs; [contradiction|simpl; lia]).
  unfold MPU6050.calibrate.
  rewrite (bind_ok _ _ s _ tt) by reflexivity.
  rewrite Nat2Z.id.
  erewrite bind_ok.
  2:{ apply (calibrate_loop delay rs _ rest). destruct s; exact Hbus. }
  destruct (calibrate_sums rs (Axes 0 0 0, Axes 0 0 0)) as (H1 & H2 & H3 & H4 & H5 & H6).
  destruct (foldl calibrate_acc (Axes 0 0 0, Axes 0 0 0) rs) as [asum gsum].
  simpl in H1, H2, H3, H4, H5, H6.
  rewrite !(truediv_ok _ _ Hn).
  destruct s as [bus a ao go c].
  cbv [lift bind MPU6050.store_accel MPU6050.store_gyro modify MPU6050.print
       MPU6050.set_accel_offsets MPU6050.set_gyro_offsets MPU6050.set_console
       MPU6050.set_x MPU6050.set_y MPU6050.set_z
       MPU6050.i2c MPU6050.addr MPU6050.accel_offsets MPU6050.gyro_offsets
       MPU6050.console].
  simpl. unfold accel_means, gyro_means, mean.
  rewrite !length_map, <- INR_IZR_INZ, H1, H2, H3, H4, H5, H6.
  unfold MPU6050.ACCEL_SCALE_MODIFIER_2G.
  do 2 f_equal; f_equal; f_equal; lra.
Qed.

End Calibration.



(** ** Aggregated readings *)

Section Aggregation.

Local Open Scope R_scope.

Lemma get_values_body_first (delay : R) (r : reading * (byte * byte))
    (rest : list (byte * byte)) (s : MPU6050.t) :
  MPU6050.i2c s = get_values_script [r] ++ rest ->
  MPU6050.get_values_body delay MPU6050.values0 s =
    (Ok (dict_of_totals
           (get_values_acc (MPU6050.accel_offsets s) (MPU6050.gyro_offsets s) no_totals r)),
     MPU6050.set_i2c rest s).
Proof.
  destruct s as [bus a ao go c], r as [[ra rg] rt].
  simpl. intros ->. reflexivity.
Qed.

Lemma get_values_body_next (delay : R) (t : totals) (r : reading * (byte * byte))
    (rest : list (byte * byte)) (s : MPU6050.t) :
  MPU6050.i2c s = get_values_script [r] ++ rest ->
  MPU6050.get_values_body delay (dict_of_totals t) s =
    (Ok (dict_of_totals
           (get_values_acc (MPU6050.accel_offsets s) (MPU6050.gyro_offsets s) t r)),
     MPU6050.set_i2c rest s).
Proof.
  destruct s as [bus a ao go c], r as [[ra rg] rt].
  simpl. intros ->. reflexivity.
Qed.

Lemma get_values_loop_next (delay : R) (rs : list (reading * (byte * byte))) :
  forall (t : totals) (rest : list (byte * byte)) (s : MPU6050.t),
    MPU6050.i2c s = get_values_script rs ++ rest ->
    for_range (length rs) (MPU6050.get_values_body delay) (dict_of_totals t) s =
      (Ok (dict_of_totals
             (foldl (get_values_acc (MPU6050.accel_offsets s) (MPU6050.gyro_offsets s)) t rs)),
       MPU6050.set_i2c rest s).
Proof.
  induction rs as [|r rs IH]; intros t rest s Hbus.
  - simpl in *. unfold ret. rewrite <- Hbus, set_i2c_same. reflexivity.
  - simpl length. simpl for_range.
    erewrite bind_ok.
    2:{ apply (get_values_body_next delay t r (get_values_script rs ++ rest)).
        rewrite Hbus. reflexivity. }
    rewrite (IH _ rest) by (destruct s; reflexivity).
    rewrite set_i2c_twice. destruct s; reflexivity.
Qed.

Lemma get_values_loop (delay : R) (rs : list (reading * (byte * byte)))
    (rest : list (byte * byte)) (s : MPU6050.t) :
  rs <> [] ->
  MPU6050.i2c s = get_values_script rs ++ rest ->
  for_range (length rs) (MPU6050.get_values_body delay) MPU6050.values0 s =
    (Ok (dict_of_totals
           (foldl (get_values_acc (MPU6050.accel_offsets s) (MPU6050.gyro_offsets s))
              no_totals rs)),
     MPU6050.set_i2c rest s).
Proof.
  destruct rs as [|r rs]; [contradiction|]. intros _ Hbus.
  simpl length. simpl for_range.
  erewrite bind_ok.
  2:{ apply (get_values_body_first delay r (get_values_script rs ++ rest)).
      rewrite Hbus. reflexivity. }
  rewrite (get_values_loop_next delay rs _ rest) by (destruct s; reflexivity).
  rewrite set_i2c_twice. destruct s; reflexivity.
Qed.

End Aggregation.

(** ** Loops over the keys of a dictionary *)

Section KeyLoops.

Context {S : Type}.

Lemma elem_of_keys (m : gmap string R) (k : string) : k ∈ keys m <-> is_Some (m !! k).
Proof.
  unfold keys. rewrite list_elem_of_fmap. split.
  - intros ([k' v] & -> & Hin). apply elem_of_map_to_list in Hin. eauto.
  - intros [v Hv]. exists (k, v). split; [reflexivity|].
    apply elem_of_map_to_list. exact Hv.
Qed.

(** A loop that rewrites the value under each key it visits by [g]
    rewrites the whole dictionary by [g]. *)
Lemma for_each_update (g : string -> R -> R)
    (body : string -> gmap string R -> M S (gmap string R)) (s : S) :
  (forall k v m, m !! k = Some v -> body k m s = (Ok (<[k := g k v]> m), s)) ->
  forall (ks : list string) (m : gmap string R),
    NoDup ks ->
    (forall k, k ∈ ks -> is_Some (m !! k)) ->
    exists m',
      for_each ks body m s = (Ok m', s)
      /\ forall j, m' !! j = if decide (j ∈ ks) then g j <$> m !! j else m !! j.
Proof.
  intros Hbody ks. induction ks as [|k ks IH]; intros m Hnd Hin.
  - exists m. split; [reflexivity|]. intros j.
    destruct (decide (j ∈ [])) as [Hj|_]; [|reflexivity].
    apply elem_of_nil in Hj. contradiction.
  - apply NoDup_cons in Hnd as [Hk Hnd].
    destruct (Hin k) as [v Hv]; [left|].
    destruct (IH (<[k := g k v]> m) Hnd) as (m' & Hrun & Hm').
    { intros j Hj. apply lookup_insert_is_Some'. right. apply Hin. right. exact Hj. }
    exists m'. split.
    + simpl. rewrite (bind_ok _ _ s s (<[k := g k v]> m)) by (apply Hbody; exact Hv).
      exact Hrun.
    + intros j. rewrite Hm'.
      destruct (decide (j = k)) as [->|Hne].
      * destruct (decide (k ∈ ks)) as [|_]; [contradiction|].
        destruct (decide (k ∈ k :: ks)) as [_|Hn]; [|exfalso; apply Hn; left].
        rewrite lookup_insert_eq, Hv. reflexivity.
      * rewrite lookup_insert_ne by congruence.
        destruct (decide (j ∈ ks)) as [Hj|Hj];
          destruct (decide (j ∈ k :: ks)) as [Hj'|Hj']; try reflexivity.
        -- exfalso. apply Hj'. right. exact Hj.
        -- exfalso. apply elem_of_cons in Hj' as [?|?]; [congruence|contradiction].
Qed.

Lemma for_each_keys_update (g : string -> R -> R)
    (body : string -> gmap string R -> M S (gmap string R)) (s : S) (m : gmap string R) :
  (forall k v m, m !! k = Some v -> body k m s = (Ok (<[k := g k v]> m), s)) ->
  for_each (keys m) body m s = (Ok (map_imap (fun k v => Some (g k v)) m), s).
Proof.
  intros Hbody.
  destruct (for_each_update g body s Hbody (keys m) m) as (m' & Hrun & Hm').
  - apply NoDup_fst_map_to_list.
  - intros k. apply elem_of_keys.
  - rewrite Hrun. do 2 f_equal. apply map_eq. intros j.
    rewrite Hm', map_lookup_imap.
    destruct (decide (j ∈ keys m)) as [Hj|Hj].
    + destruct (m !! j); reflexivity.
    + destruct (m !! j) as [v|] eqn:E; [|reflexivity].
      exfalso. apply Hj, elem_of_keys. eauto.
Qed.

End KeyLoops.

(** ** The averaged reading *)

Section Averaging.

Local Open Scope R_scope.

Lemma average_run (n : Z) (values : gmap string R) (s : MPU6050.t) :
  n <> 0%Z ->
  for_each (keys values) (MPU6050.average_key n) values s =
    (Ok ((fun v => v / IZR n) <$> values), s).
Proof.
  intros Hn.
  rewrite (for_each_keys_update (fun _ v => v / IZR n)).
  - do 2 f_equal. apply map_eq. intros j.
    rewrite map_lookup_imap, lookup_fmap. destruct (values !! j); reflexivity.
  - intros k v m Hv. unfold MPU6050.average_key, getitem.
    rewrite Hv. unfold lift, bind, ret. rewrite (truediv_ok _ _ Hn). reflexivity.
Qed.

Lemma average_zero (values : gmap string R) (s : MPU6050.t) :
  keys values <> [] ->
  for_each (keys values) (MPU6050.average_key 0) values s = (Raise ZeroDivisionError, s).
Proof.
  intros Hne. destruct (keys values) as [|k ks] eqn:E; [contradiction|].
  assert (Hk : is_Some (values !! k)) by (apply elem_of_keys; rewrite E; left).
  destruct Hk as [v Hv].
  simpl. unfold MPU6050.average_key, getitem. rewrite Hv. reflexivity.
Qed.

Lemma get_values_sums (ao go : axes R) (rs : list (reading * (byte * byte))) :
  forall t : totals,
    let t' := foldl (get_values_acc ao go) t rs in
    GyX t' = GyX t + Rsum (map (fun r => raw (x (snd (fst r))) - x go) rs)
    /\ GyY t' = GyY t + Rsum (map (fun r => raw (y (snd (fst r))) - y go) rs)
    /\ GyZ t' = GyZ t + Rsum (map (fun r => raw (z (snd (fst r))) - z go) rs)
    /\ Tmp t' = Tmp t + Rsum (map (fun r => raw (snd r) / 340 + 36.53) rs)
    /\ AcX t' = AcX t + Rsum (map (fun r => raw (x (fst (fst r))) - x ao) rs)
    /\ AcY t' = AcY t + Rsum (map (fun r => raw (y (fst (fst r))) - y ao) rs)
    /\ AcZ t' = AcZ t + Rsum (map (fun r => raw (z (fst (fst r))) - z ao) rs)
    /\ GyX_deg t' =
         GyX_deg t + Rsum (map (fun r => (raw (x (snd (fst r))) - x go) / 131) rs)
    /\ GyY_deg t' =
         GyY_deg t + Rsum (map (fun r => (raw (y (snd (fst r))) - y go) / 131) rs)
    /\ GyZ_deg t' =
         GyZ_deg t + Rsum (map (fun r => (raw (z (snd (fst r))) - z go) / 131) rs)
    /\ AcX_g t' =
         AcX_g t + Rsum (map (fun r => (raw (x (fst (fst r))) - x ao) / 16384) rs)
    /\ AcY_g t' =
         AcY_g t + Rsum (map (fun r => (raw (y (fst (fst r))) - y ao) / 16384) rs)
    /\ AcZ_g t' =
         AcZ_g t + Rsum (map (fun r => (raw (z (fst (fst r))) - z ao) / 16384) rs).
Proof.
  induction rs as [|r rs IH]; intros t; simpl.
  - repeat split; lra.
  - destruct (IH (get_values_acc ao go t r))
      as (H1 & H2 & H3 & H4 & H5 & H6 & H7 & H8 & H9 & H10 & H11 & H12 & H13).
    rewrite H1, H2, H3, H4, H5, H6, H7, H8, H9, H10, H11, H12, H13.
    unfold get_values_acc, MPU6050.GYRO_SCALE_MODIFIER_250DEG,
      MPU6050.ACCEL_SCALE_MODIFIER_2G.
    simpl. repeat split; lra.
Qed.

(** The run of [get_values] over a script of at least one reading. *)
Lemma get_values_run (rs : list (reading * (byte * byte))) (delay : R)
    (rest : list (byte * byte)) (s : MPU6050.t) :
  rs <> [] ->
  MPU6050.i2c s = get_values_script rs ++ rest ->
  MPU6050.get_values (Z.of_nat (length rs)) delay s =
    (Ok ((fun v => v / INR (length rs)) <$>
           dict_of_totals
             (foldl (get_values_acc (MPU6050.accel_offsets s) (MPU6050.gyro_offsets s))
                no_totals rs)),
     MPU6050.set_i2c rest s).
Proof.
  intros Hne Hbus.
  assert (Hn : Z.of_nat (length rs) <> 0%Z) by (destruct rs; [contradiction|simpl; lia]).
  unfold MPU6050.get_values. rewrite Nat2Z.id.
  erewrite bind_ok by (apply (get_values_loop delay rs rest s Hne Hbus)).
  erewrite bind_ok by (apply (average_run _ _ _ Hn)).
  rewrite <- INR_IZR_INZ. reflexivity.
Qed.

End Averaging.

(** ** The averaged reading in Python's numbers *)

Section FloatSampling.

Import number.

Variable fmt : format.

Lemma float_set_i2c_same (s : MPU6050_float.t) :
  MPU6050_float.set_i2c (MPU6050_float.i2c s) s = s.
Proof. destruct s; reflexivity. Qed.

Lemma float_body_first (delay : number.t) (r : reading * (byte * byte))
    (rest : list (byte * byte)) (s : MPU6050_float.t) :
  MPU6050_float.i2c s = get_values_script [r] ++ rest ->
  MPU6050_float.get_values_body fmt delay MPU6050_float.values0 s =
    (Ok (dict_of (fun k =>
           add fmt (Int 0)
             (sample_term fmt (MPU6050_float.accel_offsets s) (MPU6050_float.gyro_offsets s)
                r k))),
     MPU6050_float.set_i2c rest s).
Proof.
  destruct s as [bus a ao go], r as [[ra rg] rt].
  simpl. intros ->. reflexivity.
Qed.

Lemma float_body_next (delay : number.t) (f : string -> number.t)
    (r : reading * (byte * byte)) (rest : list (byte * byte)) (s : MPU6050_float.t) :
  MPU6050_float.i2c s = get_values_script [r] ++ rest ->
  MPU6050_float.get_values_body fmt delay (dict_of f) s =
    (Ok (dict_of (fun k =>
           add fmt (f k)
             (sample_term fmt (MPU6050_float.accel_offsets s) (MPU6050_float.gyro_offsets s)
                r k))),
     MPU6050_float.set_i2c rest s).
Proof.
  destruct s as [bus a ao go], r as [[ra rg] rt].
  simpl. intros ->. reflexivity.
Qed.

Lemma float_loop_next (delay : number.t) (rs : list (reading * (byte * byte))) :
  forall (f : string -> number.t) (rest : list (byte * byte)) (s : MPU6050_float.t),
    MPU6050_float.i2c s = get_values_script rs ++ rest ->
    for_range (length rs) (MPU6050_float.get_values_body fmt delay) (dict_of f) s =
      (Ok (dict_of (fun k =>
             foldl (add fmt) (f k)
               (map (fun r => sample_term fmt (MPU6050_float.accel_offsets s)
                                (MPU6050_float.gyro_offsets s) r k) rs))),
       MPU6050_float.set_i2c rest s).
Proof.
  induction rs as [|r rs IH]; intros f rest s Hbus.
  - simpl in *. unfold ret. rewrite <- Hbus, float_set_i2c_same. reflexivity.
  - simpl length. simpl for_range.
    erewrite bind_ok.
    2:{ apply (float_body_next delay f r (get_values_script rs ++ rest)).
        rewrite Hbus. reflexivity. }
    rewrite (IH _ rest) by (destruct s; reflexivity).
    destruct s; reflexivity.
Qed.

(** The sampling loop over a script of at least one reading: under each
    key, the terms of the samples added one by one, in reading order, to
    the int [0] the accumulator starts from. *)
Lemma float_loop (delay : number.t) (rs : list (reading * (byte * byte)))
    (rest : list (byte * byte)) (s : MPU6050_float.t) :
  rs <> [] ->
  MPU6050_float.i2c s = get_values_script rs ++ rest ->
  for_range (length rs) (MPU6050_float.get_values_body fmt delay) MPU6050_float.values0 s =
    (Ok (dict_of (fun k =>
           foldl (add fmt) (Int 0)
             (map (fun r => sample_term fmt (MPU6050_float.accel_offsets s)
                              (MPU6050_float.gyro_offsets s) r k) rs))),
     MPU6050_float.set_i2c rest s).
Proof.
  destruct rs as [|r rs]; [contradiction|]. intros _ Hbus.
  simpl length. simpl for_range.
  erewrite bind_ok.
  2:{ apply (float_body_first delay r (get_values_script rs ++ rest)).
      rewrite Hbus. reflexivity. }
  rewrite (float_loop_next delay rs _ rest) by (destruct s; reflexivity).
  destruct s; reflexivity.
Qed.

Lemma float_elem_of_keys (m : gmap string number.t) (k : string) :
  k ∈ MPU6050_float.keys m <-> is_Some (m !! k).
Proof.
  unfold MPU6050_float.keys. rewrite list_elem_of_fmap. split.
  - intros ([k' v] & -> & Hin). apply elem_of_map_to_list in Hin. eauto.
  - intros [v Hv]. exists (k, v). split; [reflexivity|].
    apply elem_of_map_to_list. exact Hv.
Qed.

(** The averaging loop divides the value under every key, once. *)
Lemma float_average_keys (n : Z) (s : MPU6050_float.t) :
  n <> 0%Z ->
  forall (ks : list string) (m : gmap string number.t),
    NoDup ks ->
    (forall k, k ∈ ks -> is_Some (m !! k)) ->
    exists m',
      for_each ks (MPU6050_float.average_key fmt n) m s = (Ok m', s)
      /\ forall j, m' !! j = if decide (j ∈ ks) then (fun v => div fmt v (Int n)) <$> m !! j
                             else m !! j.
Proof.
  intros Hn ks. induction ks as [|k ks IH]; intros m Hnd Hin.
  - exists m. split; [reflexivity|]. intros j.
    destruct (decide (j ∈ [])) as [Hj|_]; [|reflexivity].
    apply elem_of_nil in Hj. contradiction.
  - apply NoDup_cons in Hnd as [Hk Hnd].
    destruct (Hin k) as [v Hv]; [left|].
    destruct (IH (<[k := div fmt v (Int n)]> m) Hnd) as (m' & Hrun & Hm').
    { intros j Hj. apply lookup_insert_is_Some'. right. apply Hin. right. exact Hj. }
    exists m'. split.
    + simpl. rewrite (bind_ok _ _ s s (<[k := div fmt v (Int n)]> m)); [exact Hrun|].
      unfold MPU6050_float.average_key, MPU6050_float.getitem, truediv.
      rewrite Hv. apply Z.eqb_neq in Hn. rewrite Hn. reflexivity.
    + intros j. rewrite Hm'.
      destruct (decide (j = k)) as [->|Hne].
      * destruct (decide (k ∈ ks)) as [|_]; [contradiction|].
        destruct (decide (k ∈ k :: ks)) as [_|Hn']; [|exfalso; apply Hn'; left].
        rewrite lookup_insert_eq, Hv. reflexivity.
      * rewrite lookup_insert_ne by congruence.
        destruct (decide (j ∈ ks)) as [Hj|Hj];
          destruct (decide (j ∈ k :: ks)) as [Hj'|Hj']; try reflexivity.
        -- exfalso. apply Hj'. right. exact Hj.
        -- exfalso. apply elem_of_cons in Hj' as [?|?]; [congruence|contradiction].
Qed.

Lemma float_average_run (n : Z) (values : gmap string number.t) (s : MPU6050_float.t) :
  n <> 0%Z ->
  for_each (MPU6050_float.keys values) (MPU6050_float.average_key fmt n) values s =
    (Ok ((fun v => div fmt v (Int n)) <$> values), s).
Proof.
  intros Hn.
  destruct (float_average_keys n s Hn (MPU6050_float.keys values) values) as (m' & Hrun & Hm').
  - apply NoDup_fst_map_to_list.
  - intros k. apply float_elem_of_keys.
  - rewrite Hrun. do 2 f_equal. apply map_eq. intros j.
    rewrite Hm', lookup_fmap.
    destruct (decide (j ∈ MPU6050_float.keys values)) as [Hj|Hj]; [reflexivity|].
    destruct (values !! j) as [v|] eqn:E; [|reflexivity].
    exfalso. apply Hj, float_elem_of_keys. eauto.
Qed.

(** The run of [get_values] over a script of at least one reading. *)
Lemma float_get_values_run (rs : list (reading * (byte * byte))) (delay : number.t)
    (rest : list (byte * byte)) (s : MPU6050_float.t) :
  rs <> [] ->
  MPU6050_float.i2c s = get_values_script rs ++ rest ->
  MPU6050_float.get_values fmt (Z.of_nat (length rs)) delay s =
    (Ok ((fun v => div fmt v (Int (Z.of_nat (length rs)))) <$>
           dict_of (fun k =>
             foldl (add fmt) (Int 0)
               (map (fun r => sample_term fmt (MPU6050_float.accel_offsets s)
                                (MPU6050_float.gyro_offsets s) r k) rs))),
     MPU6050_float.set_i2c rest s).
Proof.
  intros Hne Hbus.
  assert (Hn : Z.of_nat (length rs) <> 0%Z) by (destruct rs; [contradiction|simpl; lia]).
  unfold MPU6050_float.get_values. rewrite Nat2Z.id.
  erewrite bind_ok by (apply (float_loop delay rs rest s Hne Hbus)).
  erewrite bind_ok by (apply (float_average_run _ _ _ Hn)).
  reflexivity.
Qed.

Lemma lookup_dict_of (f : string -> number.t) (k : string) :
  dict_of f !! k =
    if decide (In k ["GyX"; "GyY"; "GyZ"; "Tmp"; "AcX"; "AcY"; "AcZ";
                     "GyX_deg"; "GyY_deg"; "GyZ_deg"; "AcX_g"; "AcY_g"; "AcZ_g"])
    then Some (f k) else None.
Proof.
  unfold dict_of.
  repeat (rewrite lookup_insert; case_decide;
          [subst k; reflexivity|]).
  rewrite lookup_empty.
  destruct (decide _) as [Hin|]; [|reflexivity].
  simpl in Hin. exfalso. intuition congruence.
Qed.

Lemma lookup_dict_of_totals (t : totals) (k : string) :
  is_Some (dict_of_totals t !! k) <->
  In k ["GyX"; "GyY"; "GyZ"; "Tmp"; "AcX"; "AcY"; "AcZ";
        "GyX_deg"; "GyY_deg"; "GyZ_deg"; "AcX_g"; "AcY_g"; "AcZ_g"].
Proof.
  unfold dict_of_totals. split.
  - intros [v Hv].
    repeat (rewrite lookup_insert in Hv; case_decide;
            [subst k; repeat first [left; reflexivity | right]|]).
    rewrite lookup_empty in Hv. discriminate.
  - intros Hin. simpl in Hin.
    repeat (destruct Hin as [<-|Hin]; [eexists; reflexivity|]).
    contradiction.
Qed.

(** The two embeddings of [get_values] run in step: over the same script
    both return, leave the same answers on the bus, and give dictionaries
    with the same keys; they differ in the arithmetic only. *)
Lemma float_run_in_step (rs : list (reading * (byte * byte))) (rest : list (byte * byte))
    (delay : R) (s : MPU6050.t) (fdelay : number.t) (fs : MPU6050_float.t) :
  rs <> [] ->
  MPU6050.i2c s = get_values_script rs ++ rest ->
  MPU6050_float.i2c fs = get_values_script rs ++ rest ->
  exists (values : gmap string R) (fvalues : gmap string number.t),
    MPU6050.get_values (Z.of_nat (length rs)) delay s = (Ok values, MPU6050.set_i2c rest s)
    /\ MPU6050_float.get_values fmt (Z.of_nat (length rs)) fdelay fs =
         (Ok fvalues, MPU6050_float.set_i2c rest fs)
    /\ forall k, is_Some (values !! k) <-> is_Some (fvalues !! k).
Proof.
  intros Hne Hbus Hfbus.
  eexists. eexists.
  split; [apply (get_values_run rs delay rest s Hne Hbus)|].
  split; [apply (float_get_values_run rs fdelay rest fs Hne Hfbus)|].
  intros k. rewrite !lookup_fmap, !fmap_is_Some, lookup_dict_of_totals, lookup_dict_of.
  destruct (decide _) as [Hin|Hout]; split; intros H; try exact Hin; eauto.
  - contradiction.
  - destruct H as [? [=]].
Qed.

End FloatSampling.

(** C8, as stated, fails on the gyroscope's scaled entries.  Uncalibrated,
    over the two samples 3 and 5 of gyroscope X and in binary64, [get_values]
    returns [GyX = 4.0], the mean, and
    [GyX_deg = 8800927516082802 * 2^-58 = 0.03053435114503817], while the
    mean divided by 131.0 is
    [8800927516082801 * 2^-58 = 0.030534351145038167].  In binary32 the
    samples 7 and 9 give [GyX = 8.0] and
    [GyX_deg = 16393004 * 2^-28 = 0.06106869876384735], while 8.0 / 131.0 is
    [16393005 * 2^-28 = 0.06106870248913765]. *)
Lemma gyro_rate_is_not_the_mean_over_131 :
  (let s := MPU6050_float.init (get_values_script [gyro_x_only 3; gyro_x_only 5]) in
   exists values : gmap string number.t,
     MPU6050_float.get_values number.binary64 2 (number.literal number.binary64 1 100) s =
       (Ok values, MPU6050_float.set_i2c [] s)
     /\ values !! "GyX" = Some (number.Float (number.of_int number.binary64 4))
     /\ values !! "GyX_deg" =
          Some (number.Float (S754_finite false 8800927516082802 (-58)))
     /\ number.div number.binary64 (number.Float (number.of_int number.binary64 4))
          (MPU6050_float.GYRO_SCALE_MODIFIER_250DEG number.binary64) =
          number.Float (S754_finite false 8800927516082801 (-58)))
  /\ (let s := MPU6050_float.init (get_values_script [gyro_x_only 7; gyro_x_only 9]) in
      exists values : gmap string number.t,
        MPU6050_float.get_values number.binary32 2 (number.literal number.binary32 1 100) s =
          (Ok values, MPU6050_float.set_i2c [] s)
        /\ values !! "GyX" = Some (number.Float (number.of_int number.binary32 8))
        /\ values !! "GyX_deg" = Some (number.Float (S754_finite false 16393004 (-28)))
        /\ number.div number.binary32 (number.Float (number.of_int number.binary32 8))
             (MPU6050_float.GYRO_SCALE_MODIFIER_250DEG number.binary32) =
             number.Float (S754_finite false 16393005 (-28))).
Proof.
  split.
  - eexists. split.
    + apply (float_get_values_run number.binary64 [gyro_x_only 3; gyro_x_only 5]
               (number.literal number.binary64 1 100) []); [discriminate|reflexivity].
    + split; [vm_compute; reflexivity|]. split; vm_compute; reflexivity.
  - eexists. split.
    + apply (float_get_values_run number.binary32 [gyro_x_only 7; gyro_x_only 9]
               (number.literal number.binary32 1 100) []); [discriminate|reflexivity].
    + split; [vm_compute; reflexivity|]. split; vm_compute; reflexivity.
Qed.

(** C8, amended: over any run of [samples >= 1] readings, whatever
    calibration offsets the sensor holds and in either float format,
    [get_values] returns under each key the accumulator of that key divided
    by [samples], the accumulator being the per-sample terms added one by
    one, in reading order, to the int [0].  The term of a raw-unit entry is
    the offset-corrected raw sample, so the entry is the mean of those; the
    term of a scaled entry is the offset-corrected raw sample already divided
    by the full-scale modifier (16384.0 for the accelerometer, 131.0 for the
    gyroscope), so the entry is the mean of the per-sample quotients, not the
    quotient of the mean; the term of [Tmp] is [rawTemp / 340.0 + 36.53].
    These thirteen are all the keys. *)
Theorem get_values_sums_then_divides :
  forall (fmt : number.format) (rs : list (reading * (byte * byte))) (delay : number.t)
         (rest : list (byte * byte)) (s : MPU6050_float.t),
    rs <> [] ->
    MPU6050_float.i2c s = get_values_script rs ++ rest ->
    let ao := MPU6050_float.accel_offsets s in
    let go := MPU6050_float.gyro_offsets s in
    let corrected (p : byte * byte) (off : number.t) :=
      number.sub fmt (number.Int (MPU6050.combine p)) off in
    let in_g (v : number.t) := number.div fmt v (MPU6050_float.ACCEL_SCALE_MODIFIER_2G fmt) in
    let in_deg (v : number.t) :=
      number.div fmt v (MPU6050_float.GYRO_SCALE_MODIFIER_250DEG fmt) in
    let averaged (term : reading * (byte * byte) -> number.t) :=
      number.div fmt (foldl (number.add fmt) (number.Int 0) (map term rs))
        (number.Int (Z.of_nat (length rs))) in
    exists values : gmap string number.t,
      MPU6050_float.get_values fmt (Z.of_nat (length rs)) delay s =
        (Ok values, MPU6050_float.set_i2c rest s)
      /\ values !! "AcX" = Some (averaged (fun r => corrected (x (fst (fst r))) (x ao)))
      /\ values !! "AcY" = Some (averaged (fun r => corrected (y (fst (fst r))) (y ao)))
      /\ values !! "AcZ" = Some (averaged (fun r => corrected (z (fst (fst r))) (z ao)))
      /\ values !! "GyX" = Some (averaged (fun r => corrected (x (snd (fst r))) (x go)))
      /\ values !! "GyY" = Some (averaged (fun r => corrected (y (snd (fst r))) (y go)))
      /\ values !! "GyZ" = Some (averaged (fun r => corrected (z (snd (fst r))) (z go)))
      /\ values !! "AcX_g" =
           Some (averaged (fun r => in_g (corrected (x (fst (fst r))) (x ao))))
      /\ values !! "AcY_g" =
           Some (averaged (fun r => in_g (corrected (y (fst (fst r))) (y ao))))
      /\ values !! "AcZ_g" =
           Some (averaged (fun r => in_g (corrected (z (fst (fst r))) (z ao))))
      /\ values !! "GyX_deg" =
           Some (averaged (fun r => in_deg (corrected (x (snd (fst r))) (x go))))
      /\ values !! "GyY_deg" =
           Some (averaged (fun r => in_deg (corrected (y (snd (fst r))) (y go))))
      /\ values !! "GyZ_deg" =
           Some (averaged (fun r => in_deg (corrected (z (snd (fst r))) (z go))))
      /\ values !! "Tmp" =
           Some (averaged (fun r =>
                   number.add fmt
                     (number.div fmt (number.Int (MPU6050.combine (snd r)))
                        (number.literal fmt 340 1))
                     (number.literal fmt 3653 100)))
      /\ forall k, is_Some (values !! k) ->
           In k ["GyX"; "GyY"; "GyZ"; "Tmp"; "AcX"; "AcY"; "AcZ";
                 "GyX_deg"; "GyY_deg"; "GyZ_deg"; "AcX_g"; "AcY_g"; "AcZ_g"].
Proof.
  intros fmt rs delay rest s Hne Hbus ao go corrected in_g in_deg averaged.
  eexists. split; [apply (float_get_values_run fmt rs delay rest s Hne Hbus)|].
  fold ao go.
  do 13 (split; [reflexivity|]).
  intros k [v Hv]. rewrite lookup_fmap, lookup_dict_of in Hv.
  destruct (decide _) as [Hin|]; [exact Hin|discriminate].
Qed.

Lemma get_values_sums_then_divides_witness :
  let rs := [gyro_x_only 3; gyro_x_only 5] in
  let s := MPU6050_float.init (get_values_script rs) in
  let deg := MPU6050_float.GYRO_SCALE_MODIFIER_250DEG number.binary64 in
  rs <> []
  /\ MPU6050_float.i2c s = get_values_script rs ++ []
  /\ exists values : gmap string number.t,
       MPU6050_float.get_values number.binary64 2 (number.literal number.binary64 1 100) s =
         (Ok values, MPU6050_float.set_i2c [] s)
       /\ values !! "GyX" =
            Some (number.div number.binary64
                    (foldl (number.add number.binary64) (number.Int 0)
                       [number.Int 3; number.Int 5])
                    (number.Int 2))
       /\ values !! "GyX_deg" =
            Some (number.div number.binary64
                    (foldl (number.add number.binary64) (number.Int 0)
                       [number.div number.binary64 (number.Int 3) deg;
                        number.div number.binary64 (number.Int 5) deg])
                    (number.Int 2)).
Proof.
  intros rs s deg.
  split; [discriminate|]. split; [reflexivity|].
  destruct (get_values_sums_then_divides number.binary64 rs
              (number.literal number.binary64 1 100) [] s)
    as (values & Hrun & _ & _ & _ & HGyX & _ & _ & _ & _ & _ & HGyX_deg & _).
  - discriminate.
  - reflexivity.
  - exists values. split; [exact Hrun|]. split; [exact HGyX|exact HGyX_deg].
Defined.

(** ** A sample count of zero *)

(** C10: with [samples = 0] the sampling loop runs no pass and the first
    division of the averaging step raises [ZeroDivisionError]: [calibrate]
    raises it with both stored offsets (and the bus) as they were, and
    [get_values] raises it instead of returning. *)
Theorem zero_samples_raise :
  (forall (delay : R) (s : MPU6050.t),
     exists s',
       MPU6050.calibrate 0 delay s = (Raise ZeroDivisionError, s')
       /\ MPU6050.accel_offsets s' = MPU6050.accel_offsets s
       /\ MPU6050.gyro_offsets s' = MPU6050.gyro_offsets s
       /\ MPU6050.i2c s' = MPU6050.i2c s)
  /\ (forall (delay : R) (s : MPU6050.t),
        MPU6050.get_values 0 delay s = (Raise ZeroDivisionError, s)).
Proof.
  split.
  - intros delay s. eexists. split; [reflexivity|].
    destruct s; repeat split; reflexivity.
  - intros delay s. unfold MPU6050.get_values. simpl for_range.
    rewrite (bind_ok _ _ s s MPU6050.values0) by reflexivity.
    rewrite (bind_raise _ _ s s ZeroDivisionError); [reflexivity|].
    apply average_zero. intros Hnil.
    assert (Hin : "GyX" ∈ keys MPU6050.values0)
      by (apply elem_of_keys; exists 0%R; reflexivity).
    rewrite Hnil in Hin. apply elem_of_nil in Hin. exact Hin.
Qed.

(** ** The direction classifier *)

Section Classifier.

Local Open Scope R_scope.

Import motion_control.

Lemma Rgtb_true (a b : R) : a > b -> Rgtb a b = true.
Proof. intros H. unfold Rgtb. destruct (Rgt_dec a b); [reflexivity|contradiction]. Qed.

Lemma Rgtb_false (a b : R) : ~ a > b -> Rgtb a b = false.
Proof. intros H. unfold Rgtb. destruct (Rgt_dec a b); [contradiction|reflexivity]. Qed.

Lemma Rltb_true (a b : R) : a < b -> Rltb a b = true.
Proof. intros H. unfold Rltb. destruct (Rlt_dec a b); [reflexivity|contradiction]. Qed.

Lemma Rltb_false (a b : R) : ~ a < b -> Rltb a b = false.
Proof. intros H. unfold Rltb. destruct (Rlt_dec a b); [contradiction|reflexivity]. Qed.

Lemma Rabs_gt (a b : R) : 0 <= b -> (Rabs a > b <-> a > b \/ a < - b).
Proof.
  intros Hb. unfold Rabs. destruct (Rcase_abs a); split; intros H; lra.
Qed.

End Classifier.

(** Decide every comparison the classifier makes, each way. *)
Ltac classify :=
  unfold motion_control.get_direction, motion_control.DEAD_ZONE,
    motion_control.FORWARD_THRESHOLD, motion_control.BACKWARD_THRESHOLD,
    motion_control.LEFT_THRESHOLD, motion_control.RIGHT_THRESHOLD,
    motion_control.TURN_THRESHOLD, Rgtb, Rltb;
  repeat match goal with
         | |- context [Rgt_dec ?a ?b] => destruct (Rgt_dec a b); simpl
         | |- context [Rlt_dec ?a ?b] => destruct (Rlt_dec a b); simpl
         end.

(** C2: [get_direction] returns, for every triple of angles, one of the
    seven labels (which are pairwise distinct); and when [|angle_z|] exceeds
    both [DEAD_ZONE] and [TURN_THRESHOLD] the label is ROTATE_RIGHT for a
    positive [angle_z] and ROTATE_LEFT otherwise, whatever [angle_x] and
    [angle_y] are; so [get_direction (-20) 20 25] is ROTATE_RIGHT. *)
Theorem get_direction_total_yaw_first :
  (forall angle_x angle_y angle_z : R,
     In (motion_control.get_direction angle_x angle_y angle_z)
        ["STOP"; "FORWARD"; "BACKWARD"; "LEFT"; "RIGHT"; "ROTATE_LEFT"; "ROTATE_RIGHT"])
  /\ NoDup ["STOP"; "FORWARD"; "BACKWARD"; "LEFT"; "RIGHT"; "ROTATE_LEFT"; "ROTATE_RIGHT"]
  /\ (forall angle_x angle_y angle_z : R,
        (Rabs angle_z > motion_control.DEAD_ZONE)%R ->
        (Rabs angle_z > motion_control.TURN_THRESHOLD)%R ->
        motion_control.get_direction angle_x angle_y angle_z =
          if Rgtb angle_z 0 then "ROTATE_RIGHT" else "ROTATE_LEFT")
  /\ motion_control.get_direction (-20) 20 25 = "ROTATE_RIGHT"
  /\ motion_control.get_direction (-20) 20 (-25) = "ROTATE_LEFT".
Proof.
  split; [|split; [|split; [|split]]].
  - intros angle_x angle_y angle_z. classify;
      repeat first [left; reflexivity | right].
  - repeat (apply NoDup_cons_2;
            [rewrite ?elem_of_cons, elem_of_nil; intuition discriminate|]).
    apply NoDup_nil_2.
  - intros angle_x angle_y angle_z H1 H2.
    unfold motion_control.get_direction.
    rewrite (Rgtb_true _ _ H1), (Rgtb_true _ _ H2). reflexivity.
  - classify; try reflexivity;
      try (exfalso; unfold Rabs in *; destruct (Rcase_abs 25); lra).
  - classify; try reflexivity;
      try (exfalso; unfold Rabs in *; destruct (Rcase_abs (-25)); lra).
Qed.

Lemma get_direction_total_yaw_first_witness :
  (Rabs 25 > motion_control.DEAD_ZONE)%R
  /\ (Rabs 25 > motion_control.TURN_THRESHOLD)%R
  /\ motion_control.get_direction (-20) 20 25 =
       if Rgtb 25 0 then "ROTATE_RIGHT" else "ROTATE_LEFT".
Proof.
  assert (H1 : (Rabs 25 > motion_control.DEAD_ZONE)%R)
    by (unfold motion_control.DEAD_ZONE, Rabs; destruct (Rcase_abs 25); lra).
  assert (H2 : (Rabs 25 > motion_control.TURN_THRESHOLD)%R)
    by (unfold motion_control.TURN_THRESHOLD, Rabs; destruct (Rcase_abs 25); lra).
  split; [exact H1|]. split; [exact H2|].
  apply (proj1 (proj2 (proj2 get_direction_total_yaw_first)) (-20)%R 20%R 25%R H1 H2).
Defined.

Section Boundaries.

Local Open Scope R_scope.

Import motion_control.

(** A roll inside the closed band [-15, 15] leaves the first rule silent. *)
Lemma roll_rule_silent (angle_x angle_y angle_z : R) :
  BACKWARD_THRESHOLD <= angle_y <= FORWARD_THRESHOLD ->
  get_direction angle_x angle_y angle_z = get_direction angle_x 0 angle_z.
Proof.
  unfold BACKWARD_THRESHOLD, FORWARD_THRESHOLD. intros Hy.
  unfold get_direction.
  rewrite (Rgtb_false angle_y FORWARD_THRESHOLD) by (unfold FORWARD_THRESHOLD; lra).
  rewrite (Rltb_false angle_y BACKWARD_THRESHOLD) by (unfold BACKWARD_THRESHOLD; lra).
  rewrite (Rgtb_false 0 DEAD_ZONE) by (unfold DEAD_ZONE; lra).
  rewrite (Rltb_false 0 (- DEAD_ZONE)) by (unfold DEAD_ZONE; lra).
  rewrite !andb_false_r. reflexivity.
Qed.

(** A pitch inside the closed band [-15, 15] leaves the second rule silent. *)
Lemma pitch_rule_silent (angle_x angle_y angle_z : R) :
  LEFT_THRESHOLD <= angle_x <= RIGHT_THRESHOLD ->
  get_direction angle_x angle_y angle_z = get_direction 0 angle_y angle_z.
Proof.
  unfold LEFT_THRESHOLD, RIGHT_THRESHOLD. intros Hx.
  unfold get_direction.
  rewrite (Rltb_false angle_x LEFT_THRESHOLD) by (unfold LEFT_THRESHOLD; lra).
  rewrite (Rgtb_false angle_x RIGHT_THRESHOLD) by (unfold RIGHT_THRESHOLD; lra).
  rewrite (Rgtb_false 0 DEAD_ZONE) by (unfold DEAD_ZONE; lra).
  rewrite (Rltb_false 0 (- DEAD_ZONE)) by (unfold DEAD_ZONE; lra).
  rewrite !andb_false_r. reflexivity.
Qed.

(** A yaw inside the closed band [-20, 20] leaves the third rule silent. *)
Lemma yaw_rule_silent (angle_x angle_y angle_z : R) :
  - TURN_THRESHOLD <= angle_z <= TURN_THRESHOLD ->
  get_direction angle_x angle_y angle_z = get_direction angle_x angle_y 0.
Proof.
  unfold TURN_THRESHOLD. intros Hz.
  unfold get_direction.
  rewrite (Rgtb_false (Rabs angle_z) TURN_THRESHOLD)
    by (unfold TURN_THRESHOLD; rewrite Rabs_gt by lra; intros [H|H]; lra).
  rewrite (Rgtb_false (Rabs 0) DEAD_ZONE) by (unfold DEAD_ZONE; rewrite Rabs_R0; lra).
  rewrite !andb_false_r. reflexivity.
Qed.

Lemma neutral_roll (angle_y : R) :
  get_direction 0 angle_y 0 =
    if Rgtb angle_y 15 then "FORWARD" else if Rltb angle_y (-15) then "BACKWARD" else "STOP".
Proof.
  unfold get_direction.
  rewrite (Rgtb_false (Rabs 0) DEAD_ZONE) by (unfold DEAD_ZONE; rewrite Rabs_R0; lra).
  rewrite (Rgtb_false 0 DEAD_ZONE) by (unfold DEAD_ZONE; lra).
  rewrite (Rltb_false 0 (- DEAD_ZONE)) by (unfold DEAD_ZONE; lra).
  unfold DEAD_ZONE, FORWARD_THRESHOLD, BACKWARD_THRESHOLD, Rgtb, Rltb. simpl.
  destruct (Rgt_dec angle_y 10), (Rgt_dec angle_y 15), (Rlt_dec angle_y (Ropp 10)),
    (Rlt_dec angle_y (-15)); simpl; try reflexivity; exfalso; lra.
Qed.

Lemma neutral_pitch (angle_x : R) :
  get_direction angle_x 0 0 =
    if Rltb angle_x (-15) then "LEFT" else if Rgtb angle_x 15 then "RIGHT" else "STOP".
Proof.
  unfold get_direction.
  rewrite (Rgtb_false (Rabs 0) DEAD_ZONE) by (unfold DEAD_ZONE; rewrite Rabs_R0; lra).
  rewrite (Rgtb_false 0 DEAD_ZONE) by (unfold DEAD_ZONE; lra).
  rewrite (Rltb_false 0 (- DEAD_ZONE)) by (unfold DEAD_ZONE; lra).
  unfold DEAD_ZONE, LEFT_THRESHOLD, RIGHT_THRESHOLD, Rgtb, Rltb. simpl.
  destruct (Rgt_dec angle_x 10), (Rgt_dec angle_x 15), (Rlt_dec angle_x (Ropp 10)),
    (Rlt_dec angle_x (-15)); simpl; try reflexivity; exfalso; lra.
Qed.

Lemma neutral_yaw (angle_z : R) :
  get_direction 0 0 angle_z =
    if Rgtb angle_z 20 then "ROTATE_RIGHT"
    else if Rltb angle_z (-20) then "ROTATE_LEFT" else "STOP".
Proof.
  unfold get_direction.
  rewrite (Rgtb_false 0 DEAD_ZONE) by (unfold DEAD_ZONE; lra).
  rewrite (Rltb_false 0 (- DEAD_ZONE)) by (unfold DEAD_ZONE; lra).
  unfold DEAD_ZONE, TURN_THRESHOLD. simpl.
  destruct (Rgt_dec angle_z 20) as [Hr|Hr].
  - rewrite (Rgtb_true (Rabs angle_z) 10) by (rewrite Rabs_gt by lra; lra).
    rewrite (Rgtb_true (Rabs angle_z) 20) by (rewrite Rabs_gt by lra; lra).
    rewrite (Rgtb_true angle_z 0) by lra.
    rewrite (Rgtb_true angle_z 20) by lra. reflexivity.
  - rewrite (Rgtb_false angle_z 20) by exact Hr.
    destruct (Rlt_dec angle_z (-20)) as [Hl|Hl].
    + rewrite (Rgtb_true (Rabs angle_z) 10) by (rewrite Rabs_gt by lra; lra).
      rewrite (Rgtb_true (Rabs angle_z) 20) by (rewrite Rabs_gt by lra; lra).
      rewrite (Rgtb_false angle_z 0) by lra.
      rewrite (Rltb_true angle_z (-20)) by lra. reflexivity.
    + rewrite (Rgtb_false (Rabs angle_z) 20)
        by (rewrite Rabs_gt by lra; intros [H|H]; lra).
      rewrite (Rltb_false angle_z (-20)) by exact Hl.
      rewrite andb_false_r. reflexivity.
Qed.

End Boundaries.

(** C6: every threshold comparison of the classifier is strict.  With the
    other two angles neutral, FORWARD is returned exactly for
    [angle_y > 15], BACKWARD exactly for [angle_y < -15], LEFT exactly for
    [angle_x < -15], RIGHT exactly for [angle_x > 15], ROTATE_RIGHT exactly
    for [angle_z > 20] and ROTATE_LEFT exactly for [angle_z < -20]; an angle
    equal to its threshold leaves the result what the other rules make it
    (the same as with that angle at 0); and [get_direction 0 15 0] is STOP,
    as are the five other boundary cases. *)
Theorem thresholds_are_strict :
  (forall angle_y : R,
     (motion_control.get_direction 0 angle_y 0 = "FORWARD" <-> (angle_y > 15)%R)
     /\ (motion_control.get_direction 0 angle_y 0 = "BACKWARD" <-> (angle_y < -15)%R))
  /\ (forall angle_x : R,
        (motion_control.get_direction angle_x 0 0 = "LEFT" <-> (angle_x < -15)%R)
        /\ (motion_control.get_direction angle_x 0 0 = "RIGHT" <-> (angle_x > 15)%R))
  /\ (forall angle_z : R,
        (motion_control.get_direction 0 0 angle_z = "ROTATE_RIGHT" <-> (angle_z > 20)%R)
        /\ (motion_control.get_direction 0 0 angle_z = "ROTATE_LEFT" <-> (angle_z < -20)%R))
  /\ (forall angle_x angle_z : R,
        motion_control.get_direction angle_x 15 angle_z =
          motion_control.get_direction angle_x 0 angle_z
        /\ motion_control.get_direction angle_x (-15) angle_z =
             motion_control.get_direction angle_x 0 angle_z)
  /\ (forall angle_y angle_z : R,
        motion_control.get_direction 15 angle_y angle_z =
          motion_control.get_direction 0 angle_y angle_z
        /\ motion_control.get_direction (-15) angle_y angle_z =
             motion_control.get_direction 0 angle_y angle_z)
  /\ (forall angle_x angle_y : R,
        motion_control.get_direction angle_x angle_y 20 =
          motion_control.get_direction angle_x angle_y 0
        /\ motion_control.get_direction angle_x angle_y (-20) =
             motion_control.get_direction angle_x angle_y 0)
  /\ motion_control.get_direction 0 15 0 = "STOP"
  /\ motion_control.get_direction 0 (-15) 0 = "STOP"
  /\ motion_control.get_direction 15 0 0 = "STOP"
  /\ motion_control.get_direction (-15) 0 0 = "STOP"
  /\ motion_control.get_direction 0 0 20 = "STOP"
  /\ motion_control.get_direction 0 0 (-20) = "STOP".
Proof.
  split; [|split; [|split; [|split; [|split; [|split]]]]].
  - intros angle_y. rewrite neutral_roll. unfold Rgtb, Rltb.
    destruct (Rgt_dec angle_y 15), (Rlt_dec angle_y (-15));
      (split; split; intros H; first [discriminate | lra | reflexivity]).
  - intros angle_x. rewrite neutral_pitch. unfold Rgtb, Rltb.
    destruct (Rgt_dec angle_x 15), (Rlt_dec angle_x (-15));
      (split; split; intros H; first [discriminate | lra | reflexivity]).
  - intros angle_z. rewrite neutral_yaw. unfold Rgtb, Rltb.
    destruct (Rgt_dec angle_z 20), (Rlt_dec angle_z (-20));
      (split; split; intros H; first [discriminate | lra | reflexivity]).
  - intros angle_x angle_z.
    split; apply roll_rule_silent;
      unfold motion_control.BACKWARD_THRESHOLD, motion_control.FORWARD_THRESHOLD; lra.
  - intros angle_y angle_z.
    split; apply pitch_rule_silent;
      unfold motion_control.LEFT_THRESHOLD, motion_control.RIGHT_THRESHOLD; lra.
  - intros angle_x angle_y.
    split; apply yaw_rule_silent; unfold motion_control.TURN_THRESHOLD; lra.
  - assert (H0 : motion_control.get_direction 0 0 0 = "STOP").
    { rewrite neutral_roll. rewrite Rgtb_false, Rltb_false by lra. reflexivity. }
    repeat split.
    + rewrite roll_rule_silent; [exact H0|].
      unfold motion_control.BACKWARD_THRESHOLD, motion_control.FORWARD_THRESHOLD; lra.
    + rewrite roll_rule_silent; [exact H0|].
      unfold motion_control.BACKWARD_THRESHOLD, motion_control.FORWARD_THRESHOLD; lra.
    + rewrite pitch_rule_silent; [exact H0|].
      unfold motion_control.LEFT_THRESHOLD, motion_control.RIGHT_THRESHOLD; lra.
    + rewrite pitch_rule_silent; [exact H0|].
      unfold motion_control.LEFT_THRESHOLD, motion_control.RIGHT_THRESHOLD; lra.
    + rewrite yaw_rule_silent; [exact H0|]. unfold motion_control.TURN_THRESHOLD; lra.
    + rewrite yaw_rule_silent; [exact H0|]. unfold motion_control.TURN_THRESHOLD; lra.
Qed.

(** ** The smoothing filter *)

Section Smoothing.

Local Open Scope R_scope.

Import motion_control.

(** What lines 78-81 make of [data], key by key. *)
Lemma smooth_run (prev_data data : gmap string R) (s : motion_control.t) :
  smooth prev_data data s =
    (Ok (map_imap (fun key new_value =>
                     Some (match prev_data !! key with
                           | Some prev_value => low_pass_filter new_value prev_value alpha
                           | None => new_value
                           end)) data), s).
Proof.
  unfold smooth. destruct (Nat.eqb_spec (size prev_data) 0) as [Hz|Hnz].
  - apply map_size_empty_iff in Hz. subst prev_data. unfold ret. do 2 f_equal.
    apply map_eq. intros k. rewrite map_lookup_imap, lookup_empty.
    destruct (data !! k); reflexivity.
  - apply for_each_keys_update. intros k v m Hv. unfold smooth_key.
    destruct (prev_data !! k) as [p|].
    + unfold getitem. rewrite Hv. reflexivity.
    + unfold ret. rewrite insert_id by exact Hv. reflexivity.
Qed.

(** The locals that [on_mpu] and [print] leave alone. *)
Lemma on_mpu_prev_data {A} (m : M MPU6050.t A) (s : motion_control.t) :
  prev_data (snd (on_mpu m s)) = prev_data s.
Proof. unfold on_mpu. destruct (m (mpu s)) as [r d]. reflexivity. Qed.

Lemma bind_prev_data {A B} (m : M motion_control.t A) (k : A -> M motion_control.t B)
    (s : motion_control.t) :
  (forall s0, prev_data (snd (m s0)) = prev_data s0) ->
  (forall a s0, prev_data (snd (k a s0)) = prev_data s0) ->
  prev_data (snd (bind m k s)) = prev_data s.
Proof.
  intros Hm Hk. unfold bind. specialize (Hm s).
  destruct (m s) as [[a|e] s1]; simpl in *; [rewrite Hk|]; exact Hm.
Qed.

End Smoothing.

(** C7: [low_pass_filter new_value prev_value alpha] is
    [alpha * prev_value + (1 - alpha) * new_value]; it is [new_value] at
    [alpha = 0] and [prev_value] at [alpha = 1]; and the first cycle of the
    loop filters nothing: the loop is entered with [prev_data] empty, and
    with an empty [prev_data] the filtering step leaves [data] as read. *)
Theorem low_pass_filter_laws :
  (forall new_value prev_value a : R,
     motion_control.low_pass_filter new_value prev_value a =
       (a * prev_value + (1 - a) * new_value)%R)
  /\ (forall current previous : R, motion_control.low_pass_filter current previous 0 = current)
  /\ (forall current previous : R, motion_control.low_pass_filter current previous 1 = previous)
  /\ (forall s : motion_control.t,
        motion_control.prev_data (snd (motion_control.start_direction_display [] s)) = ∅)
  /\ (forall (data : gmap string R) (s : motion_control.t),
        motion_control.smooth ∅ data s = (Ok data, s)).
Proof.
  split; [|split; [|split; [|split]]].
  - reflexivity.
  - intros current previous. unfold motion_control.low_pass_filter. lra.
  - intros current previous. unfold motion_control.low_pass_filter. lra.
  - intros s. unfold motion_control.start_direction_display.
    unfold bind at 1. unfold modify at 1.
    rewrite bind_prev_data; [reflexivity|reflexivity|]. intros _ s1.
    rewrite bind_prev_data; [reflexivity|reflexivity|]. intros _ s2.
    rewrite bind_prev_data; [reflexivity|intros; apply on_mpu_prev_data|]. intros _ s3.
    rewrite bind_prev_data; [reflexivity|intros; apply on_mpu_prev_data|]. intros _ s4.
    rewrite bind_prev_data; [reflexivity|intros; apply on_mpu_prev_data|]. intros _ s5.
    rewrite bind_prev_data; [reflexivity|intros; apply on_mpu_prev_data|]. intros _ s6.
    reflexivity.
  - intros data s. reflexivity.
Qed.

(** ** The orientation update *)

(** C4: from the previous angles, a reading that has the six scaled
    entries, and the elapsed time [dt], the update returns
    [0.95 * (prevX + GyX_deg * dt) + 0.05 * (atan2 AcY_g AcZ_g * 180 / pi)],
    [0.95 * (prevY + GyY_deg * dt)
       + 0.05 * (atan2 (- AcX_g) (sqrt (AcY_g^2 + AcZ_g^2)) * 180 / pi)] and
    [prevZ + GyZ_deg * dt]; with [dt = 0] the X and Y angles are
    [beta * previous + (1 - beta) * tilt] and the Z angle is unchanged. *)
Theorem update_angles_formula :
  forall (prev_angles : axes R) (data : gmap string R) (dt : R)
         (vAcX_g vAcY_g vAcZ_g vGyX_deg vGyY_deg vGyZ_deg : R),
    data !! "AcX_g" = Some vAcX_g ->
    data !! "AcY_g" = Some vAcY_g ->
    data !! "AcZ_g" = Some vAcZ_g ->
    data !! "GyX_deg" = Some vGyX_deg ->
    data !! "GyY_deg" = Some vGyY_deg ->
    data !! "GyZ_deg" = Some vGyZ_deg ->
    let tilt_x := (math.atan2 vAcY_g vAcZ_g * 180 / math.pi)%R in
    let tilt_y :=
      (math.atan2 (- vAcX_g) (math.sqrt (vAcY_g ^ 2 + vAcZ_g ^ 2)) * 180 / math.pi)%R in
    motion_control.beta = 0.95%R
    /\ motion_control.update_angles prev_angles data dt =
         Ok (Axes (0.95 * (x prev_angles + vGyX_deg * dt) + (1 - 0.95) * tilt_x)
                  (0.95 * (y prev_angles + vGyY_deg * dt) + (1 - 0.95) * tilt_y)
                  (z prev_angles + vGyZ_deg * dt))%R
    /\ motion_control.update_angles prev_angles data 0 =
         Ok (Axes (motion_control.beta * x prev_angles + (1 - motion_control.beta) * tilt_x)
                  (motion_control.beta * y prev_angles + (1 - motion_control.beta) * tilt_y)
                  (z prev_angles))%R.
Proof.
  intros prev_angles data dt vAcX_g vAcY_g vAcZ_g vGyX_deg vGyY_deg vGyZ_deg
    HAcX HAcY HAcZ HGyX HGyY HGyZ tilt_x tilt_y.
  split; [reflexivity|].
  unfold motion_control.update_angles, getitem.
  rewrite HAcX, HAcY, HAcZ, HGyX, HGyY, HGyZ. unfold rbind. fold tilt_x tilt_y.
  split; [reflexivity|].
  f_equal. f_equal; ring.
Qed.

Lemma update_angles_formula_witness :
  let data : gmap string R :=
    <["AcX_g" := 0%R]> (<["AcY_g" := 0%R]> (<["AcZ_g" := 1%R]>
   (<["GyX_deg" := 2%R]> (<["GyY_deg" := 3%R]> (<["GyZ_deg" := 4%R]> ∅))))) in
  data !! "AcX_g" = Some 0%R
  /\ data !! "AcY_g" = Some 0%R
  /\ data !! "AcZ_g" = Some 1%R
  /\ data !! "GyX_deg" = Some 2%R
  /\ data !! "GyY_deg" = Some 3%R
  /\ data !! "GyZ_deg" = Some 4%R
  /\ motion_control.update_angles (Axes 10 20 30)%R data 0.5 =
       Ok (Axes (0.95 * (10 + 2 * 0.5) + (1 - 0.95) * (math.atan2 0 1 * 180 / math.pi))
                (0.95 * (20 + 3 * 0.5)
                 + (1 - 0.95)
                   * (math.atan2 (- 0) (math.sqrt (0 ^ 2 + 1 ^ 2)) * 180 / math.pi))
                (30 + 4 * 0.5))%R.
Proof.
  intros data.
  repeat (split; [reflexivity|]).
  exact (proj1 (proj2 (update_angles_formula (Axes 10 20 30)%R data 0.5%R 0%R 0%R 1%R 2%R 3%R 4%R
                         eq_refl eq_refl eq_refl eq_refl eq_refl eq_refl))).
Defined.

(** ** The standalone complementary filter *)

(** C9: [apply_complementary_filter] never returns.  In the namespace of
    [mpu6050.py], where [math] is not bound, every call raises [NameError]
    for [math] at its first expression; and in any namespace whatever the
    call raises, because [angle_x] is read before anything is assigned to
    it: where [math] is bound and the accelerometer entries are present the
    exception is the [NameError] for [angle_x]. *)
Theorem apply_complementary_filter_raises :
  (forall (accel_data gyro_data : gmap string R) (dt alpha : R),
     MPU6050.apply_complementary_filter MPU6050.module_globals accel_data gyro_data dt alpha
     = Raise (NameError "math"))
  /\ (forall (globals : list string) (accel_data gyro_data : gmap string R) (dt alpha : R),
        exists e,
          MPU6050.apply_complementary_filter globals accel_data gyro_data dt alpha = Raise e)
  /\ (forall (globals : list string) (accel_data gyro_data : gmap string R) (dt alpha : R)
             (vAcX_g vAcY_g vAcZ_g : R),
        MPU6050.load_global globals "math" = Ok tt ->
        accel_data !! "AcX_g" = Some vAcX_g ->
        accel_data !! "AcY_g" = Some vAcY_g ->
        accel_data !! "AcZ_g" = Some vAcZ_g ->
        MPU6050.apply_complementary_filter globals accel_data gyro_data dt alpha
        = Raise (NameError "angle_x")).
Proof.
  split; [|split].
  - reflexivity.
  - intros globals accel_data gyro_data dt alpha.
    unfold MPU6050.apply_complementary_filter.
    destruct (MPU6050.load_global globals "math") as [[]|e]; simpl; [|eauto].
    destruct (getitem accel_data "AcY_g") as [vy|e]; simpl; [|eauto].
    destruct (getitem accel_data "AcZ_g") as [vz|e]; simpl; [|eauto].
    destruct (getitem accel_data "AcX_g") as [vx|e]; simpl; eauto.
  - intros globals accel_data gyro_data dt alpha vAcX_g vAcY_g vAcZ_g Hmath HAcX HAcY HAcZ.
    unfold MPU6050.apply_complementary_filter, getitem.
    rewrite Hmath, HAcX, HAcY, HAcZ. reflexivity.
Qed.

Lemma apply_complementary_filter_raises_witness :
  let accel_data : gmap string R :=
    <["AcX_g" := 0%R]> (<["AcY_g" := 0%R]> (<["AcZ_g" := 1%R]> ∅)) in
  let globals := "math" :: MPU6050.module_globals in
  MPU6050.load_global globals "math" = Ok tt
  /\ accel_data !! "AcX_g" = Some 0%R
  /\ accel_data !! "AcY_g" = Some 0%R
  /\ accel_data !! "AcZ_g" = Some 1%R
  /\ MPU6050.apply_complementary_filter globals accel_data ∅ 0.1 0.98
     = Raise (NameError "angle_x").
Proof.
  intros accel_data globals.
  repeat (split; [reflexivity|]).
  exact (proj2 (proj2 apply_complementary_filter_raises) globals accel_data ∅ 0.1%R 0.98%R
           0%R 0%R 1%R eq_refl eq_refl eq_refl eq_refl).
Defined.

(** ** The debounce of the display *)

Section Debounce.

Import motion_control.

Local Open Scope Z_scope.

Lemma length_shown_from (directions : list string) :
  forall st, length (shown_from st directions) = length directions.
Proof.
  induction directions as [|d ds IH]; intros st; simpl; [reflexivity|].
  rewrite IH. reflexivity.
Qed.

(** The counter is at least 1 exactly when the last two labels were equal,
    and reaches 2 exactly when the last three were: [q] and [p] are the
    labels of the two cycles before [directions]. *)
Lemma shown_from_spec (directions : list string) :
  forall (p q : string) (c : Z),
    0 <= c -> (1 <= c <-> q = p) ->
    forall (n : nat) (d : string),
      shown_from (p, c) directions !! n = Some (Some d) <->
      (q :: p :: directions) !! S (S n) = Some d
      /\ (q :: p :: directions) !! S n = Some d
      /\ (q :: p :: directions) !! n = Some d.
Proof.
  induction directions as [|d0 ds IH]; intros p q c Hc Hq n d.
  - simpl. split; [intros H; destruct n; discriminate|].
    intros [H _]. destruct n; discriminate.
  - assert (Hst : exists c', debounce d0 (p, c) = (d0, c') /\ 0 <= c'
                             /\ (1 <= c' <-> p = d0)
                             /\ (2 <= c' <-> p = d0 /\ q = p)).
    { unfold debounce. destruct (String.eqb_spec d0 p) as [->|Hne].
      - exists (c + 1).
        split; [reflexivity|]. split; [lia|]. split; [split; [reflexivity|lia]|].
        split.
        + intros Hge. split; [reflexivity|]. apply Hq. lia.
        + intros [_ Heq]. apply Hq in Heq. lia.
      - exists 0.
        split; [reflexivity|]. split; [lia|]. split; [split; [lia|congruence]|].
        split; [lia|]. intros [Heq _]. congruence. }
    destruct Hst as (c' & Hdeb & Hc' & H1 & H2).
    change (shown_from (p, c) (d0 :: ds))
      with ((if snd (debounce d0 (p, c)) >=? 2 then Some d0 else None)
              :: shown_from (debounce d0 (p, c)) ds).
    rewrite Hdeb. simpl snd.
    destruct n as [|n].
    + simpl. destruct (Z.geb_spec c' 2) as [Hge|Hlt].
      * destruct H2 as [H2 _]. destruct H2 as [-> ->]; [lia|].
        split; [intros [= ->]; auto|intros ([= ->] & _); reflexivity].
      * split; [discriminate|]. intros ([= ->] & [= ->] & [= ->]).
        exfalso. apply Z.lt_nge in Hlt. apply Hlt. apply H2. auto.
    + change ((if c' >=? 2 then Some d0 else None) :: shown_from (d0, c') ds)
        with ([if c' >=? 2 then Some d0 else None] ++ shown_from (d0, c') ds).
      rewrite lookup_app_r by (simpl; lia).
      replace (S n - length [if c' >=? 2 then Some d0 else None])%nat with n
        by (simpl; lia).
      rewrite (IH d0 p c' Hc' H1 n d). reflexivity.
Qed.

Lemma display_run_state (a : axes R) (s : motion_control.t) :
  let direction := get_direction (x a) (y a) (z a) in
  let st := debounce direction (prev_direction s, direction_count s) in
  display a s =
    (Ok tt,
     set_mpu
       (MPU6050.set_console
          (MPU6050.console (mpu s)
             ++ (if snd st >=? 2
                 then [DirectionLine direction (indicator_of direction) (x a) (y a) (z a)]
                 else []))
          (mpu s))
       (set_prev_direction (fst st) (set_direction_count (snd st) s))).
Proof.
  intros direction st. unfold display. fold direction.
  unfold bind at 1. unfold get at 1. fold st.
  destruct st as [p c]. simpl fst. simpl snd.
  destruct s as [m pa pt pd pdir dc]. destruct m as [bus ad ao go con].
  destruct (c >=? 2); [reflexivity|].
  unfold bind, modify, ret. simpl. rewrite app_nil_r. reflexivity.
Qed.

Lemma display_run (a : axes R) (s : motion_control.t) :
  let direction := get_direction (x a) (y a) (z a) in
  let st := debounce direction (prev_direction s, direction_count s) in
  exists s1,
    display a s = (Ok tt, s1)
    /\ (prev_direction s1, direction_count s1) = st
    /\ MPU6050.console (mpu s1) =
         MPU6050.console (mpu s)
           ++ (if snd st >=? 2
               then [DirectionLine direction (indicator_of direction) (x a) (y a) (z a)]
               else []).
Proof.
  intros direction st. eexists. split; [apply display_run_state|].
  fold direction. fold st. destruct st as [p c].
  destruct s as [m pa pt pd pdir dc]. destruct m as [bus ad ao go con].
  split; reflexivity.
Qed.

Lemma display_all_run (angles : list (axes R)) :
  forall s : motion_control.t,
    exists s',
      display_all angles s = (Ok tt, s')
      /\ MPU6050.console (mpu s') =
           MPU6050.console (mpu s)
             ++ lines_of angles
                  (shown_from (prev_direction s, direction_count s) (classify_all angles)).
Proof.
  induction angles as [|a angles IH]; intros s.
  - exists s. split; [reflexivity|]. simpl. rewrite app_nil_r. reflexivity.
  - destruct (display_run a s) as (s1 & Hrun1 & Hst & Hcon1).
    destruct (IH s1) as (s' & Hrun & Hcon).
    exists s'. split.
    + unfold display_all. simpl for_each. rewrite (bind_ok _ _ s s1 tt Hrun1). exact Hrun.
    + rewrite Hcon, Hcon1, Hst, <- app_assoc. f_equal.
      change (classify_all (a :: angles))
        with (get_direction (x a) (y a) (z a) :: classify_all angles).
      set (d := get_direction (x a) (y a) (z a)).
      change (shown_from (prev_direction s, direction_count s) (d :: classify_all angles))
        with ((if snd (debounce d (prev_direction s, direction_count s)) >=? 2
               then Some d else None)
                :: shown_from (debounce d (prev_direction s, direction_count s))
                     (classify_all angles)).
      destruct (snd (debounce d (prev_direction s, direction_count s)) >=? 2); reflexivity.
Qed.

End Debounce.

Section DebounceScenarios.

Local Open Scope R_scope.

Lemma classify_left : motion_control.get_direction (-25) 0 0 = "LEFT".
Proof. rewrite neutral_pitch. rewrite Rltb_true by lra. reflexivity. Qed.

Lemma classify_stop : motion_control.get_direction 0 0 0 = "STOP".
Proof. rewrite neutral_pitch. rewrite Rltb_false, Rgtb_false by lra. reflexivity. Qed.

Lemma classify_rotate_right : motion_control.get_direction 0 0 30 = "ROTATE_RIGHT".
Proof. rewrite neutral_yaw. rewrite Rgtb_true by lra. reflexivity. Qed.

End DebounceScenarios.

(** C1, as stated, fails: from the loop's initial locals, two consecutive
    cycles at [angle_x = -25] both classify as LEFT, a label other than the
    initial STOP, and the display code prints nothing in either. *)
Lemma two_cycles_are_not_displayed :
  classify_all [Axes (-25)%R 0%R 0%R; Axes (-25)%R 0%R 0%R] = ["LEFT"; "LEFT"]
  /\ MPU6050.console
       (motion_control.mpu
          (snd (display_all [Axes (-25)%R 0%R 0%R; Axes (-25)%R 0%R 0%R]
                  (motion_control.init [] 0)))) = [].
Proof.
  assert (Hc : classify_all [Axes (-25)%R 0%R 0%R; Axes (-25)%R 0%R 0%R] = ["LEFT"; "LEFT"]).
  { unfold classify_all. simpl. rewrite classify_left. reflexivity. }
  split; [exact Hc|].
  destruct (display_all_run [Axes (-25)%R 0%R 0%R; Axes (-25)%R 0%R 0%R]
              (motion_control.init [] 0)) as (s' & Hrun & Hcon).
  rewrite Hrun. simpl snd. rewrite Hcon, Hc. reflexivity.
Qed.

(** C1, amended: the display code prints a cycle's label exactly when the
    classifier produced that label in this cycle and in the two cycles
    before it - three consecutive cycles, two consecutive matches - where
    the initial [prev_direction], STOP, counts as the label of a cycle before
    the first.  So nothing is printed in the first cycle; LEFT held for
    three cycles is printed in the third; STOP held from the start is
    printed from the second cycle on; a label held for one cycle only is
    never printed; and in every cycle whose label has not yet been matched
    twice nothing is printed at all. *)
Theorem display_needs_two_matches :
  (forall (angles : list (axes R)) (s : motion_control.t),
     motion_control.prev_direction s = "STOP" ->
     motion_control.direction_count s = 0 ->
     exists s',
       display_all angles s = (Ok tt, s')
       /\ MPU6050.console (motion_control.mpu s') =
            MPU6050.console (motion_control.mpu s)
              ++ lines_of angles (motion_control.shown (classify_all angles)))
  /\ (forall directions : list string,
        length (motion_control.shown directions) = length directions
        /\ (forall d, motion_control.shown directions !! 0%nat <> Some (Some d))
        /\ (forall (n : nat) (d : string),
              motion_control.shown directions !! S n = Some (Some d) <->
              directions !! S n = Some d
              /\ directions !! n = Some d
              /\ ("STOP" :: directions) !! n = Some d))
  /\ motion_control.shown
       (classify_all [Axes (-25)%R 0%R 0%R; Axes (-25)%R 0%R 0%R; Axes (-25)%R 0%R 0%R])
     = [None; None; Some "LEFT"]
  /\ motion_control.shown (classify_all [Axes 0%R 0%R 0%R; Axes 0%R 0%R 0%R])
     = [None; Some "STOP"]
  /\ motion_control.shown
       (classify_all [Axes 0%R 0%R 0%R; Axes 0%R 0%R 0%R; Axes 0%R 0%R 30%R;
                      Axes 0%R 0%R 0%R; Axes 0%R 0%R 0%R; Axes 0%R 0%R 0%R])
     = [None; Some "STOP"; None; None; None; Some "STOP"].
Proof.
  split; [|split; [|split; [|split]]].
  - intros angles s Hp Hc.
    destruct (display_all_run angles s) as (s' & Hrun & Hcon).
    exists s'. split; [exact Hrun|]. rewrite Hcon, Hp, Hc. reflexivity.
  - intros directions.
    assert (Hspec : forall (n : nat) (d : string),
               motion_control.shown directions !! n = Some (Some d) <->
               ("" :: "STOP" :: directions) !! S (S n) = Some d
               /\ ("" :: "STOP" :: directions) !! S n = Some d
               /\ ("" :: "STOP" :: directions) !! n = Some d).
    { apply shown_from_spec; [lia|]. split; [lia|discriminate]. }
    split; [apply length_shown_from|]. split.
    + intros d Hd. apply Hspec in Hd. destruct Hd as (_ & H1 & H0).
      simpl in H1, H0. congruence.
    + intros n d. rewrite Hspec. reflexivity.
  - unfold classify_all. simpl. rewrite classify_left. reflexivity.
  - unfold classify_all. simpl. rewrite classify_stop. reflexivity.
  - unfold classify_all. simpl. rewrite classify_stop, classify_rotate_right. reflexivity.
Qed.

Lemma display_needs_two_matches_witness :
  let angles := [Axes (-25)%R 0%R 0%R; Axes (-25)%R 0%R 0%R; Axes (-25)%R 0%R 0%R] in
  let s := motion_control.init [] 0 in
  motion_control.prev_direction s = "STOP"
  /\ motion_control.direction_count s = 0
  /\ exists s',
       display_all angles s = (Ok tt, s')
       /\ MPU6050.console (motion_control.mpu s') =
            MPU6050.console (motion_control.mpu s)
              ++ lines_of angles (motion_control.shown (classify_all angles)).
Proof.
  intros angles s.
  split; [reflexivity|]. split; [reflexivity|].
  exact (proj1 display_needs_two_matches angles s eq_refl eq_refl).
Defined.

(** ** One cycle of the loop *)

Section Cycle.

Import motion_control.

Local Open Scope R_scope.

Lemma dict_of_totals_scaled (t : totals) :
  dict_of_totals t !! "AcX_g" = Some (AcX_g t)
  /\ dict_of_totals t !! "AcY_g" = Some (AcY_g t)
  /\ dict_of_totals t !! "AcZ_g" = Some (AcZ_g t)
  /\ dict_of_totals t !! "GyX_deg" = Some (GyX_deg t)
  /\ dict_of_totals t !! "GyY_deg" = Some (GyY_deg t)
  /\ dict_of_totals t !! "GyZ_deg" = Some (GyZ_deg t).
Proof. repeat split; reflexivity. Qed.

Lemma update_angles_ok (prev : axes R) (data : gmap string R) (dt : R) :
  is_Some (data !! "AcX_g") -> is_Some (data !! "AcY_g") -> is_Some (data !! "AcZ_g") ->
  is_Some (data !! "GyX_deg") -> is_Some (data !! "GyY_deg") -> is_Some (data !! "GyZ_deg") ->
  exists angles, update_angles prev data dt = Ok angles.
Proof.
  intros [v1 H1] [v2 H2] [v3 H3] [v4 H4] [v5 H5] [v6 H6].
  unfold update_angles, getitem. rewrite H1, H2, H3, H4, H5, H6.
  eexists. reflexivity.
Qed.

Lemma on_mpu_ok {A} (m : M MPU6050.t A) (s : motion_control.t) (a : A) (d : MPU6050.t) :
  m (mpu s) = (Ok a, d) -> on_mpu m s = (Ok a, set_mpu d s).
Proof. intros H. unfold on_mpu. rewrite H. reflexivity. Qed.

(** A cycle that finds five readings on the bus: what it reads, filters,
    computes, stores and prints. *)
Lemma cycle_run (current_time : Z) (s : motion_control.t)
    (rs : list (reading * (byte * byte))) (rest : list (byte * byte)) :
  length rs = 5%nat ->
  MPU6050.i2c (mpu s) = get_values_script rs ++ rest ->
  exists (values data : gmap string R) (angles : axes R) (s' : motion_control.t),
    MPU6050.get_values 5 0.01 (mpu s) = (Ok values, MPU6050.set_i2c rest (mpu s))
    /\ (forall s0, smooth (prev_data s) values s0 = (Ok data, s0))
    /\ update_angles (prev_angles s) data (IZR (current_time - prev_time s) / 1000)
       = Ok angles
    /\ cycle current_time s = (Ok tt, s')
    /\ prev_time s' = current_time
    /\ prev_angles s' = angles
    /\ prev_data s' = data
    /\ (prev_direction s', direction_count s') =
         debounce (get_direction (x angles) (y angles) (z angles))
           (prev_direction s, direction_count s)
    /\ MPU6050.i2c (mpu s') = rest
    /\ MPU6050.console (mpu s') =
         MPU6050.console (mpu s)
           ++ (if (snd (debounce (get_direction (x angles) (y angles) (z angles))
                          (prev_direction s, direction_count s)) >=? 2)%Z
               then [DirectionLine (get_direction (x angles) (y angles) (z angles))
                       (indicator_of (get_direction (x angles) (y angles) (z angles)))
                       (x angles) (y angles) (z angles)]
               else [])
    /\ MPU6050.accel_offsets (mpu s') = MPU6050.accel_offsets (mpu s)
    /\ MPU6050.gyro_offsets (mpu s') = MPU6050.gyro_offsets (mpu s).
Proof.
  intros Hlen Hbus.
  assert (Hne : rs <> []) by (destruct rs; [discriminate|discriminate]).
  pose proof (get_values_run rs 0.01 rest (mpu s) Hne Hbus) as Hgv.
  rewrite Hlen in Hgv. change (Z.of_nat 5) with 5%Z in Hgv.
  set (values := (fun v => v / INR 5) <$>
                   dict_of_totals
                     (foldl (get_values_acc (MPU6050.accel_offsets (mpu s))
                               (MPU6050.gyro_offsets (mpu s))) no_totals rs)) in *.
  set (data := map_imap (fun key new_value =>
                 Some (match prev_data s !! key with
                       | Some prev_value => low_pass_filter new_value prev_value alpha
                       | None => new_value
                       end)) values).
  assert (Hkeys : forall k v, values !! k = Some v -> is_Some (data !! k)).
  { intros k v Hv. unfold data. rewrite map_lookup_imap, Hv. simpl. eauto. }
  destruct (dict_of_totals_scaled
              (foldl (get_values_acc (MPU6050.accel_offsets (mpu s))
                        (MPU6050.gyro_offsets (mpu s))) no_totals rs))
    as (K1 & K2 & K3 & K4 & K5 & K6).
  assert (HAcX : is_Some (data !! "AcX_g"))
    by (eapply Hkeys; unfold values; rewrite lookup_fmap, K1; reflexivity).
  destruct (update_angles_ok (prev_angles s) data (IZR (current_time - prev_time s) / 1000))
    as [angles Hangles]; try exact HAcX;
    try (eapply Hkeys; unfold values; rewrite lookup_fmap;
         first [rewrite K2 | rewrite K3 | rewrite K4 | rewrite K5 | rewrite K6];
         reflexivity).
  exists values, data, angles.
  eexists. split; [exact Hgv|]. split; [intros s0; apply smooth_run|].
  split; [exact Hangles|].
  split.
  - unfold cycle.
    rewrite (bind_ok get _ s s s eq_refl).
    rewrite (bind_ok (modify (set_prev_time current_time)) _ s
               (set_prev_time current_time s) tt eq_refl).
    erewrite bind_ok.
    2:{ apply on_mpu_ok. destruct s; exact Hgv. }
    erewrite bind_ok by reflexivity.
    erewrite bind_ok.
    2:{ destruct s; apply smooth_run. }
    fold data. destruct HAcX as [vAcX HAcX]. 
    erewrite (bind_ok (match data !! "AcX_g" with Some _ => _ | None => _ end)).
    + reflexivity.
    + rewrite HAcX.
      erewrite bind_ok by reflexivity.
      erewrite bind_ok.
      2:{ unfold lift. exact (f_equal2 pair Hangles eq_refl). }
      erewrite bind_ok by reflexivity.
      erewrite bind_ok by apply display_run_state.
      reflexivity.
  - destruct s as [m pa pt pd pdir dc]. destruct m as [bus ad ao go con].
    unfold debounce. simpl.
    destruct (String.eqb (get_direction (x angles) (y angles) (z angles)) pdir); simpl;
      repeat split; reflexivity.
Qed.

End Cycle.

(** * Further properties of the driver and of the loop *)

(** ** The bus running dry *)

Section Exhaustion.

Local Open Scope R_scope.

(** Any bus holding at least [6 * n] answers starts with the script of
    [n] six-axis readings. *)
Lemma bus_as_calibrate_script (n : nat) :
  forall bus : list (byte * byte),
    (6 * n <= length bus)%nat ->
    exists (rs : list reading) (rest : list (byte * byte)),
      length rs = n /\ bus = calibrate_script rs ++ rest.
Proof.
  induction n as [|n IH]; intros bus Hlen.
  - exists [], bus. split; reflexivity.
  - destruct bus as [|p1 [|p2 [|p3 [|p4 [|p5 [|p6 bus]]]]]]; simpl in Hlen; try lia.
    destruct (IH bus) as (rs & rest & Hrs & Hbus); [lia|].
    exists ((Axes p1 p2 p3, Axes p4 p5 p6) :: rs), rest.
    split; [simpl; lia|]. rewrite Hbus. reflexivity.
Qed.

Lemma bus_as_get_values_script (n : nat) :
  forall bus : list (byte * byte),
    (7 * n <= length bus)%nat ->
    exists (rs : list (reading * (byte * byte))) (rest : list (byte * byte)),
      length rs = n /\ bus = get_values_script rs ++ rest.
Proof.
  induction n as [|n IH]; intros bus Hlen.
  - exists [], bus. split; reflexivity.
  - destruct bus as [|p1 [|p2 [|p3 [|p4 [|p5 [|p6 [|p7 bus]]]]]]]; simpl in Hlen; try lia.
    destruct (IH bus) as (rs & rest & Hrs & Hbus); [lia|].
    exists ((Axes p1 p2 p3, Axes p4 p5 p6, p7) :: rs), rest.
    split; [simpl; lia|]. rewrite Hbus. reflexivity.
Qed.

Lemma length_calibrate_script (rs : list reading) :
  length (calibrate_script rs) = (6 * length rs)%nat.
Proof. induction rs as [|r rs IH]; simpl; [reflexivity|]. rewrite IH. lia. Qed.

Lemma length_get_values_script (rs : list (reading * (byte * byte))) :
  length (get_values_script rs) = (7 * length rs)%nat.
Proof. induction rs as [|r rs IH]; simpl; [reflexivity|]. rewrite IH. lia. Qed.

(** A pass of either sampling loop that finds too few answers raises
    [OSError], having taken what there was and touched nothing else. *)
Lemma calibrate_body_short (delay : R) (sums : axes R * axes R) (s : MPU6050.t) :
  (length (MPU6050.i2c s) < 6)%nat ->
  MPU6050.calibrate_body delay sums s = (Raise OSError, MPU6050.set_i2c [] s).
Proof.
  destruct s as [bus a ao go c], sums as [asum gsum]. simpl. intros Hlen.
  destruct bus as [|p1 [|p2 [|p3 [|p4 [|p5 [|p6 bus]]]]]]; simpl in Hlen; try lia;
    reflexivity.
Qed.

Lemma get_values_body_short (delay : R) (values : gmap string R) (s : MPU6050.t) :
  (length (MPU6050.i2c s) < 7)%nat ->
  MPU6050.get_values_body delay values s = (Raise OSError, MPU6050.set_i2c [] s).
Proof.
  destruct s as [bus a ao go c]. simpl. intros Hlen.
  destruct bus as [|p1 [|p2 [|p3 [|p4 [|p5 [|p6 [|p7 bus]]]]]]]; simpl in Hlen; try lia;
    reflexivity.
Qed.

Lemma calibrate_loop_short (delay : R) (n : nat) :
  forall (sums : axes R * axes R) (s : MPU6050.t),
    (length (MPU6050.i2c s) < 6 * n)%nat ->
    for_range n (MPU6050.calibrate_body delay) sums s
    = (Raise OSError, MPU6050.set_i2c [] s).
Proof.
  induction n as [|n IH]; intros sums s Hlen; [lia|].
  simpl for_range.
  destruct (le_lt_dec 6 (length (MPU6050.i2c s))) as [Hge|Hlt].
  - destruct (bus_as_calibrate_script 1 (MPU6050.i2c s)) as (rs & rest & Hrs & Hbus);
      [lia|].
    destruct rs as [|r [|? ?]]; try discriminate.
    erewrite bind_ok by (apply (calibrate_body_run delay sums r rest s Hbus)).
    rewrite IH.
    + rewrite set_i2c_twice. reflexivity.
    + destruct s as [bus a ao go c]. simpl in *. subst bus.
      destruct r as [[? ? ?] [? ? ?]]; simpl in Hlen |- *; lia.
  - erewrite bind_raise by (apply calibrate_body_short; exact Hlt). reflexivity.
Qed.

Lemma get_values_loop_short_next (delay : R) (n : nat) :
  forall (t : totals) (s : MPU6050.t),
    (length (MPU6050.i2c s) < 7 * n)%nat ->
    for_range n (MPU6050.get_values_body delay) (dict_of_totals t) s
    = (Raise OSError, MPU6050.set_i2c [] s).
Proof.
  induction n as [|n IH]; intros t s Hlen; [lia|].
  simpl for_range.
  destruct (le_lt_dec 7 (length (MPU6050.i2c s))) as [Hge|Hlt].
  - destruct (bus_as_get_values_script 1 (MPU6050.i2c s)) as (rs & rest & Hrs & Hbus);
      [lia|].
    destruct rs as [|r [|? ?]]; try discriminate.
    erewrite bind_ok by (apply (get_values_body_next delay t r rest s Hbus)).
    rewrite IH.
    + rewrite set_i2c_twice. reflexivity.
    + destruct s as [bus a ao go c]. simpl in *. subst bus.
      destruct r as [[[? ? ?] [? ? ?]] ?]; simpl in Hlen |- *; lia.
  - erewrite bind_raise by (apply get_values_body_short; exact Hlt). reflexivity.
Qed.

Lemma get_values_loop_short (delay : R) (n : nat) (s : MPU6050.t) :
  (length (MPU6050.i2c s) < 7 * n)%nat ->
  for_range n (MPU6050.get_values_body delay) MPU6050.values0 s
  = (Raise OSError, MPU6050.set_i2c [] s).
Proof.
  destruct n as [|n]; intros Hlen; [lia|].
  simpl for_range.
  destruct (le_lt_dec 7 (length (MPU6050.i2c s))) as [Hge|Hlt].
  - destruct (bus_as_get_values_script 1 (MPU6050.i2c s)) as (rs & rest & Hrs & Hbus);
      [lia|].
    destruct rs as [|r [|? ?]]; try discriminate.
    erewrite bind_ok by (apply (get_values_body_first delay r rest s Hbus)).
    rewrite get_values_loop_short_next.
    + rewrite set_i2c_twice. reflexivity.
    + destruct s as [bus a ao go c]. simpl in *. subst bus.
      destruct r as [[[? ? ?] [? ? ?]] ?]; simpl in Hlen |- *; lia.
  - erewrite bind_raise by (apply get_values_body_short; exact Hlt). reflexivity.
Qed.

End Exhaustion.

(** X1: [calibrate] with [samples >= 1] succeeds exactly when the bus
    answers [6 * samples] reads.  Then it takes exactly those answers and
    prints its two lines; with fewer it raises [OSError] after its first line,
    the bus drained, and both stored offsets are what they were: no partial
    calibration is ever stored. *)
Theorem calibrate_reads_six_per_sample :
  forall (n : nat) (delay : R) (s : MPU6050.t),
    (1 <= n)%nat ->
    ((6 * n <= length (MPU6050.i2c s))%nat ->
     exists s',
       MPU6050.calibrate (Z.of_nat n) delay s = (Ok tt, s')
       /\ MPU6050.i2c s' = drop (6 * n) (MPU6050.i2c s)
       /\ MPU6050.console s' =
            MPU6050.console s ++ [Text "Calibrating MPU6050, keep the sensor still...";
                                  Text "Calibration complete"])
    /\ ((length (MPU6050.i2c s) < 6 * n)%nat ->
        MPU6050.calibrate (Z.of_nat n) delay s =
          (Raise OSError,
           MPU6050.Make [] (MPU6050.addr s) (MPU6050.accel_offsets s)
             (MPU6050.gyro_offsets s)
             (MPU6050.console s ++ [Text "Calibrating MPU6050, keep the sensor still..."]))).
Proof.
  intros n delay s Hn. split.
  - intros Hlen.
    destruct (bus_as_calibrate_script n (MPU6050.i2c s) Hlen) as (rs & rest & Hrs & Hbus).
    assert (Hne : rs <> []) by (destruct rs; [simpl in Hrs; lia|discriminate]).
    eexists. split.
    + rewrite <- Hrs. apply (calibrate_run rs delay rest s Hne Hbus).
    + split.
      * rewrite Hbus, <- Hrs, <- length_calibrate_script, drop_app_length. reflexivity.
      * simpl. rewrite <- app_assoc. reflexivity.
  - intros Hlen. unfold MPU6050.calibrate.
    rewrite (bind_ok _ _ s _ tt) by reflexivity.
    rewrite Nat2Z.id.
    erewrite bind_raise.
    2:{ apply calibrate_loop_short. destruct s; exact Hlen. }
    destruct s; reflexivity.
Qed.

Lemma calibrate_reads_six_per_sample_witness :
  let s := MPU6050.init [(Byte.x01, Byte.x02); (Byte.x03, Byte.x04)] in
  (1 <= 1)%nat
  /\ (length (MPU6050.i2c s) < 6 * 1)%nat
  /\ MPU6050.calibrate 1 0.01 s =
       (Raise OSError,
        MPU6050.Make [] (MPU6050.addr s) (MPU6050.accel_offsets s) (MPU6050.gyro_offsets s)
          (MPU6050.console s ++ [Text "Calibrating MPU6050, keep the sensor still..."])).
Proof.
  intros s.
  assert (H1 : (1 <= 1)%nat) by lia.
  assert (H2 : (length (MPU6050.i2c s) < 6 * 1)%nat) by (simpl; lia).
  split; [exact H1|]. split; [exact H2|].
  exact (proj2 (calibrate_reads_six_per_sample 1 0.01%R s H1) H2).
Defined.

(** X2: [get_values] with [samples >= 1] succeeds exactly when the bus
    answers [7 * samples] reads, and takes exactly those; with fewer it
    raises [OSError] with the bus drained.  Whatever the outcome it leaves
    the calibration offsets and the console as they were. *)
Theorem get_values_reads_seven_per_sample :
  forall (n : nat) (delay : R) (s : MPU6050.t),
    (1 <= n)%nat ->
    ((7 * n <= length (MPU6050.i2c s))%nat ->
     exists values,
       MPU6050.get_values (Z.of_nat n) delay s =
         (Ok values, MPU6050.set_i2c (drop (7 * n) (MPU6050.i2c s)) s))
    /\ ((length (MPU6050.i2c s) < 7 * n)%nat ->
        MPU6050.get_values (Z.of_nat n) delay s = (Raise OSError, MPU6050.set_i2c [] s))
    /\ (MPU6050.accel_offsets (snd (MPU6050.get_values (Z.of_nat n) delay s))
        = MPU6050.accel_offsets s
        /\ MPU6050.gyro_offsets (snd (MPU6050.get_values (Z.of_nat n) delay s))
           = MPU6050.gyro_offsets s
        /\ MPU6050.console (snd (MPU6050.get_values (Z.of_nat n) delay s))
           = MPU6050.console s).
Proof.
  intros n delay s Hn.
  assert (Hok : (7 * n <= length (MPU6050.i2c s))%nat ->
                exists values,
                  MPU6050.get_values (Z.of_nat n) delay s =
                    (Ok values, MPU6050.set_i2c (drop (7 * n) (MPU6050.i2c s)) s)).
  { intros Hlen.
    destruct (bus_as_get_values_script n (MPU6050.i2c s) Hlen) as (rs & rest & Hrs & Hbus).
    assert (Hne : rs <> []) by (destruct rs; [simpl in Hrs; lia|discriminate]).
    eexists. rewrite <- Hrs. rewrite (get_values_run rs delay rest s Hne Hbus).
    do 2 f_equal.
    rewrite Hbus, <- length_get_values_script. symmetry. apply drop_app_length. }
  assert (Hshort : (length (MPU6050.i2c s) < 7 * n)%nat ->
                   MPU6050.get_values (Z.of_nat n) delay s
                   = (Raise OSError, MPU6050.set_i2c [] s)).
  { intros Hlen. unfold MPU6050.get_values. rewrite Nat2Z.id.
    erewrite bind_raise by (apply get_values_loop_short; exact Hlen). reflexivity. }
  split; [exact Hok|]. split; [exact Hshort|].
  destruct (le_lt_dec (7 * n) (length (MPU6050.i2c s))) as [Hge|Hlt].
  - destruct (Hok Hge) as [values Hrun]. rewrite Hrun. destruct s; repeat split; reflexivity.
  - rewrite (Hshort Hlt). destruct s; repeat split; reflexivity.
Qed.

Lemma get_values_reads_seven_per_sample_witness :
  let s := MPU6050.init [(Byte.x01, Byte.x02); (Byte.x03, Byte.x04)] in
  (1 <= 5)%nat
  /\ (length (MPU6050.i2c s) < 7 * 5)%nat
  /\ MPU6050.get_values 5 0.01 s = (Raise OSError, MPU6050.set_i2c [] s).
Proof.
  intros s.
  assert (H1 : (1 <= 5)%nat) by lia.
  assert (H2 : (length (MPU6050.i2c s) < 7 * 5)%nat) by (simpl; lia).
  split; [exact H1|]. split; [exact H2|].
  exact (proj1 (proj2 (get_values_reads_seven_per_sample 5 0.01%R s H1)) H2).
Defined.

(** ** Sample counts below one *)

(** X3: with a negative [samples] neither sampling loop runs a pass and
    nothing is read.  [calibrate] then overwrites all six offsets with zero,
    and [get_values] returns only the seven raw-unit entries, all zero: the
    scaled entries, which the first pass would create, are absent. *)
Theorem negative_samples_read_nothing :
  forall (samples : Z) (delay : R) (s : MPU6050.t),
    samples < 0 ->
    MPU6050.calibrate samples delay s =
      (Ok tt,
       MPU6050.Make (MPU6050.i2c s) (MPU6050.addr s) (Axes 0%R 0%R 0%R) (Axes 0%R 0%R 0%R)
         (MPU6050.console s ++ [Text "Calibrating MPU6050, keep the sensor still...";
                                Text "Calibration complete"]))
    /\ exists values : gmap string R,
         MPU6050.get_values samples delay s = (Ok values, s)
         /\ (forall k, In k ["GyX"; "GyY"; "GyZ"; "Tmp"; "AcX"; "AcY"; "AcZ"] ->
                       values !! k = Some 0%R)
         /\ (forall k, ~ In k ["GyX"; "GyY"; "GyZ"; "Tmp"; "AcX"; "AcY"; "AcZ"] ->
                       values !! k = None).
Proof.
  intros samples delay s Hneg.
  destruct samples as [|p|p]; try lia. clear Hneg.
  assert (Hz : (0 / IZR (Z.neg p) = 0)%R) by (unfold Rdiv; apply Rmult_0_l).
  split.
  - transitivity
      (@Ok unit tt,
       MPU6050.Make (MPU6050.i2c s) (MPU6050.addr s)
         (Axes (0 / IZR (Z.neg p)) (0 / IZR (Z.neg p)) (0 / IZR (Z.neg p)))%R
         (Axes (0 / IZR (Z.neg p)) (0 / IZR (Z.neg p)) (0 / IZR (Z.neg p)))%R
         ((MPU6050.console s ++ [Text "Calibrating MPU6050, keep the sensor still..."])
            ++ [Text "Calibration complete"])).
    + destruct s; reflexivity.
    + rewrite Hz, <- app_assoc. reflexivity.
  - exists ((fun v => v / IZR (Z.neg p))%R <$> MPU6050.values0).
    split; [|split].
    + unfold MPU6050.get_values. simpl Z.to_nat. simpl for_range.
      rewrite (bind_ok _ _ s s MPU6050.values0) by reflexivity.
      erewrite bind_ok by (apply average_run; discriminate). reflexivity.
    + intros k Hk. rewrite lookup_fmap. simpl in Hk.
      destruct Hk as [<-|[<-|[<-|[<-|[<-|[<-|[<-|[]]]]]]]];
        (change (MPU6050.values0 !! _) with (Some 0%R); simpl; rewrite Hz; reflexivity).
    + intros k Hk. rewrite lookup_fmap. unfold MPU6050.values0.
      repeat (rewrite lookup_insert; case_decide;
              [subst k; exfalso; apply Hk; repeat first [left; reflexivity | right]|]).
      rewrite lookup_empty. reflexivity.
Qed.

Lemma negative_samples_read_nothing_witness :
  let s := MPU6050.init [(Byte.x01, Byte.x02)] in
  -1 < 0
  /\ MPU6050.calibrate (-1) 0.01 s =
       (Ok tt,
        MPU6050.Make (MPU6050.i2c s) (MPU6050.addr s) (Axes 0%R 0%R 0%R) (Axes 0%R 0%R 0%R)
          (MPU6050.console s ++ [Text "Calibrating MPU6050, keep the sensor still...";
                                 Text "Calibration complete"])).
Proof.
  intros s. assert (H : -1 < 0) by lia.
  split; [exact H|].
  exact (proj1 (negative_samples_read_nothing (-1) 0.01%R s H)).
Defined.

(** ** A sensor at rest *)

Section AtRest.

Local Open Scope R_scope.

Lemma Rsum_repeat {A} (f : A -> R) (a : A) (n : nat) :
  Rsum (map f (repeat a n)) = INR n * f a.
Proof.
  induction n as [|n IH].
  - simpl. lra.
  - rewrite S_INR. simpl repeat. simpl map. simpl Rsum.
    fold (Rsum (map f (repeat a n))). rewrite IH. lra.
Qed.

Lemma fmap_dict_of_totals (f : R -> R) (t : totals) :
  f <$> dict_of_totals t =
    dict_of_totals
      {| GyX := f (GyX t); GyY := f (GyY t); GyZ := f (GyZ t); Tmp := f (Tmp t);
         AcX := f (AcX t); AcY := f (AcY t); AcZ := f (AcZ t);
         GyX_deg := f (GyX_deg t); GyY_deg := f (GyY_deg t); GyZ_deg := f (GyZ_deg t);
         AcX_g := f (AcX_g t); AcY_g := f (AcY_g t); AcZ_g := f (AcZ_g t) |}.
Proof.
  unfold dict_of_totals. rewrite !fmap_insert, fmap_empty. reflexivity.
Qed.

(** [calibrate] over a sensor that reads [r] throughout leaves it
    [calibrated_to r]. *)
Lemma calibrate_at_rest (r : reading) (n : nat) (delay : R) (rest : list (byte * byte))
    (s : MPU6050.t) :
  (1 <= n)%nat ->
  MPU6050.i2c s = calibrate_script (repeat r n) ++ rest ->
  exists s1,
    MPU6050.calibrate (Z.of_nat n) delay s = (Ok tt, s1)
    /\ calibrated_to r s1
    /\ MPU6050.i2c s1 = rest
    /\ MPU6050.console s1 =
         MPU6050.console s ++ [Text "Calibrating MPU6050, keep the sensor still...";
                               Text "Calibration complete"].
Proof.
  intros Hn Hbus.
  assert (Hne : repeat r n <> []) by (destruct n; [lia|discriminate]).
  pose proof (calibrate_run (repeat r n) delay rest s Hne Hbus) as Hrun.
  rewrite repeat_length in Hrun.
  eexists. split; [exact Hrun|]. split; [|split].
  - unfold calibrated_to. simpl. unfold accel_means, gyro_means.
    rewrite !(mean_repeat _ r n Hn). split; reflexivity.
  - reflexivity.
  - simpl. rewrite <- app_assoc. reflexivity.
Qed.

(** [get_values] over a sensor calibrated to [r] that still reads [r]. *)
Lemma get_values_at_rest (r : reading) (t : byte * byte) (m : nat) (delay : R)
    (rest : list (byte * byte)) (s : MPU6050.t) :
  (1 <= m)%nat ->
  calibrated_to r s ->
  MPU6050.i2c s = get_values_script (repeat (r, t) m) ++ rest ->
  MPU6050.get_values (Z.of_nat m) delay s =
    (Ok (resting_values (raw t / 340 + 36.53)), MPU6050.set_i2c rest s).
Proof.
  intros Hm [Hao Hgo] Hbus.
  assert (Hne : repeat (r, t) m <> []) by (destruct m; [lia|discriminate]).
  pose proof (get_values_run (repeat (r, t) m) delay rest s Hne Hbus) as Hrun.
  rewrite repeat_length in Hrun. rewrite Hrun. do 2 f_equal.
  rewrite fmap_dict_of_totals. unfold resting_values. f_equal.
  destruct (get_values_sums (MPU6050.accel_offsets s) (MPU6050.gyro_offsets s)
              (repeat (r, t) m) no_totals)
    as (H1 & H2 & H3 & H4 & H5 & H6 & H7 & H8 & H9 & H10 & H11 & H12 & H13).
  simpl in H1, H2, H3, H4, H5, H6, H7, H8, H9, H10, H11, H12, H13.
  rewrite H1, H2, H3, H4, H5, H6, H7, H8, H9, H10, H11, H12, H13.
  rewrite !Rsum_repeat. rewrite Hao, Hgo. simpl.
  assert (Hm0 : INR m <> 0) by (apply not_0_INR; lia).
  f_equal; field; exact Hm0.
Qed.

End AtRest.



(** ** The classifier as a decision list *)

Section DecisionList.

Local Open Scope R_scope.

Import motion_control.

Lemma Rgtb_absorb (a lo hi : R) : lo <= hi -> Rgtb a lo && Rgtb a hi = Rgtb a hi.
Proof.
  intros H. unfold Rgtb. destruct (Rgt_dec a lo), (Rgt_dec a hi); simpl;
    try reflexivity. exfalso. lra.
Qed.

Lemma Rltb_absorb (a lo hi : R) : lo <= hi -> Rltb a hi && Rltb a lo = Rltb a lo.
Proof.
  intros H. unfold Rltb. destruct (Rlt_dec a hi), (Rlt_dec a lo); simpl;
    try reflexivity. exfalso. lra.
Qed.

Lemma get_direction_list (angle_x angle_y angle_z : R) :
  get_direction angle_x angle_y angle_z =
    if Rgtb (Rabs angle_z) 20 then (if Rgtb angle_z 0 then "ROTATE_RIGHT" else "ROTATE_LEFT")
    else if Rltb angle_x (-15) then "LEFT"
    else if Rgtb angle_x 15 then "RIGHT"
    else if Rgtb angle_y 15 then "FORWARD"
    else if Rltb angle_y (-15) then "BACKWARD"
    else "STOP".
Proof.
  unfold get_direction, DEAD_ZONE, FORWARD_THRESHOLD, BACKWARD_THRESHOLD, LEFT_THRESHOLD,
    RIGHT_THRESHOLD, TURN_THRESHOLD.
  rewrite !Rgtb_absorb by lra.
  rewrite (Rltb_absorb angle_y (-15) (Ropp 10)) by lra.
  rewrite (Rltb_absorb angle_x (-15) (Ropp 10)) by lra.
  destruct (Rgtb (Rabs angle_z) 20), (Rltb angle_x (-15)), (Rgtb angle_x 15),
    (Rgtb angle_y 15), (Rltb angle_y (-15)); reflexivity.
Qed.

End DecisionList.

(** X5: the classifier is a decision list over the thresholds alone, in
    the order yaw, pitch, roll: the dead zone, smaller than every threshold,
    never changes a result, and a pitch beyond its threshold overrides any
    roll just as a yaw overrides both. *)
Theorem get_direction_decision_list :
  forall angle_x angle_y angle_z : R,
    motion_control.get_direction angle_x angle_y angle_z =
      if Rgtb (Rabs angle_z) 20
      then (if Rgtb angle_z 0 then "ROTATE_RIGHT" else "ROTATE_LEFT")
      else if Rltb angle_x (-15) then "LEFT"
      else if Rgtb angle_x 15 then "RIGHT"
      else if Rgtb angle_y 15 then "FORWARD"
      else if Rltb angle_y (-15) then "BACKWARD"
      else "STOP".
Proof. exact get_direction_list. Qed.

(** X6: the classifier returns STOP exactly when all three angles are
    inside their closed bands: pitch and roll within [-15, 15] and yaw within
    [-20, 20]. *)
Theorem get_direction_stop_iff :
  forall angle_x angle_y angle_z : R,
    motion_control.get_direction angle_x angle_y angle_z = "STOP" <->
    (-15 <= angle_x <= 15)%R /\ (-15 <= angle_y <= 15)%R /\ (-20 <= angle_z <= 20)%R.
Proof.
  intros angle_x angle_y angle_z. rewrite get_direction_list.
  assert (Hz : (Rabs angle_z > 20 <-> angle_z > 20 \/ angle_z < -20)%R).
  { rewrite Rabs_gt by lra. split; intros [H|H]; [left|right|left|right]; lra. }
  unfold Rgtb, Rltb.
  destruct (Rgt_dec (Rabs angle_z) 20) as [Ha|Ha].
  - split.
    + destruct (Rgt_dec angle_z 0); discriminate.
    + intros (_ & _ & H). exfalso. apply Hz in Ha. destruct Ha; lra.
  - assert (-20 <= angle_z <= 20)%R.
    { split; apply Rnot_lt_le; intros H; apply Ha, Hz; [right|left]; lra. }
    destruct (Rlt_dec angle_x (-15)), (Rgt_dec angle_x 15), (Rgt_dec angle_y 15),
      (Rlt_dec angle_y (-15));
      (split; [intros E; first [discriminate | lra] | intros He; first [reflexivity | lra]]).
Qed.

(** X7: the classifier is symmetric under reversal of the motion: negating
    all three angles turns the label into that of the opposite motion
    (FORWARD and BACKWARD, LEFT and RIGHT, ROTATE_LEFT and ROTATE_RIGHT
    exchanged, STOP kept). *)
Theorem get_direction_mirror :
  forall angle_x angle_y angle_z : R,
    motion_control.get_direction (- angle_x) (- angle_y) (- angle_z) =
      mirror (motion_control.get_direction angle_x angle_y angle_z).
Proof.
  intros angle_x angle_y angle_z. rewrite !get_direction_list. rewrite Rabs_Ropp.
  assert (Hz : (Rabs angle_z > 20 <-> angle_z > 20 \/ angle_z < -20)%R).
  { rewrite Rabs_gt by lra. split; intros [H|H]; [left|right|left|right]; lra. }
  unfold Rgtb, Rltb.
  destruct (Rgt_dec (Rabs angle_z) 20) as [Ha|Ha].
  - apply Hz in Ha.
    destruct (Rgt_dec (- angle_z) 0), (Rgt_dec angle_z 0); try reflexivity;
      exfalso; destruct Ha; lra.
  - destruct (Rlt_dec (- angle_x) (-15)), (Rgt_dec (- angle_x) 15),
      (Rlt_dec angle_x (-15)), (Rgt_dec angle_x 15),
      (Rgt_dec (- angle_y) 15), (Rlt_dec (- angle_y) (-15)),
      (Rgt_dec angle_y 15), (Rlt_dec angle_y (-15));
      try reflexivity; exfalso; lra.
Qed.

(** ** The smoothing step *)

(** X9: the smoothing step never raises and keeps the key set of the
    reading: under every key that [prev_data] also has it stores what
    [low_pass_filter] returns for the new and the previous value at the
    default weight, [0.8 * previous + (1 - 0.8) * new] as the code writes
    it, and it passes every other entry through. *)
Theorem smooth_entries :
  forall (prev_data data : gmap string R) (s : motion_control.t),
    exists data' : gmap string R,
      motion_control.smooth prev_data data s = (Ok data', s)
      /\ forall key,
           data' !! key =
             match data !! key, prev_data !! key with
             | Some new_value, Some prev_value =>
                 Some (0.8 * prev_value + (1 - 0.8) * new_value)%R
             | Some new_value, None => Some new_value
             | None, _ => None
             end.
Proof.
  intros prev_data data s. eexists. split; [apply smooth_run|].
  intros key. rewrite map_lookup_imap.
  destruct (data !! key) as [v|]; [|reflexivity]. simpl.
  destruct (prev_data !! key) as [p|]; reflexivity.
Qed.

(** ** The entries the orientation update reads *)

Section Orientation.

Local Open Scope R_scope.

Import motion_control.

Lemma update_angles_values (prev : axes R) (data : gmap string R) (dt : R)
    (vAcX vAcY vAcZ vGyX vGyY vGyZ : R) :
  data !! "AcX_g" = Some vAcX -> data !! "AcY_g" = Some vAcY ->
  data !! "AcZ_g" = Some vAcZ -> data !! "GyX_deg" = Some vGyX ->
  data !! "GyY_deg" = Some vGyY -> data !! "GyZ_deg" = Some vGyZ ->
  update_angles prev data dt =
    Ok (Axes (beta * (x prev + vGyX * dt)
              + (1 - beta) * (math.atan2 vAcY vAcZ * 180 / math.pi))
             (beta * (y prev + vGyY * dt)
              + (1 - beta)
                * (math.atan2 (- vAcX) (math.sqrt (vAcY ^ 2 + vAcZ ^ 2)) * 180 / math.pi))
             (z prev + vGyZ * dt)).
Proof.
  intros H1 H2 H3 H4 H5 H6. unfold update_angles, getitem.
  rewrite H1, H2, H3, H4, H5, H6. reflexivity.
Qed.

Lemma atan2_level (g : R) : 0 < g -> math.atan2 0 g = 0.
Proof.
  intros Hg. unfold math.atan2. destruct (Rlt_dec 0 g); [|contradiction].
  replace (0 / g) with 0 by (unfold Rdiv; ring). apply atan_0.
Qed.

End Orientation.

(** X11: the orientation update returns angles exactly when the reading
    has all six scaled entries; otherwise it raises [KeyError] for an entry
    that is missing, and this is its only failure. *)
Theorem update_angles_needs_six_entries :
  forall (prev_angles : axes R) (data : gmap string R) (dt : R),
    ((exists angles, motion_control.update_angles prev_angles data dt = Ok angles) <->
     (forall k, In k update_keys -> is_Some (data !! k)))
    /\ (forall e, motion_control.update_angles prev_angles data dt = Raise e ->
                  exists k, In k update_keys /\ data !! k = None /\ e = KeyError k).
Proof.
  intros prev_angles data dt.
  unfold motion_control.update_angles, getitem, update_keys.
  destruct (data !! "AcY_g") as [v1|] eqn:E1; simpl;
    [|split; [split; [intros [a Ha]; discriminate
                     |intros H; destruct (H "AcY_g") as [v Hv]; [simpl; tauto|congruence]]
             |intros e [= <-]; exists "AcY_g"; simpl; tauto]].
  destruct (data !! "AcZ_g") as [v2|] eqn:E2; simpl;
    [|split; [split; [intros [a Ha]; discriminate
                     |intros H; destruct (H "AcZ_g") as [v Hv]; [simpl; tauto|congruence]]
             |intros e [= <-]; exists "AcZ_g"; simpl; tauto]].
  destruct (data !! "AcX_g") as [v3|] eqn:E3; simpl;
    [|split; [split; [intros [a Ha]; discriminate
                     |intros H; destruct (H "AcX_g") as [v Hv]; [simpl; tauto|congruence]]
             |intros e [= <-]; exists "AcX_g"; simpl; tauto]].
  destruct (data !! "GyX_deg") as [v4|] eqn:E4; simpl;
    [|split; [split; [intros [a Ha]; discriminate
                     |intros H; destruct (H "GyX_deg") as [v Hv]; [simpl; tauto|congruence]]
             |intros e [= <-]; exists "GyX_deg"; simpl; tauto]].
  destruct (data !! "GyY_deg") as [v5|] eqn:E5; simpl;
    [|split; [split; [intros [a Ha]; discriminate
                     |intros H; destruct (H "GyY_deg") as [v Hv]; [simpl; tauto|congruence]]
             |intros e [= <-]; exists "GyY_deg"; simpl; tauto]].
  destruct (data !! "GyZ_deg") as [v6|] eqn:E6; simpl;
    [|split; [split; [intros [a Ha]; discriminate
                     |intros H; destruct (H "GyZ_deg") as [v Hv]; [simpl; tauto|congruence]]
             |intros e [= <-]; exists "GyZ_deg"; simpl; tauto]].
  split; [split|].
  - intros _ k Hk. simpl in Hk.
    destruct Hk as [<-|[<-|[<-|[<-|[<-|[<-|[]]]]]]]; eauto.
  - intros _. eexists. reflexivity.
  - intros e H. discriminate.
Qed.

(** ** More of the debounce *)

(** X14: the display is level-triggered and blanks on every change.  A
    label printed in one cycle is printed again in the next if the classifier
    repeats it, so a held label is printed every cycle, not once; and a
    cycle whose label differs from the one before prints nothing, nor does
    the cycle after it. *)
Theorem display_repeats_and_blanks :
  forall (directions : list string) (n : nat),
    (forall d,
       motion_control.shown directions !! n = Some (Some d) ->
       directions !! S n = Some d ->
       motion_control.shown directions !! S n = Some (Some d))
    /\ (directions !! S n <> directions !! n ->
        forall d,
          motion_control.shown directions !! S n <> Some (Some d)
          /\ motion_control.shown directions !! S (S n) <> Some (Some d)).
Proof.
  intros directions n.
  assert (Hspec : forall (i : nat) (d : string),
             motion_control.shown directions !! i = Some (Some d) <->
             ("" :: "STOP" :: directions) !! S (S i) = Some d
             /\ ("" :: "STOP" :: directions) !! S i = Some d
             /\ ("" :: "STOP" :: directions) !! i = Some d).
  { apply shown_from_spec; [lia|]. split; [lia|discriminate]. }
  split.
  - intros d Hn Hnext. apply Hspec. apply Hspec in Hn. destruct Hn as (H2 & H1 & _).
    split; [exact Hnext|]. split; [exact H2|exact H1].
  - intros Hne d. split.
    + intros H. apply Hspec in H. destruct H as (H2 & H1 & _).
      simpl in H2, H1. congruence.
    + intros H. apply Hspec in H. destruct H as (_ & H1 & H0).
      simpl in H1, H0. congruence.
Qed.

Lemma display_repeats_and_blanks_witness :
  let directions := ["LEFT"; "LEFT"; "LEFT"; "LEFT"] in
  motion_control.shown directions !! 2%nat = Some (Some "LEFT")
  /\ directions !! 3%nat = Some "LEFT"
  /\ motion_control.shown directions !! 3%nat = Some (Some "LEFT").
Proof.
  intros directions.
  split; [reflexivity|]. split; [reflexivity|].
  exact (proj1 (display_repeats_and_blanks directions 2) "LEFT" eq_refl eq_refl).
Defined.

(** ** One cycle, and a cycle cut short *)

(** X15: a cycle that finds [35] answers on the bus takes exactly those:
    five samples of seven register pairs.  It records the clock reading,
    smooths the averaged reading against [prev_data], updates the angles with
    [dt = (current_time - prev_time) / 1000], keeps both the angles and the
    smoothed reading for the next cycle, advances the debounce by the label
    of the new angles and prints the direction line exactly when the counter
    has reached 2; the calibration offsets are not touched. *)
Theorem cycle_reads_five_samples :
  forall (current_time : Z) (s : motion_control.t)
         (rs : list (reading * (byte * byte))) (rest : list (byte * byte)),
    length rs = 5%nat ->
    MPU6050.i2c (motion_control.mpu s) = get_values_script rs ++ rest ->
    exists (values data : gmap string R) (angles : axes R) (s' : motion_control.t),
      MPU6050.get_values 5 0.01 (motion_control.mpu s)
      = (Ok values, MPU6050.set_i2c rest (motion_control.mpu s))
      /\ (forall s0, motion_control.smooth (motion_control.prev_data s) values s0
                     = (Ok data, s0))
      /\ motion_control.update_angles (motion_control.prev_angles s) data
           (IZR (current_time - motion_control.prev_time s) / 1000) = Ok angles
      /\ motion_control.cycle current_time s = (Ok tt, s')
      /\ motion_control.prev_time s' = current_time
      /\ motion_control.prev_angles s' = angles
      /\ motion_control.prev_data s' = data
      /\ (motion_control.prev_direction s', motion_control.direction_count s') =
           motion_control.debounce
             (motion_control.get_direction (x angles) (y angles) (z angles))
             (motion_control.prev_direction s, motion_control.direction_count s)
      /\ MPU6050.i2c (motion_control.mpu s') = rest
      /\ MPU6050.console (motion_control.mpu s') =
           MPU6050.console (motion_control.mpu s)
             ++ (if snd (motion_control.debounce
                           (motion_control.get_direction (x angles) (y angles) (z angles))
                           (motion_control.prev_direction s,
                            motion_control.direction_count s)) >=? 2
                 then [DirectionLine
                         (motion_control.get_direction (x angles) (y angles) (z angles))
                         (motion_control.indicator_of
                            (motion_control.get_direction (x angles) (y angles) (z angles)))
                         (x angles) (y angles) (z angles)]
                 else [])
      /\ MPU6050.accel_offsets (motion_control.mpu s')
         = MPU6050.accel_offsets (motion_control.mpu s)
      /\ MPU6050.gyro_offsets (motion_control.mpu s')
         = MPU6050.gyro_offsets (motion_control.mpu s).
Proof. exact cycle_run. Qed.

Lemma cycle_reads_five_samples_witness :
  let p := (Byte.x01, Byte.x02) in
  let rs := repeat ((Axes p p p, Axes p p p), p) 5 in
  let s := motion_control.init (get_values_script rs) 0 in
  length rs = 5%nat
  /\ MPU6050.i2c (motion_control.mpu s) = get_values_script rs ++ []
  /\ exists s',
       motion_control.cycle 100 s = (Ok tt, s')
       /\ motion_control.prev_time s' = 100
       /\ MPU6050.i2c (motion_control.mpu s') = [].
Proof.
  intros p rs s.
  split; [reflexivity|]. split; [reflexivity|].
  destruct (cycle_reads_five_samples 100 s rs [] eq_refl eq_refl)
    as (values & data & angles & s' & _ & _ & _ & Hrun & Ht & _ & _ & _ & Hbus & _).
  exists s'. split; [exact Hrun|]. split; [exact Ht|exact Hbus].
Defined.

(** X16: a cycle that finds fewer than [35] answers on the bus raises
    [OSError], the bus drained.  The angles, the filter state and the
    debounce are what they were, but [prev_time] is already the new clock
    reading: the time of the failed cycle is not counted in the next [dt]. *)
Theorem cycle_cut_short :
  forall (current_time : Z) (s : motion_control.t),
    (length (MPU6050.i2c (motion_control.mpu s)) < 35)%nat ->
    motion_control.cycle current_time s =
      (Raise OSError,
       motion_control.Make (MPU6050.set_i2c [] (motion_control.mpu s))
         (motion_control.prev_angles s) current_time (motion_control.prev_data s)
         (motion_control.prev_direction s) (motion_control.direction_count s)).
Proof.
  intros current_time s Hlen. unfold motion_control.cycle.
  rewrite (bind_ok get _ s s s eq_refl).
  rewrite (bind_ok (modify (motion_control.set_prev_time current_time)) _ s
             (motion_control.set_prev_time current_time s) tt eq_refl).
  erewrite bind_raise.
  - reflexivity.
  - unfold motion_control.on_mpu.
    replace (MPU6050.get_values 5 0.01
               (motion_control.mpu (motion_control.set_prev_time current_time s)))
      with (@Raise (gmap string R) OSError, MPU6050.set_i2c [] (motion_control.mpu s)).
    + destruct s; reflexivity.
    + symmetry. unfold MPU6050.get_values. change (Z.to_nat 5) with 5%nat.
      erewrite bind_raise; [reflexivity|].
      apply (get_values_loop_short 0.01 5). destruct s; simpl in *. lia.
Qed.

Lemma cycle_cut_short_witness :
  let s := motion_control.init [(Byte.x01, Byte.x02)] 0 in
  (length (MPU6050.i2c (motion_control.mpu s)) < 35)%nat
  /\ motion_control.cycle 100 s =
       (Raise OSError,
        motion_control.Make (MPU6050.set_i2c [] (motion_control.mpu s))
          (motion_control.prev_angles s) 100 (motion_control.prev_data s)
          (motion_control.prev_direction s) (motion_control.direction_count s)).
Proof.
  intros s.
  assert (H : (length (MPU6050.i2c (motion_control.mpu s)) < 35)%nat) by (simpl; lia).
  split; [exact H|]. exact (cycle_cut_short 100 s H).
Defined.

(** ** The loop over a sensor at rest *)

Section LoopAtRest.

Local Open Scope R_scope.

Import motion_control.

Lemma smooth_fixpoint (prev data : gmap string R) (s : motion_control.t) :
  prev = ∅ \/ prev = data -> smooth prev data s = (Ok data, s).
Proof.
  intros Hprev. rewrite smooth_run. do 2 f_equal. apply map_eq. intros k.
  rewrite map_lookup_imap. destruct (data !! k) as [v|] eqn:E; [|reflexivity]. simpl.
  destruct Hprev as [->| ->].
  - rewrite lookup_empty. reflexivity.
  - rewrite E. unfold low_pass_filter. f_equal. ring.
Qed.

Lemma update_angles_rest (temp dt : R) :
  update_angles (Axes 0 0 0) (resting_values temp) dt = Ok (Axes 0 0 0).
Proof.
  rewrite (update_angles_values (Axes 0 0 0) (resting_values temp) dt 0 0 1 0 0 0)
    by reflexivity.
  replace (0 ^ 2 + 1 ^ 2) with 1 by ring.
  unfold math.sqrt. rewrite sqrt_1, Ropp_0, (atan2_level 1) by lra.
  f_equal. simpl x. simpl y. simpl z. f_equal; unfold Rdiv; ring.
Qed.

Lemma get_values_script_app (l1 l2 : list (reading * (byte * byte))) :
  get_values_script (l1 ++ l2) = get_values_script l1 ++ get_values_script l2.
Proof. unfold get_values_script. apply flat_map_app. Qed.

(** A cycle at rest: the state stays at rest with one more match, and the
    STOP line is printed once STOP has been matched twice. *)
Lemma cycle_at_rest (r : reading) (t : byte * byte) (first : bool) (c : Z)
    (current_time : Z) (rest : list (byte * byte)) (s : motion_control.t) :
  at_rest r (raw t / 340 + 36.53) first c s ->
  MPU6050.i2c (mpu s) = get_values_script (repeat (r, t) 5) ++ rest ->
  exists s',
    cycle current_time s = (Ok tt, s')
    /\ at_rest r (raw t / 340 + 36.53) false (c + 1) s'
    /\ MPU6050.i2c (mpu s') = rest
    /\ MPU6050.console (mpu s') =
         MPU6050.console (mpu s) ++ (if (c + 1 >=? 2)%Z then [stop_line] else []).
Proof.
  intros (Hcal & Hang & Hpd & Hdir & Hcnt) Hbus.
  destruct (cycle_run current_time s (repeat (r, t) 5) rest eq_refl Hbus)
    as (values & data & angles & s' & Hgv & Hsm & Hup & Hrun & Ht & Ha & Hd & Hdeb
        & Hbus' & Hcon & Hao & Hgo).
  assert (Hvalues : values = resting_values (raw t / 340 + 36.53)).
  { pose proof (get_values_at_rest r t 5 0.01 rest (mpu s)) as H.
    change (Z.of_nat 5) with 5%Z in H. rewrite H in Hgv; [|lia|exact Hcal|exact Hbus].
    congruence. }
  rewrite Hvalues in Hsm.
  assert (Hdata : data = resting_values (raw t / 340 + 36.53)).
  { specialize (Hsm s). rewrite smooth_fixpoint in Hsm; [congruence|].
    rewrite Hpd. destruct first; [left|right]; reflexivity. }
  rewrite Hdata in Hup, Hd.
  assert (Hangles : angles = Axes 0 0 0).
  { rewrite Hang, update_angles_rest in Hup. congruence. }
  rewrite Hangles in Ha, Hdeb, Hcon. simpl x in *. simpl y in *. simpl z in *.
  rewrite classify_stop, Hdir, Hcnt in Hdeb, Hcon.
  change (debounce "STOP" ("STOP", c)) with ("STOP", (c + 1)%Z) in Hdeb, Hcon.
  exists s'. split; [exact Hrun|]. split; [|split; [exact Hbus'|exact Hcon]].
  unfold at_rest, calibrated_to. destruct Hcal as [Hcal1 Hcal2].
  rewrite Hao, Hgo. inversion Hdeb. repeat split; try assumption; reflexivity.
Qed.

Lemma cycles_at_rest (r : reading) (t : byte * byte) (ticks : list Z) :
  forall (c : Z) (rest : list (byte * byte)) (s : motion_control.t),
    (1 <= c)%Z ->
    at_rest r (raw t / 340 + 36.53) false c s ->
    MPU6050.i2c (mpu s) = get_values_script (repeat (r, t) (5 * length ticks)) ++ rest ->
    exists s',
      for_each ticks (fun current_time _ => cycle current_time) tt s = (Ok tt, s')
      /\ at_rest r (raw t / 340 + 36.53) false (c + Z.of_nat (length ticks)) s'
      /\ MPU6050.i2c (mpu s') = rest
      /\ MPU6050.console (mpu s') =
           MPU6050.console (mpu s) ++ repeat stop_line (length ticks).
Proof.
  induction ticks as [|t1 ticks IH]; intros c rest s Hc Hrest Hbus.
  - exists s. split; [reflexivity|]. simpl. rewrite Z.add_0_r, app_nil_r.
    split; [exact Hrest|]. split; [exact Hbus|reflexivity].
  - assert (Hsplit : (5 * length (t1 :: ticks) = 5 + 5 * length ticks)%nat)
      by (simpl; lia).
    rewrite Hsplit, repeat_app, get_values_script_app, <- app_assoc in Hbus.
    destruct (cycle_at_rest r t false c t1 _ s Hrest Hbus) as (s1 & Hrun1 & Hrest1 & Hbus1 & Hcon1).
    destruct (IH (c + 1)%Z rest s1) as (s' & Hrun & Hrest' & Hbus' & Hcon'); try assumption.
    { lia. }
    exists s'. split; [|split; [|split]].
    + simpl for_each. rewrite (bind_ok _ _ s s1 tt Hrun1). exact Hrun.
    + replace (c + Z.of_nat (length (t1 :: ticks)))%Z
        with (c + 1 + Z.of_nat (length ticks))%Z by (simpl length; lia).
      exact Hrest'.
    + exact Hbus'.
    + rewrite Hcon', Hcon1.
      destruct (Z.geb_spec (c + 1) 2) as [_|Hlt]; [|lia].
      rewrite <- app_assoc. reflexivity.
Qed.

End LoopAtRest.

(** X17: the whole program over a sensor at rest.  If the sensor gives the
    same six-axis reading throughout (whatever it is: calibration makes it
    the neutral position), then [start_direction_display] calibrates over
    100 samples and, in each of the cycles that follow, reads 5 samples,
    keeps all three angles at zero and classifies STOP; it prints its five
    lines of text and then the STOP line in every cycle but the first, and
    takes from the bus exactly the 600 answers of the calibration and 35 for
    each cycle. *)
Theorem rest_displays_stop :
  forall (r : reading) (t : byte * byte) (ticks : list Z) (rest : list (byte * byte))
         (s : motion_control.t),
    motion_control.prev_angles s = Axes 0%R 0%R 0%R ->
    MPU6050.i2c (motion_control.mpu s) =
      calibrate_script (repeat r 100)
        ++ get_values_script (repeat (r, t) (5 * length ticks)) ++ rest ->
    exists s',
      motion_control.start_direction_display ticks s = (Ok tt, s')
      /\ MPU6050.console (motion_control.mpu s') =
           MPU6050.console (motion_control.mpu s)
             ++ [Text "Calibrating sensor, please keep hand in neutral position...";
                 Text "Calibrating MPU6050, keep the sensor still...";
                 Text "Calibration complete";
                 Text "Calibration complete! Start moving your hand to see directions.";
                 Text "MODIFIED MAPPING: forward=Y+, backward=Y-, left=X-, right=X+"]
             ++ repeat stop_line (length ticks - 1)
      /\ motion_control.prev_angles s' = Axes 0%R 0%R 0%R
      /\ MPU6050.i2c (motion_control.mpu s') = rest.
Proof.
  intros r t ticks rest s Hang Hbus.
  destruct s as [m pa pt pd pdir dc]. simpl in Hang, Hbus. subst pa.
  destruct m as [bus a ao go con]. simpl in Hbus.
  destruct (calibrate_at_rest r 100 0.01
              (get_values_script (repeat (r, t) (5 * length ticks)) ++ rest)
              (MPU6050.Make bus a ao go
                 (con ++ [Text "Calibrating sensor, please keep hand in neutral position..."])))
    as (m1 & Hcal & Hoff & Hbus1 & Hcon1); [lia|exact Hbus|].
  change (Z.of_nat 100) with 100 in Hcal.
  unfold motion_control.start_direction_display.
  erewrite bind_ok by reflexivity.
  erewrite bind_ok by reflexivity.
  erewrite bind_ok by reflexivity.
  erewrite bind_ok by reflexivity.
  erewrite bind_ok by (apply on_mpu_ok; exact Hcal).
  erewrite bind_ok by reflexivity.
  erewrite bind_ok by reflexivity.
  destruct m1 as [bus1 a1 ao1 go1 con1].
  cbn [MPU6050.i2c MPU6050.console] in Hbus1, Hcon1. subst bus1 con1.
  destruct ticks as [|t1 ticks].
  - eexists. split; [reflexivity|]. simpl.
    rewrite <- ?app_assoc. repeat split; reflexivity.
  - assert (Hsplit : (5 * length (t1 :: ticks) = 5 + 5 * length ticks)%nat)
      by (simpl; lia).
    rewrite Hsplit, repeat_app, get_values_script_app, <- app_assoc.
    match goal with |- context [for_each _ _ tt ?s0] => set (s7 := s0) end.
    destruct (cycle_at_rest r t true 0 t1
                (get_values_script (repeat (r, t) (5 * length ticks)) ++ rest) s7)
      as (s8 & Hrun8 & Hrest8 & Hbus8 & Hcon8).
    { unfold at_rest, s7. simpl. repeat split; try reflexivity; apply Hoff. }
    { reflexivity. }
    destruct (cycles_at_rest r t ticks 1 rest s8) as (s' & Hrun & Hrest' & Hbus' & Hcon');
      [lia|exact Hrest8|exact Hbus8|].
    exists s'. split; [|split; [|split]].
    + simpl for_each. rewrite (bind_ok _ _ s7 s8 tt Hrun8). exact Hrun.
    + rewrite Hcon', Hcon8. unfold s7. simpl.
      rewrite Nat.sub_0_r, app_nil_r, <- !app_assoc. reflexivity.
    + apply Hrest'.
    + exact Hbus'.
Qed.

Lemma rest_displays_stop_witness :
  let r : reading := (Axes (Byte.x01, Byte.x02) (Byte.xff, Byte.xf0) (Byte.x40, Byte.x10),
                      Axes (Byte.x00, Byte.x07) (Byte.xff, Byte.xff) (Byte.x00, Byte.x00)) in
  let t := (Byte.xf0, Byte.x00) in
  let ticks := [100; 200; 300] in
  let s := motion_control.init
             (calibrate_script (repeat r 100)
                ++ get_values_script (repeat (r, t) (5 * length ticks)) ++ []) 0 in
  motion_control.prev_angles s = Axes 0%R 0%R 0%R
  /\ MPU6050.i2c (motion_control.mpu s) =
       calibrate_script (repeat r 100)
         ++ get_values_script (repeat (r, t) (5 * length ticks)) ++ []
  /\ exists s',
       motion_control.start_direction_display ticks s = (Ok tt, s')
       /\ MPU6050.console (motion_control.mpu s') =
            MPU6050.console (motion_control.mpu s)
              ++ [Text "Calibrating sensor, please keep hand in neutral position...";
                  Text "Calibrating MPU6050, keep the sensor still...";
                  Text "Calibration complete";
                  Text "Calibration complete! Start moving your hand to see directions.";
                  Text "MODIFIED MAPPING: forward=Y+, backward=Y-, left=X-, right=X+"]
              ++ repeat stop_line (length ticks - 1).
Proof.
  intros r t ticks s.
  split; [reflexivity|]. split; [reflexivity|].
  destruct (rest_displays_stop r t ticks [] s eq_refl eq_refl) as (s' & Hrun & Hcon & _).
  exists s'. split; [exact Hrun|exact Hcon].
Defined.

(** ** The outcomes of the standalone filter *)

(** X18: every call of [apply_complementary_filter] ends in one of five
    exceptions, decided by the namespace and the accelerometer dictionary
    alone: [NameError] for [math] where it is unbound; otherwise [KeyError]
    for the first of AcY_g, AcZ_g, AcX_g that is missing; otherwise
    [NameError] for [angle_x].  The gyroscope dictionary, [dt] and [alpha]
    are never reached. *)
Theorem apply_complementary_filter_outcome :
  forall (globals : list string) (accel_data gyro_data : gmap string R) (dt alpha : R),
    MPU6050.apply_complementary_filter globals accel_data gyro_data dt alpha =
      if negb (existsb (String.eqb "math") globals) then Raise (NameError "math")
      else match accel_data !! "AcY_g", accel_data !! "AcZ_g", accel_data !! "AcX_g" with
           | None, _, _ => Raise (KeyError "AcY_g")
           | Some _, None, _ => Raise (KeyError "AcZ_g")
           | Some _, Some _, None => Raise (KeyError "AcX_g")
           | Some _, Some _, Some _ => Raise (NameError "angle_x")
           end.
Proof.
  intros globals accel_data gyro_data dt alpha.
  unfold MPU6050.apply_complementary_filter, MPU6050.load_global, getitem.
  destruct (existsb (String.eqb "math") globals); [|reflexivity]. simpl.
  destruct (accel_data !! "AcY_g"); [|reflexivity]. simpl.
  destruct (accel_data !! "AcZ_g"); [|reflexivity]. simpl.
  destruct (accel_data !! "AcX_g"); reflexivity.
Qed.

(** ** The range of an uncalibrated reading *)

Section Ranges.

Local Open Scope R_scope.

Lemma raw_range (p : byte * byte) : -32768 <= raw p <= 32767.
Proof.
  unfold raw. pose proof (combine_range p) as [Hlo Hhi].
  split; apply IZR_le; assumption.
Qed.

Lemma Rsum_bounds {A} (f : A -> R) (lo hi : R) (l : list A) :
  (forall a, lo <= f a <= hi) ->
  INR (length l) * lo <= Rsum (map f l) <= INR (length l) * hi.
Proof.
  intros Hf. induction l as [|a l IH].
  - simpl. lra.
  - change (length (a :: l)) with (S (length l)). rewrite S_INR.
    change (Rsum (map f (a :: l))) with (f a + Rsum (map f l)).
    specialize (Hf a). lra.
Qed.

Lemma mean_bounds {A} (f : A -> R) (lo hi : R) (l : list A) :
  l <> [] -> (forall a, lo <= f a <= hi) -> lo <= mean (map f l) <= hi.
Proof.
  intros Hne Hf. unfold mean. rewrite length_map.
  assert (Hn : 0 < INR (length l)).
  { apply lt_0_INR. destruct l; [contradiction|simpl; lia]. }
  destruct (Rsum_bounds f lo hi l Hf) as [Hlo Hhi].
  split.
  - apply Rmult_le_reg_l with (INR (length l)); [exact Hn|].
    replace (INR (length l) * (Rsum (map f l) / INR (length l))) with (Rsum (map f l))
      by (field; lra).
    exact Hlo.
  - apply Rmult_le_reg_l with (INR (length l)); [exact Hn|].
    replace (INR (length l) * (Rsum (map f l) / INR (length l))) with (Rsum (map f l))
      by (field; lra).
    exact Hhi.
Qed.

(** The acceleration entries as means of per-sample terms. *)
Lemma get_values_scaled (rs : list (reading * (byte * byte))) (delay : R)
    (rest : list (byte * byte)) (s : MPU6050.t) :
  rs <> [] ->
  MPU6050.i2c s = get_values_script rs ++ rest ->
  let ao := MPU6050.accel_offsets s in
  exists values : gmap string R,
    MPU6050.get_values (Z.of_nat (length rs)) delay s = (Ok values, MPU6050.set_i2c rest s)
    /\ values !! "AcX_g" = Some (mean (map (fun r => (raw (x (fst (fst r))) - x ao) / 16384) rs))
    /\ values !! "AcY_g" = Some (mean (map (fun r => (raw (y (fst (fst r))) - y ao) / 16384) rs))
    /\ values !! "AcZ_g" = Some (mean (map (fun r => (raw (z (fst (fst r))) - z ao) / 16384) rs)).
Proof.
  intros Hne Hbus ao.
  eexists. split; [apply (get_values_run rs delay rest s Hne Hbus)|].
  fold ao. rewrite fmap_dict_of_totals.
  destruct (get_values_sums ao (MPU6050.gyro_offsets s) rs no_totals)
    as (_ & _ & _ & _ & _ & _ & _ & _ & _ & _ & H11 & H12 & H13).
  simpl in H11, H12, H13.
  unfold mean. rewrite !length_map.
  match goal with |- context [dict_of_totals ?T] =>
    destruct (dict_of_totals_scaled T) as (K1 & K2 & K3 & _ & _ & _)
  end.
  rewrite K1, K2, K3. simpl.
  rewrite H11, H12, H13.
  repeat split; f_equal; f_equal; lra.
Qed.

End Ranges.

(** X19: a reading taken before any calibration (the accelerometer
    offsets still zero) stays within the accelerometer's full scale: every
    acceleration entry lies in [-2, 2) g. *)
Theorem uncalibrated_reading_in_range :
  forall (rs : list (reading * (byte * byte))) (delay : R) (rest : list (byte * byte))
         (s : MPU6050.t),
    rs <> [] ->
    MPU6050.accel_offsets s = Axes 0%R 0%R 0%R ->
    MPU6050.i2c s = get_values_script rs ++ rest ->
    exists values : gmap string R,
      MPU6050.get_values (Z.of_nat (length rs)) delay s = (Ok values, MPU6050.set_i2c rest s)
      /\ forall k, In k ["AcX_g"; "AcY_g"; "AcZ_g"] ->
           exists v, values !! k = Some v /\ (-2 <= v < 2)%R.
Proof.
  intros rs delay rest s Hne Hao Hbus.
  destruct (get_values_scaled rs delay rest s Hne Hbus)
    as (values & Hrun & K1 & K2 & K3).
  rewrite Hao in K1, K2, K3. simpl x in *. simpl y in *. simpl z in *.
  assert (Hacc : forall f : reading * (byte * byte) -> byte * byte,
             (-2 <= mean (map (fun r => (raw (f r) - 0) / 16384) rs) < 2)%R).
  { intros f.
    destruct (mean_bounds (fun r => (raw (f r) - 0) / 16384)%R (-2)%R (32767 / 16384)%R rs Hne)
      as [Hlo Hhi].
    - intros r. pose proof (raw_range (f r)). lra.
    - lra. }
  exists values. split; [exact Hrun|].
  intros k Hk. simpl in Hk. destruct Hk as [<-|[<-|[<-|[]]]]; eexists; (split; [eassumption|]).
  - apply (Hacc (fun r => x (fst (fst r)))).
  - apply (Hacc (fun r => y (fst (fst r)))).
  - apply (Hacc (fun r => z (fst (fst r)))).
Qed.

Lemma uncalibrated_reading_in_range_witness :
  let p := (Byte.x7f, Byte.xff) in
  let rs := [((Axes p p p, Axes p p p), p)] in
  let s := MPU6050.init (get_values_script rs) in
  rs <> []
  /\ MPU6050.accel_offsets s = Axes 0%R 0%R 0%R
  /\ MPU6050.i2c s = get_values_script rs ++ []
  /\ exists values : gmap string R,
       MPU6050.get_values 1 0.01 s = (Ok values, MPU6050.set_i2c [] s)
       /\ exists v, values !! "AcX_g" = Some v /\ (-2 <= v < 2)%R.
Proof.
  intros p rs s.
  split; [discriminate|]. split; [reflexivity|]. split; [reflexivity|].
  destruct (uncalibrated_reading_in_range rs 0.01%R [] s)
    as (values & Hrun & Hacc); try reflexivity; [discriminate|].
  exists values. split; [exact Hrun|]. apply Hacc. left. reflexivity.
Defined.

(** ** The LED ramp *)

Section Ramp.

Local Open Scope Z_scope.

Lemma duties_foldl (ds : list Z) :
  forall led, PWM.duties (foldl PWM.duty led ds) = PWM.duties led ++ ds.
Proof.
  induction ds as [|d ds IH]; intros led; simpl.
  - rewrite app_nil_r. reflexivity.
  - rewrite IH. simpl. rewrite <- app_assoc. reflexivity.
Qed.

Lemma freq_foldl (ds : list Z) :
  forall led, PWM.freq (foldl PWM.duty led ds) = PWM.freq led.
Proof. induction ds as [|d ds IH]; intros led; simpl; [reflexivity|]. rewrite IH. reflexivity. Qed.

Lemma duties_pass (led : PWM.t) :
  PWM.duties (PWM.pass led) =
    PWM.duties led ++ PWM.range 0 1024 10 ++ PWM.range 1023 (-1) (-10).
Proof. unfold PWM.pass. rewrite !duties_foldl, <- app_assoc. reflexivity. Qed.

Lemma steps_ok_lookup (l : list Z) :
  steps_ok l = true ->
  forall (i : nat) (a b : Z), l !! i = Some a -> l !! S i = Some b -> Z.abs (b - a) <= 10.
Proof.
  induction l as [|x l IH]; intros Hok i a b Ha Hb; [discriminate|].
  destruct l as [|y l]; [destruct i; discriminate|].
  simpl in Hok. apply andb_prop in Hok as [Hxy Hrest].
  destruct i as [|i].
  - simpl in Ha, Hb. injection Ha as <-. injection Hb as <-. apply Z.leb_le. exact Hxy.
  - apply (IH Hrest i a b); assumption.
Qed.

Lemma steps_ok_app (l1 l2 : list Z) :
  steps_ok l1 = true -> steps_ok l2 = true ->
  (forall a b, last l1 = Some a -> head l2 = Some b -> Z.abs (b - a) <= 10) ->
  steps_ok (l1 ++ l2) = true.
Proof.
  induction l1 as [|x l1 IH]; intros H1 H2 Hb; [exact H2|].
  destruct l1 as [|y l1].
  - simpl. destruct l2 as [|z l2]; [reflexivity|].
    change (steps_ok (x :: z :: l2)) with ((Z.abs (z - x) <=? 10) && steps_ok (z :: l2)).
    rewrite H2, andb_true_r. apply Z.leb_le. apply Hb; reflexivity.
  - change (steps_ok (x :: y :: l1)) with ((Z.abs (y - x) <=? 10) && steps_ok (y :: l1)) in H1.
    apply andb_prop in H1 as [Hxy H1].
    change (steps_ok ((x :: y :: l1) ++ l2))
      with ((Z.abs (y - x) <=? 10) && steps_ok ((y :: l1) ++ l2)).
    rewrite Hxy. simpl andb. apply IH; [exact H1|exact H2|].
    intros a b Ha. apply Hb. rewrite last_cons. rewrite Ha. reflexivity.
Qed.

Lemma main_duties (n : nat) :
  length (PWM.duties (PWM.main n)) = (206 * n)%nat
  /\ Forall (fun d => 0 <= d <= 1023) (PWM.duties (PWM.main n))
  /\ steps_ok (PWM.duties (PWM.main n)) = true
  /\ (n <> 0%nat -> last (PWM.duties (PWM.main n)) = Some 3)
  /\ PWM.freq (PWM.main n) = 2000.
Proof.
  induction n as [|n (Hlen & Hall & Hok & Hlast & Hfreq)].
  - repeat split; try reflexivity; [apply Forall_nil; exact I|contradiction].
  - change (PWM.main (S n)) with (PWM.pass (PWM.main n)).
    rewrite duties_pass.
    set (block := PWM.range 0 1024 10 ++ PWM.range 1023 (-1) (-10)).
    assert (Hblen : length block = 206%nat) by reflexivity.
    assert (Hball : Forall (fun d => 0 <= d <= 1023) block).
    { apply Forall_forall. intros d Hd.
      assert (Hb : forallb (fun d => (0 <=? d) && (d <=? 1023)) block = true)
        by (vm_compute; reflexivity).
      rewrite forallb_forall in Hb. apply list_elem_of_In in Hd. specialize (Hb d Hd).
      apply andb_prop in Hb as [H0 H1]. apply Z.leb_le in H0. apply Z.leb_le in H1. lia. }
    assert (Hbok : steps_ok block = true) by (vm_compute; reflexivity).
    assert (Hbhead : head block = Some 0) by reflexivity.
    assert (Hblast : last block = Some 3) by (vm_compute; reflexivity).
    split; [|split; [|split; [|split]]].
    + rewrite length_app, Hlen, Hblen. lia.
    + apply Forall_app. split; assumption.
    + apply steps_ok_app; [exact Hok|exact Hbok|].
      intros a b Ha Hb. rewrite Hbhead in Hb. injection Hb as <-.
      destruct n as [|n]; [discriminate|].
      rewrite Hlast in Ha by discriminate. injection Ha as <-. lia.
    + intros _. rewrite last_app, Hblast. reflexivity.
    + unfold PWM.pass. rewrite !freq_foldl. exact Hfreq.
Qed.

End Ramp.

(** X20: the LED ramp stays in range and never jumps.  After any number of
    passes of the loop of [PWM.py], each pass has written 206 duties, every
    duty written lies in [0, 1023], any two written one after the other
    differ by at most 10 (also where the ramp turns, from 1020 to 1023 and
    from 3 to 0), and the frequency is still 2000. *)
Theorem pwm_ramp_in_range :
  forall n : nat,
    length (PWM.duties (PWM.main n)) = (206 * n)%nat
    /\ (forall d, d ∈ PWM.duties (PWM.main n) -> 0 <= d <= 1023)
    /\ (forall (i : nat) (a b : Z),
          PWM.duties (PWM.main n) !! i = Some a ->
          PWM.duties (PWM.main n) !! S i = Some b ->
          Z.abs (b - a) <= 10)
    /\ PWM.freq (PWM.main n) = 2000.
Proof.
  intros n. destruct (main_duties n) as (Hlen & Hall & Hok & _ & Hfreq).
  split; [exact Hlen|]. split; [|split; [|exact Hfreq]].
  - intros d Hd. rewrite Forall_forall in Hall. apply Hall. exact Hd.
  - apply steps_ok_lookup. exact Hok.
Qed.

(** ** Calibration on a bus that runs dry *)

Section ShortBus.

Local Open Scope R_scope.

Lemma calibrate_short (n : nat) (delay : R) (s : MPU6050.t) :
  (length (MPU6050.i2c s) < 6 * n)%nat ->
  MPU6050.calibrate (Z.of_nat n) delay s =
    (Raise OSError,
     MPU6050.Make [] (MPU6050.addr s) (MPU6050.accel_offsets s) (MPU6050.gyro_offsets s)
       (MPU6050.console s ++ [Text "Calibrating MPU6050, keep the sensor still..."])).
Proof.
  intros Hlen. unfold MPU6050.calibrate.
  rewrite (bind_ok _ _ s _ tt) by reflexivity.
  rewrite Nat2Z.id.
  erewrite bind_raise.
  2:{ apply calibrate_loop_short. destruct s; exact Hlen. }
  destruct s; reflexivity.
Qed.

End ShortBus.

(** ** The sign of a register pair *)

(** X22: the first byte carries the sign: the decoded value is negative
    exactly when the top bit of the first byte is set, and it is 256 times
    the first byte read as a signed byte plus the second byte. *)
Theorem combine_sign :
  forall b0 b1 : byte,
    (MPU6050.combine (b0, b1) < 0 <-> 128 <= MPU6050.byte_to_Z b0)
    /\ MPU6050.combine (b0, b1) =
         256 * (if 128 <=? MPU6050.byte_to_Z b0
                then MPU6050.byte_to_Z b0 - 256 else MPU6050.byte_to_Z b0)
         + MPU6050.byte_to_Z b1.
Proof.
  intros b0 b1. rewrite combine_eq. cbv zeta.
  pose proof (byte_to_Z_range b0). pose proof (byte_to_Z_range b1).
  destruct (Z.gtb_spec (MPU6050.byte_to_Z b0 * 256 + MPU6050.byte_to_Z b1) 32767);
    destruct (Z.leb_spec 128 (MPU6050.byte_to_Z b0)); lia.
Qed.

(** ** What the display code touches *)

Section DisplayFrame.

Import motion_control.

Lemma last_cons_default {A} (l : list A) :
  forall a d : A, List.last (a :: l) d = List.last l a.
Proof.
  induction l as [|b l IH]; intros a d; [reflexivity|].
  change (List.last (a :: b :: l) d) with (List.last (b :: l) d).
  rewrite (IH b d), (IH b a). reflexivity.
Qed.

Lemma display_all_frame (angles : list (axes R)) :
  forall s : motion_control.t,
    exists s',
      display_all angles s = (Ok tt, s')
      /\ prev_angles s' = prev_angles s
      /\ prev_time s' = prev_time s
      /\ prev_data s' = prev_data s
      /\ MPU6050.i2c (mpu s') = MPU6050.i2c (mpu s)
      /\ MPU6050.accel_offsets (mpu s') = MPU6050.accel_offsets (mpu s)
      /\ MPU6050.gyro_offsets (mpu s') = MPU6050.gyro_offsets (mpu s)
      /\ prev_direction s' = List.last (classify_all angles) (prev_direction s)
      /\ (0 <= direction_count s -> 0 <= direction_count s').
Proof.
  induction angles as [|a angles IH]; intros s.
  - exists s. repeat split; try reflexivity. intros H; exact H.
  - pose proof (display_run_state a s) as Hrun1. cbv zeta in Hrun1.
    set (d := get_direction (x a) (y a) (z a)) in *.
    assert (Hst : exists c, debounce d (prev_direction s, direction_count s) = (d, c)
                            /\ (0 <= direction_count s -> 0 <= c)).
    { unfold debounce. destruct (String.eqb_spec d (prev_direction s)) as [->|Hne].
      - exists (direction_count s + 1). split; [reflexivity|lia].
      - exists 0. split; [reflexivity|lia]. }
    destruct Hst as (c & Hdeb & Hc). rewrite Hdeb in Hrun1. simpl fst in Hrun1.
    simpl snd in Hrun1.
    match type of Hrun1 with _ = (_, ?s1) => destruct (IH s1)
      as (s' & Hrun & H1 & H2 & H3 & H4 & H5 & H6 & H7 & H8) end.
    exists s'. split.
    + unfold display_all. simpl for_each. rewrite (bind_ok _ _ _ _ _ Hrun1). exact Hrun.
    + destruct s as [m pa pt pd pdir dc]. destruct m as [bus ad ao go con].
      simpl in *. rewrite H1, H2, H3, H4, H5, H6, H7.
      repeat split; try reflexivity.
      * fold d. generalize (classify_all angles). intros [|y l]; [reflexivity|].
        rewrite !last_cons_default. reflexivity.
      * intros H0. apply H8. apply Hc. exact H0.
Qed.

End DisplayFrame.

(** X23: the display code never raises and touches nothing but the
    debounce and the console: over any run of angle triples it leaves the
    angles, the clock reading, the filter state, the bus and the offsets
    alone; it leaves in [prev_direction] the label of the last triple; and it
    never makes the counter negative. *)
Theorem display_only_debounces :
  forall (angles : list (axes R)) (s : motion_control.t),
    exists s',
      display_all angles s = (Ok tt, s')
      /\ motion_control.prev_angles s' = motion_control.prev_angles s
      /\ motion_control.prev_time s' = motion_control.prev_time s
      /\ motion_control.prev_data s' = motion_control.prev_data s
      /\ MPU6050.i2c (motion_control.mpu s') = MPU6050.i2c (motion_control.mpu s)
      /\ MPU6050.accel_offsets (motion_control.mpu s')
         = MPU6050.accel_offsets (motion_control.mpu s)
      /\ MPU6050.gyro_offsets (motion_control.mpu s')
         = MPU6050.gyro_offsets (motion_control.mpu s)
      /\ motion_control.prev_direction s'
         = List.last (classify_all angles) (motion_control.prev_direction s)
      /\ (0 <= motion_control.direction_count s -> 0 <= motion_control.direction_count s').
Proof. intros angles s. apply display_all_frame. Qed.

(** ** Start-up on a bus that runs dry *)

Lemma on_mpu_raise {A} (m : M MPU6050.t A) (s : motion_control.t) (e : exn)
    (d : MPU6050.t) :
  m (motion_control.mpu s) = (Raise e, d) ->
  motion_control.on_mpu m s = (Raise e, motion_control.set_mpu d s).
Proof. intros H. unfold motion_control.on_mpu. rewrite H. reflexivity. Qed.

(** X24: calibration failure aborts start-up.  If the bus answers fewer
    than the 600 reads of the calibration, [start_direction_display] raises
    [OSError] after two lines of text, whatever clock readings were to
    follow: no cycle runs, nothing more is printed, and the sensor keeps the
    offsets it had. *)
Theorem startup_aborts_on_short_bus :
  forall (ticks : list Z) (s : motion_control.t),
    (length (MPU6050.i2c (motion_control.mpu s)) < 600)%nat ->
    motion_control.start_direction_display ticks s =
      (Raise OSError,
       motion_control.Make
         (MPU6050.Make [] (MPU6050.addr (motion_control.mpu s))
            (MPU6050.accel_offsets (motion_control.mpu s))
            (MPU6050.gyro_offsets (motion_control.mpu s))
            (MPU6050.console (motion_control.mpu s)
               ++ [Text "Calibrating sensor, please keep hand in neutral position...";
                   Text "Calibrating MPU6050, keep the sensor still..."]))
         (motion_control.prev_angles s) (motion_control.prev_time s) ∅ "STOP" 0).
Proof.
  intros ticks s Hlen.
  destruct s as [m pa pt pd pdir dc]. destruct m as [bus a ao go con]. simpl in Hlen.
  pose proof (calibrate_short 100 0.01
                (MPU6050.Make bus a ao go
                   (con ++ [Text "Calibrating sensor, please keep hand in neutral position..."])))
    as Hcal.
  change (Z.of_nat 100) with 100 in Hcal.
  assert (Hshort : (length bus < 6 * 100)%nat) by lia.
  specialize (Hcal Hshort).
  unfold motion_control.start_direction_display.
  erewrite bind_ok by reflexivity.
  erewrite bind_ok by reflexivity.
  erewrite bind_ok by reflexivity.
  erewrite bind_ok by reflexivity.
  erewrite bind_raise by (apply on_mpu_raise; exact Hcal).
  simpl. rewrite <- app_assoc. reflexivity.
Qed.

Lemma startup_aborts_on_short_bus_witness :
  let s := motion_control.init [(Byte.x01, Byte.x02)] 0 in
  (length (MPU6050.i2c (motion_control.mpu s)) < 600)%nat
  /\ motion_control.start_direction_display [100; 200] s =
       (Raise OSError,
        motion_control.Make
          (MPU6050.Make [] (MPU6050.addr (motion_control.mpu s))
             (MPU6050.accel_offsets (motion_control.mpu s))
             (MPU6050.gyro_offsets (motion_control.mpu s))
             (MPU6050.console (motion_control.mpu s)
                ++ [Text "Calibrating sensor, please keep hand in neutral position...";
                    Text "Calibrating MPU6050, keep the sensor still..."]))
          (motion_control.prev_angles s) (motion_control.prev_time s) ∅ "STOP" 0).
Proof.
  intros s.
  assert (H : (length (MPU6050.i2c (motion_control.mpu s)) < 600)%nat) by (simpl; lia).
  split; [exact H|]. exact (startup_aborts_on_short_bus [100; 200] s H).
Defined.
